(** * Shoes store backend: cart pricing, order lifecycle and inventory

    A shallow embedding of the cart model (models/Cart.js), the product
    model's stock helpers, the order model (schema hooks and methods) and
    the cart / order route handlers, followed by the properties of the
    natural-language specification stated over that embedding.

    Conventions of the embedding.
    - A JavaScript [Number] is an exact rational ([Q]); rounding of IEEE
      doubles is not modelled.  Equalities that depend on the order of
      additions are stated with [==] (equality of rationals).
    - A document id ([ObjectId]) is the string that [toString()] yields.
      An id that a handler takes as [ObjectId] (a route parameter, the id
      of the caller) stands for a well-formed id; a product id inside a
      request body is a string, which the handler's lookup casts.
    - [null] / [undefined] string fields are [option string]; JavaScript
      truthiness of such a field is [truthy].
    - Methods that mutate [this] are functions returning the new document.
    - Collections of the document store are explicit: products in a finite
      map keyed by id, orders in a list in insertion order.
    - Where a route creates a document or adds an element to one
      (checkout, adding to the cart, to the wishlist, to the addresses),
      the validators and casts of the schema that can refuse the new data
      are part of the route's model; a refused save answers through the
      handler's [catch]. *)

From Stdlib Require Import QArith ZArith List String Ascii Lia Bool.
From Stdlib Require Import DecimalString Qround Lqa.
From stdpp Require Import gmap strings list.

Local Open Scope Q_scope.

(** ** JavaScript numbers *)

Module Js.

Abbreviation Number := Q.

(** [a >= b], [a > b], [a < b] on numbers. *)
Definition num_ge (a b : Number) : bool := Qle_bool b a.
Definition num_gt (a b : Number) : bool := negb (Qle_bool a b).
Definition num_lt (a b : Number) : bool := negb (Qle_bool b a).

(** [Math.min] and [Math.max] of two numbers. *)
Definition Math_min (a b : Number) : Number := if Qle_bool a b then a else b.
Definition Math_max (a b : Number) : Number := if Qle_bool a b then b else a.

(** Truthiness of a possibly missing string: [null], [undefined] and the
    empty string are falsy. *)
Definition truthy (s : option string) : bool :=
  match s with
  | Some EmptyString => false
  | Some _ => true
  | None => false
  end.

(** [a === b] on possibly missing strings. *)
Definition str_eq (a b : option string) : bool := bool_decide (a = b).

(** A value of a request body whose type the handler does not check. *)
Inductive Value :=
  | VUndefined
  | VNull
  | VBool (b : bool)
  | VNumber (n : Number)
  | VString (s : string)
  | VObject.

(** Truthiness of a value: [undefined], [null], [false], [0] and the empty
    string are falsy, objects and arrays are truthy. *)
Definition value_truthy (v : Value) : bool :=
  match v with
  | VUndefined | VNull => false
  | VBool b => b
  | VNumber n => negb (Qeq_bool n 0)
  | VString s => negb (String.eqb s "")
  | VObject => true
  end.

(** [findIndex]: the position of the first element satisfying [p]. *)
Fixpoint findIndex {A} (p : A -> bool) (l : list A) : option nat :=
  match l with
  | [] => None
  | x :: r => if p x then Some O else option_map S (findIndex p r)
  end.

(** A point in local time: the number of the local day (days since
    1970-01-01) and the milliseconds elapsed since local midnight.  Local
    time is taken to be a fixed offset from UTC, so every day has
    86400000 milliseconds. *)
Record Date := mkDate {
  epochDay : Z;
  msOfDay : Z
}.

Definition msPerDay : Z := 86400000.

(** [a >= b] and [a < b] on dates. *)
Definition date_ge (a b : Date) : bool :=
  ((epochDay b <? epochDay a) || ((epochDay a =? epochDay b) && (msOfDay b <=? msOfDay a)))%Z.
Definition date_lt (a b : Date) : bool := negb (date_ge a b).

(** [d.setHours(0, 0, 0, 0)] *)
Definition setHours0 (d : Date) : Date := mkDate (epochDay d) 0.

(** [d.setDate(d.getDate() + k)] *)
Definition addDays (d : Date) (k : Z) : Date := mkDate (epochDay d + k)%Z (msOfDay d).

(** [new Date(d.getTime() + ms)] *)
Definition addMs (d : Date) (ms : Z) : Date :=
  let t := (msOfDay d + ms)%Z in
  mkDate (epochDay d + t / msPerDay)%Z (t mod msPerDay)%Z.

(** The proleptic Gregorian calendar date of a day number:
    (year, month 1..12, day of month). *)
Definition civil (days : Z) : Z * Z * Z :=
  (let z := days + 719468 in
   let era := z / 146097 in
   let doe := z - era * 146097 in
   let yoe := (doe - doe / 1460 + doe / 36524 - doe / 146096) / 365 in
   let doy := doe - (365 * yoe + yoe / 4 - yoe / 100) in
   let mp := (5 * doy + 2) / 153 in
   let d := doy - (153 * mp + 2) / 5 + 1 in
   let m := if mp <? 10 then mp + 3 else mp - 9 in
   let y := yoe + era * 400 + (if m <=? 2 then 1 else 0) in
   (y, m, d))%Z.

Definition getFullYear (d : Date) : Z := fst (fst (civil (epochDay d))).
(** [getMonth()] is 0-based. *)
Definition getMonth (d : Date) : Z := (snd (fst (civil (epochDay d))) - 1)%Z.
Definition getDate (d : Date) : Z := snd (civil (epochDay d)).

(** [n.toString()] for a non-negative integer. *)
Definition toString (n : Z) : string := NilZero.string_of_uint (N.to_uint (Z.to_N n)).

(** [s.padStart(n, '0')] *)
Definition padStart0 (n : nat) (s : string) : string :=
  String.concat "" (repeat "0"%string (n - String.length s)) ++ s.

(** [s.slice(-2)] *)
Definition sliceLast2 (s : string) : string :=
  substring (String.length s - 2) 2 s.

End Js.

Import Js.

Abbreviation ObjectId := string.

(** ** The cart model (models/Cart.js) *)

Inductive CouponType := percentage | fixed.

Record Coupon := mkCoupon {
  coupon_code : string;
  coupon_discount : Number;
  coupon_type : CouponType
}.

Record CartItem := mkCartItem {
  item_id : ObjectId;
  item_product : ObjectId;
  item_name : string;
  item_price : Number;
  item_quantity : Number;
  item_color : option string;
  item_size : option string;
  item_image : string;
  item_sku : option string;
  item_inStock : bool;
  item_maxQuantity : Number
}.

Record Cart := mkCart {
  cart_user : ObjectId;
  cart_items : list CartItem;
  cart_subtotal : Number;
  cart_tax : Number;
  cart_shipping : Number;
  cart_discount : Number;
  cart_total : Number;
  cart_coupon : option Coupon;
  cart_lastUpdated : Date
}.

(** [this.items.reduce((total, item) => total + item.price * item.quantity, 0)] *)
Definition items_reduce (items : list CartItem) : Number :=
  fold_left (fun total item => total + item_price item * item_quantity item) items 0.

(** The amount a coupon asks for, before it is clamped. *)
Definition discountAmount (subtotal : Number) (cp : Coupon) : Number :=
  match coupon_type cp with
  | percentage => subtotal * (coupon_discount cp / 100)
  | fixed => coupon_discount cp
  end.

(** [calculateTotals]: the [discount] field is assigned only inside the
    branch guarded by [this.coupon && this.coupon.discount > 0]; on the
    other branch it keeps the value it had. *)
Definition calculateTotals (c : Cart) : Cart :=
  let subtotal := items_reduce (cart_items c) in
  let tax := subtotal * 0.085 in
  let shipping := if num_ge subtotal 50 then 0 else 5.99 in
  let discount :=
    match cart_coupon c with
    | Some cp =>
        if num_gt (coupon_discount cp) 0
        then Math_min (discountAmount subtotal cp) subtotal
        else cart_discount c
    | None => cart_discount c
    end in
  {| cart_user := cart_user c;
     cart_items := cart_items c;
     cart_subtotal := subtotal;
     cart_tax := tax;
     cart_shipping := shipping;
     cart_discount := discount;
     cart_total := subtotal + tax + shipping - discount;
     cart_coupon := cart_coupon c;
     cart_lastUpdated := cart_lastUpdated c |}.

(** ** The product model *)

Record Variant := mkVariant {
  variant_color : option string;
  variant_size : option string;
  variant_sku : option string;
  variant_stock : Number
}.

Record Product := mkProduct {
  product_id : ObjectId;
  product_name : string;
  product_price : Number;
  product_images : list string;
  product_sku : option string;
  product_stock : Number;
  product_variants : list Variant;
  product_isActive : bool
}.

(** [v => v.color === color && v.size === size] *)
Definition variant_matches (color size : option string) (v : Variant) : bool :=
  str_eq (variant_color v) color && str_eq (variant_size v) size.

Definition set_variant_stock (s : Number) (v : Variant) : Variant :=
  {| variant_color := variant_color v; variant_size := variant_size v;
     variant_sku := variant_sku v; variant_stock := s |}.

Definition set_variants (vs : list Variant) (p : Product) : Product :=
  {| product_id := product_id p; product_name := product_name p;
     product_price := product_price p; product_images := product_images p;
     product_sku := product_sku p; product_stock := product_stock p;
     product_variants := vs; product_isActive := product_isActive p |}.

Definition set_stock (s : Number) (p : Product) : Product :=
  {| product_id := product_id p; product_name := product_name p;
     product_price := product_price p; product_images := product_images p;
     product_sku := product_sku p; product_stock := s;
     product_variants := product_variants p; product_isActive := product_isActive p |}.

(** [isInStock(color, size)] *)
Definition isInStock (p : Product) (color size : option string) : bool :=
  if truthy color && truthy size then
    match findIndex (variant_matches color size) (product_variants p) with
    | Some i =>
        match product_variants p !! i with
        | Some v => num_gt (variant_stock v) 0
        | None => false
        end
    | None => false
    end
  else num_gt (product_stock p) 0.

(** [x -= quantity; if (x < 0) x = 0] *)
Definition take_floor0 (x quantity : Number) : Number :=
  let y := x - quantity in if num_lt y 0 then 0 else y.

(** [updateStock(quantity, color, size)] *)
Definition updateStock (p : Product) (quantity : Number) (color size : option string) : Product :=
  if truthy color && truthy size then
    match findIndex (variant_matches color size) (product_variants p) with
    | Some i =>
        set_variants
          (alter (fun v => set_variant_stock (take_floor0 (variant_stock v) quantity) v)
                 i (product_variants p)) p
    | None => p
    end
  else set_stock (take_floor0 (product_stock p) quantity) p.

(** [product.images[0]?.url || ''] *)
Definition first_image (p : Product) : string :=
  match product_images p with
  | [] => ""
  | url :: _ => url
  end.

(** ** Cart methods *)

Definition set_quantity (q : Number) (it : CartItem) : CartItem :=
  {| item_id := item_id it; item_product := item_product it; item_name := item_name it;
     item_price := item_price it; item_quantity := q; item_color := item_color it;
     item_size := item_size it; item_image := item_image it; item_sku := item_sku it;
     item_inStock := item_inStock it; item_maxQuantity := item_maxQuantity it |}.

Definition set_items (items : list CartItem) (c : Cart) : Cart :=
  {| cart_user := cart_user c; cart_items := items; cart_subtotal := cart_subtotal c;
     cart_tax := cart_tax c; cart_shipping := cart_shipping c;
     cart_discount := cart_discount c; cart_total := cart_total c;
     cart_coupon := cart_coupon c; cart_lastUpdated := cart_lastUpdated c |}.

Definition set_coupon (cp : option Coupon) (c : Cart) : Cart :=
  {| cart_user := cart_user c; cart_items := cart_items c; cart_subtotal := cart_subtotal c;
     cart_tax := cart_tax c; cart_shipping := cart_shipping c;
     cart_discount := cart_discount c; cart_total := cart_total c;
     cart_coupon := cp; cart_lastUpdated := cart_lastUpdated c |}.

Definition set_lastUpdated (d : Date) (c : Cart) : Cart :=
  {| cart_user := cart_user c; cart_items := cart_items c; cart_subtotal := cart_subtotal c;
     cart_tax := cart_tax c; cart_shipping := cart_shipping c;
     cart_discount := cart_discount c; cart_total := cart_total c;
     cart_coupon := cart_coupon c; cart_lastUpdated := d |}.

(** The predicate of [findIndex] in [addItem]: same product, colour and size. *)
Definition same_line (pid : ObjectId) (color size : option string) (it : CartItem) : bool :=
  String.eqb (item_product it) pid && str_eq (item_color it) color && str_eq (item_size it) size.

(** [items[i].quantity += quantity], then the cap at [maxQuantity]. *)
Definition merge_quantity (quantity : Number) (it : CartItem) : CartItem :=
  let q := item_quantity it + quantity in
  set_quantity (if num_gt q (item_maxQuantity it) then item_maxQuantity it else q) it.

(** The line item pushed by [addItem]; [newId] is the [_id] the document
    mapper gives the new subdocument. *)
Definition new_line (newId : ObjectId) (p : Product) (quantity : Number)
    (color size : option string) : CartItem :=
  {| item_id := newId;
     item_product := product_id p;
     item_name := product_name p;
     item_price := product_price p;
     item_quantity := quantity;
     item_color := color;
     item_size := size;
     item_image := first_image p;
     item_sku := product_sku p;
     item_inStock := num_gt (product_stock p) 0;
     item_maxQuantity := Math_min (product_stock p) 10 |}.

(** [addItem(product, quantity, color, size)]; [now] is [new Date()]. *)
Definition addItem (now : Date) (newId : ObjectId) (c : Cart) (p : Product)
    (quantity : Number) (color size : option string) : Cart :=
  let items :=
    match findIndex (same_line (product_id p) color size) (cart_items c) with
    | Some i => alter (merge_quantity quantity) i (cart_items c)
    | None => cart_items c ++ [new_line newId p quantity color size]
    end in
  set_lastUpdated now (calculateTotals (set_items items c)).

(** [removeItem(itemId)] *)
Definition removeItem (now : Date) (c : Cart) (itemId : ObjectId) : Cart :=
  let items := List.filter (fun it => negb (String.eqb (item_id it) itemId)) (cart_items c) in
  set_lastUpdated now (calculateTotals (set_items items c)).

(** [updateItemQuantity(itemId, quantity)] *)
Definition updateItemQuantity (now : Date) (c : Cart) (itemId : ObjectId)
    (quantity : Number) : Cart :=
  match findIndex (fun it => String.eqb (item_id it) itemId) (cart_items c) with
  | Some i =>
      let items :=
        alter (fun it => set_quantity
                 (Math_min (Math_max 1 quantity) (item_maxQuantity it)) it)
              i (cart_items c) in
      set_lastUpdated now (calculateTotals (set_items items c))
  | None => c
  end.

(** [clearCart()] *)
Definition clearCart (now : Date) (c : Cart) : Cart :=
  {| cart_user := cart_user c; cart_items := []; cart_subtotal := 0; cart_tax := 0;
     cart_shipping := 0; cart_discount := 0; cart_total := 0; cart_coupon := None;
     cart_lastUpdated := now |}.

(** [applyCoupon(couponCode, discount, type)] *)
Definition applyCoupon (now : Date) (c : Cart) (couponCode : string)
    (discount : Number) (type : CouponType) : Cart :=
  set_lastUpdated now
    (calculateTotals (set_coupon (Some (mkCoupon couponCode discount type)) c)).

(** [removeCoupon()] *)
Definition removeCoupon (now : Date) (c : Cart) : Cart :=
  set_lastUpdated now (calculateTotals (set_coupon None c)).

(** The [pre('save')] hook of the cart schema. *)
Definition cart_pre_save (c : Cart) : Cart := calculateTotals c.

(** ** The order model *)

Inductive Status := pending | processing | shipped | delivered | cancelled | refunded.

Inductive RefundStatus := refund_pending | refund_approved | refund_rejected | refund_completed.

Global Instance Status_eq_dec : EqDecision Status.
Proof. solve_decision. Defined.

Global Instance RefundStatus_eq_dec : EqDecision RefundStatus.
Proof. solve_decision. Defined.

(** The value of the schema's [enum] that a request string denotes, if any. *)
Definition Status_of_string (s : string) : option Status :=
  if String.eqb s "pending" then Some pending
  else if String.eqb s "processing" then Some processing
  else if String.eqb s "shipped" then Some shipped
  else if String.eqb s "delivered" then Some delivered
  else if String.eqb s "cancelled" then Some cancelled
  else if String.eqb s "refunded" then Some refunded
  else None.

Record OrderItem := mkOrderItem {
  oi_product : ObjectId;
  oi_name : string;
  oi_price : Number;
  oi_quantity : Number;
  oi_color : option string;
  oi_size : option string;
  oi_image : string
}.

Record StatusEntry := mkStatusEntry {
  entry_status : Status;
  entry_timestamp : Date;
  entry_note : option string
}.

Record RefundInfo := mkRefundInfo {
  refund_amount : Number;
  refund_reason : option string;
  refund_status : RefundStatus
}.

(** An order document.  [order_statusModified] is what
    [isModified('status')] answers: it is raised when [status] is assigned
    a value different from the one it holds and lowered by [save]. *)
Record Order := mkOrder {
  order_id : ObjectId;
  order_orderNumber : option string;
  order_user : option ObjectId;
  order_items : list OrderItem;
  order_itemsPrice : Number;
  order_taxPrice : Number;
  order_shippingPrice : Number;
  order_discountAmount : Number;
  order_totalPrice : Number;
  order_status : Status;
  order_statusHistory : list StatusEntry;
  order_shippedAt : option Date;
  order_deliveredAt : option Date;
  order_estimatedDelivery : option Date;
  order_actualDeliveryDate : option Date;
  order_refundInfo : option RefundInfo;
  order_createdAt : option Date;
  order_statusModified : bool
}.

Definition set_orderNumber (n : option string) (o : Order) : Order :=
  mkOrder (order_id o) n (order_user o) (order_items o) (order_itemsPrice o)
    (order_taxPrice o) (order_shippingPrice o) (order_discountAmount o) (order_totalPrice o)
    (order_status o) (order_statusHistory o) (order_shippedAt o) (order_deliveredAt o)
    (order_estimatedDelivery o) (order_actualDeliveryDate o) (order_refundInfo o)
    (order_createdAt o) (order_statusModified o).

(** [this.status = s] *)
Definition set_status (s : Status) (o : Order) : Order :=
  mkOrder (order_id o) (order_orderNumber o) (order_user o) (order_items o) (order_itemsPrice o)
    (order_taxPrice o) (order_shippingPrice o) (order_discountAmount o) (order_totalPrice o)
    s (order_statusHistory o) (order_shippedAt o) (order_deliveredAt o)
    (order_estimatedDelivery o) (order_actualDeliveryDate o) (order_refundInfo o)
    (order_createdAt o)
    (order_statusModified o || negb (bool_decide (order_status o = s))).

(** [this.statusHistory.push(e)] *)
Definition push_history (e : StatusEntry) (o : Order) : Order :=
  mkOrder (order_id o) (order_orderNumber o) (order_user o) (order_items o) (order_itemsPrice o)
    (order_taxPrice o) (order_shippingPrice o) (order_discountAmount o) (order_totalPrice o)
    (order_status o) (order_statusHistory o ++ [e]) (order_shippedAt o) (order_deliveredAt o)
    (order_estimatedDelivery o) (order_actualDeliveryDate o) (order_refundInfo o)
    (order_createdAt o) (order_statusModified o).

Definition set_shippedAt (d : Date) (o : Order) : Order :=
  mkOrder (order_id o) (order_orderNumber o) (order_user o) (order_items o) (order_itemsPrice o)
    (order_taxPrice o) (order_shippingPrice o) (order_discountAmount o) (order_totalPrice o)
    (order_status o) (order_statusHistory o) (Some d) (order_deliveredAt o)
    (order_estimatedDelivery o) (order_actualDeliveryDate o) (order_refundInfo o)
    (order_createdAt o) (order_statusModified o).

Definition set_estimatedDelivery (d : Date) (o : Order) : Order :=
  mkOrder (order_id o) (order_orderNumber o) (order_user o) (order_items o) (order_itemsPrice o)
    (order_taxPrice o) (order_shippingPrice o) (order_discountAmount o) (order_totalPrice o)
    (order_status o) (order_statusHistory o) (order_shippedAt o) (order_deliveredAt o)
    (Some d) (order_actualDeliveryDate o) (order_refundInfo o)
    (order_createdAt o) (order_statusModified o).

(** [this.shippingInfo.deliveredAt = d; this.actualDeliveryDate = d] *)
Definition set_delivered (d : Date) (o : Order) : Order :=
  mkOrder (order_id o) (order_orderNumber o) (order_user o) (order_items o) (order_itemsPrice o)
    (order_taxPrice o) (order_shippingPrice o) (order_discountAmount o) (order_totalPrice o)
    (order_status o) (order_statusHistory o) (order_shippedAt o) (Some d)
    (order_estimatedDelivery o) (Some d) (order_refundInfo o)
    (order_createdAt o) (order_statusModified o).

Definition set_refundInfo (r : RefundInfo) (o : Order) : Order :=
  mkOrder (order_id o) (order_orderNumber o) (order_user o) (order_items o) (order_itemsPrice o)
    (order_taxPrice o) (order_shippingPrice o) (order_discountAmount o) (order_totalPrice o)
    (order_status o) (order_statusHistory o) (order_shippedAt o) (order_deliveredAt o)
    (order_estimatedDelivery o) (order_actualDeliveryDate o) (Some r)
    (order_createdAt o) (order_statusModified o).

(** What [save] does to the change tracking: nothing is modified any more. *)
Definition clear_modified (o : Order) : Order :=
  mkOrder (order_id o) (order_orderNumber o) (order_user o) (order_items o) (order_itemsPrice o)
    (order_taxPrice o) (order_shippingPrice o) (order_discountAmount o) (order_totalPrice o)
    (order_status o) (order_statusHistory o) (order_shippedAt o) (order_deliveredAt o)
    (order_estimatedDelivery o) (order_actualDeliveryDate o) (order_refundInfo o)
    (order_createdAt o) false.

(** [!this.orderNumber] *)
Definition orderNumber_missing (o : Order) : bool := negb (truthy (order_orderNumber o)).

(** [countDocuments({ createdAt: { $gte: today, $lt: tomorrow } })] *)
Definition countDocuments (orders : list Order) (today tomorrow : Date) : Z :=
  Z.of_nat (List.length (List.filter
    (fun o => match order_createdAt o with
              | Some d => date_ge d today && date_lt d tomorrow
              | None => false
              end) orders)).

(** The template string that builds the order number from the date parts
    and [count + 1]. *)
Definition generate_orderNumber (date : Date) (count : Z) : string :=
  let year := sliceLast2 (toString (getFullYear date)) in
  let month := padStart0 2 (toString (getMonth date + 1)) in
  let day := padStart0 2 (toString (getDate date)) in
  (year ++ month ++ day ++ padStart0 3 (toString (count + 1)))%string.

(** The [pre('save')] hook of the order schema, run at time [now] against
    the stored collection [orders]. *)
Definition order_pre_save (now : Date) (orders : list Order) (o : Order) : Order :=
  let o1 :=
    if orderNumber_missing o then
      let today := setHours0 now in
      let tomorrow := addDays today 1 in
      let count := countDocuments orders today tomorrow in
      set_orderNumber (Some (generate_orderNumber now count)) o
    else o in
  if order_statusModified o1
  then push_history (mkStatusEntry (order_status o1) now None) o1
  else o1.

(** [updateStatus(newStatus, note)] *)
Definition updateStatus (now : Date) (o : Order) (newStatus : Status) (note : string) : Order :=
  let o1 := push_history (mkStatusEntry newStatus now (Some note)) (set_status newStatus o) in
  match newStatus with
  | shipped => set_shippedAt now o1
  | delivered => set_delivered now o1
  | _ => o1
  end.

(** [canBeCancelled()] *)
Definition canBeCancelled (o : Order) : bool :=
  bool_decide (order_status o ∈ [pending; processing; shipped]).

(** [canBeRefunded()] *)
Definition canBeRefunded (o : Order) : bool :=
  bool_decide (order_status o ∈ [delivered; shipped]).

(** ** The document store *)

(** Behaviour of the object-document mapper that the repository relies on
    but does not define.
    - [default_is_modified]: whether [isModified] answers [true] for a
      path of a new document that only holds its schema default.
    - [castObjectId]: the cast of a string of a request to an [ObjectId]
      in a query; [None] is the cast error that [findById] throws.  Every
      version accepts 24 hexadecimal digits, in either case, and yields
      the id whose [toString()] has them in lower case.
    The schema validators run before the schema's own [pre('save')] hook:
    the mapper registers validation as the first hook of [save]. *)
Record Mapper := mkMapper {
  default_is_modified : bool;
  castObjectId : string -> option ObjectId
}.

Definition is_hex_digit (c : ascii) : bool :=
  let n := nat_of_ascii c in
  ((48 <=? n) && (n <=? 57) || (65 <=? n) && (n <=? 70) || (97 <=? n) && (n <=? 102))%nat.

Definition lower_hex (c : ascii) : ascii :=
  let n := nat_of_ascii c in
  if ((65 <=? n) && (n <=? 70))%nat then ascii_of_nat (n + 32) else c.

Fixpoint map_chars (f : ascii -> ascii) (s : string) : string :=
  match s with
  | EmptyString => EmptyString
  | String c r => String (f c) (map_chars f r)
  end.

(** The cast that accepts exactly the strings of 24 hexadecimal digits. *)
Definition hex24 (s : string) : option ObjectId :=
  if (String.length s =? 24)%nat && forallb is_hex_digit (list_ascii_of_string s)
  then Some (map_chars lower_hex s) else None.

Record Response := mkResponse {
  res_status : Z;
  res_message : string
}.

(** [Order.findById(id)] *)
Definition findById (orders : list Order) (id : ObjectId) : option Order :=
  List.find (fun o => String.eqb (order_id o) id) orders.

(** Writing a loaded document back in place. *)
Definition replace_order (o : Order) (orders : list Order) : list Order :=
  List.map (fun x => if String.eqb (order_id x) (order_id o) then o else x) orders.

(** [order.save()] for a document loaded from the collection. *)
Definition order_save (now : Date) (orders : list Order) (o : Order) : list Order :=
  replace_order (clear_modified (order_pre_save now orders o)) orders.

(** The unique index on [orderNumber]. *)
Definition orderNumber_taken (orders : list Order) (n : option string) : bool :=
  existsb (fun x => bool_decide (order_orderNumber x = n)) orders.

(** [shippingAddress], [billingAddress] and [paymentInfo] of a checkout
    request; [None] is an absent field. *)
Record ShippingAddress := mkShippingAddress {
  sa_name : option string;
  sa_email : option string;
  sa_address : option string;
  sa_city : option string;
  sa_state : option string;
  sa_zipCode : option string;
  sa_country : option string;
  sa_phone : option string
}.

Record BillingAddress := mkBillingAddress {
  ba_name : option string;
  ba_email : option string;
  ba_address : option string;
  ba_city : option string;
  ba_state : option string;
  ba_zipCode : option string;
  ba_country : option string
}.

Record PaymentInfo := mkPaymentInfo {
  pi_id : option string;
  pi_status : option string;
  pi_method : option string
}.

(** The fields [Order.create] receives from the checkout handler. *)
Record OrderData := mkOrderData {
  data_orderNumber : option string;
  data_items : list OrderItem;
  data_shippingAddress : option ShippingAddress;
  data_billingAddress : option BillingAddress;
  data_paymentInfo : option PaymentInfo;
  data_itemsPrice : Number;
  data_taxPrice : Number;
  data_shippingPrice : Number;
  data_totalPrice : Number;
  data_user : option ObjectId
}.

(** [required: true] on a string path: the value is there and not empty. *)
Definition required (s : option string) : bool := truthy s.

(** [required: true, default: 'USA']: an absent value gets the default. *)
Definition required_default (s : option string) : bool :=
  match s with
  | None => true
  | Some _ => required s
  end.

(** The validators of an element of [items]: [name] and [image] are
    required, [quantity] has [min: 1]. *)
Definition order_item_valid (it : OrderItem) : bool :=
  required (Some (oi_name it)) && Qle_bool 1 (oi_quantity it) && required (Some (oi_image it)).

Definition shippingAddress_valid (a : option ShippingAddress) : bool :=
  match a with
  | None => false
  | Some a =>
      required (sa_name a) && required (sa_email a) && required (sa_address a)
      && required (sa_city a) && required (sa_state a) && required (sa_zipCode a)
      && required_default (sa_country a) && required (sa_phone a)
  end.

Definition billingAddress_valid (a : option BillingAddress) : bool :=
  match a with
  | None => false
  | Some a =>
      required (ba_name a) && required (ba_email a) && required (ba_address a)
      && required (ba_city a) && required (ba_state a) && required (ba_zipCode a)
      && required_default (ba_country a)
  end.

Definition paymentInfo_valid (p : option PaymentInfo) : bool :=
  match p with
  | None => false
  | Some p => required (pi_id p) && required (pi_status p) && required (pi_method p)
  end.

(** The validators of the order schema on the fields of a new document. *)
Definition order_valid (data : OrderData) : bool :=
  required (data_orderNumber data)
  && forallb order_item_valid (data_items data)
  && shippingAddress_valid (data_shippingAddress data)
  && billingAddress_valid (data_billingAddress data)
  && paymentInfo_valid (data_paymentInfo data).

(** The new document: the given fields, schema defaults elsewhere.  The
    addresses and the payment record are validated when the document is
    created; no route of this development reads them afterwards. *)
Definition new_order (mp : Mapper) (now : Date) (newId : ObjectId) (data : OrderData) : Order :=
  {| order_id := newId;
     order_orderNumber := data_orderNumber data;
     order_user := data_user data;
     order_items := data_items data;
     order_itemsPrice := data_itemsPrice data;
     order_taxPrice := data_taxPrice data;
     order_shippingPrice := data_shippingPrice data;
     order_discountAmount := 0;
     order_totalPrice := data_totalPrice data;
     order_status := pending;
     order_statusHistory := [];
     order_shippedAt := None;
     order_deliveredAt := None;
     order_estimatedDelivery := None;
     order_actualDeliveryDate := None;
     order_refundInfo := Some (mkRefundInfo 0 None refund_pending);
     order_createdAt := Some now;
     order_statusModified := default_is_modified mp |}.

(** Saving a new document that passed validation: the hook, then the
    insertion. *)
Definition insert_new (now : Date) (orders : list Order) (doc : Order) : list Order :=
  orders ++ [clear_modified (order_pre_save now orders doc)].

(** [Order.create(orderData)]: validation, the hook, the insertion under
    the unique index.  [None] when the mapper or the store rejects the
    document (validation error, duplicate key). *)
Definition Order_create (mp : Mapper) (now : Date) (newId : ObjectId)
    (orders : list Order) (data : OrderData) : option (Order * list Order) :=
  let doc := new_order mp now newId data in
  if negb (order_valid data) then None
  else
    let saved := clear_modified (order_pre_save now orders doc) in
    if orderNumber_taken orders (order_orderNumber saved) then None
    else Some (saved, insert_new now orders doc).

(** ** Order routes (routes/order.js) *)

Record ReqItem := mkReqItem {
  ri_product : option string;
  ri_quantity : option Number;
  ri_color : option string;
  ri_size : option string
}.

Record OrderRequest := mkOrderRequest {
  req_items : option (list (option ReqItem));
  req_shippingAddress : option ShippingAddress;
  req_billingAddress : option BillingAddress;
  req_paymentInfo : option PaymentInfo;
  req_orderNumber : option string;
  req_user : option ObjectId
}.

(** The loop of the checkout handler over the requested items; it only
    reads products.  An element that is not an object is [None].  The
    answer 500 is that of the handler's [catch], reached when
    [Product.findById] throws on a product id that is no [ObjectId]. *)
Fixpoint process_items (mp : Mapper) (products : gmap ObjectId Product)
    (items : list (option ReqItem)) (itemsPrice : Number) (orderItems : list OrderItem)
    : Response + (Number * list OrderItem) :=
  match items with
  | [] => inr (itemsPrice, orderItems)
  | item :: rest =>
      match item with
      | Some (mkReqItem (Some pid) (Some quantity) color size) =>
          if negb (truthy (Some pid)) then
            inl (mkResponse 400 "One or more items are invalid or missing required fields.")
          else if negb (truthy color) || negb (truthy size) then
            inl (mkResponse 400 "Each item must have a color and size.")
          else
            match castObjectId mp pid with
            | None => inl (mkResponse 500 "Error creating order")
            | Some oid =>
                match products !! oid with
                | None => inl (mkResponse 400 ("Product " ++ pid ++ " not found"))
                | Some product =>
                    process_items mp products rest
                      (itemsPrice + product_price product * quantity)
                      (orderItems ++ [mkOrderItem (product_id product) (product_name product)
                                        (product_price product) quantity color size
                                        (first_image product)])
                end
            end
      | _ => inl (mkResponse 400 "One or more items are invalid or missing required fields.")
      end
  end.

(** [POST /api/orders].  Returns the response, the product collection and
    the order collection after the request. *)
Definition create_order_handler (mp : Mapper) (now : Date) (newId : ObjectId)
    (products : gmap ObjectId Product) (orders : list Order) (req : OrderRequest)
    : Response * gmap ObjectId Product * list Order :=
  match req_items req with
  | None | Some [] => (mkResponse 400 "At least one item is required", products, orders)
  | Some items =>
      match process_items mp products items 0 [] with
      | inl res => (res, products, orders)
      | inr (itemsPrice, orderItems) =>
          let taxPrice := itemsPrice * 0.085 in
          let shippingPrice := if num_ge itemsPrice 50 then 0 else 5.99 in
          let totalPrice := itemsPrice + taxPrice + shippingPrice in
          let orderData :=
            mkOrderData (req_orderNumber req) orderItems (req_shippingAddress req)
              (req_billingAddress req) (req_paymentInfo req) itemsPrice taxPrice
              shippingPrice totalPrice (req_user req) in
          match Order_create mp now newId orders orderData with
          | Some (_, orders') => (mkResponse 201 "Order created successfully", products, orders')
          | None => (mkResponse 500 "Error creating order", products, orders)
          end
      end
  end.

(** The authenticated caller ([req.user] after [protect]). *)
Record User := mkUser {
  user_id : ObjectId;
  user_isAdmin : bool
}.

(** [PUT /api/orders/:id/status] *)
Definition update_status_handler (now : Date) (user : User) (orders : list Order)
    (id : ObjectId) (status : string) (note : option string)
    : Response * list Order :=
  match Status_of_string status with
  | None => (mkResponse 400 "Invalid status", orders)
  | Some st =>
      match findById orders id with
      | None => (mkResponse 404 "Order not found", orders)
      | Some order =>
          if negb (user_isAdmin user) then
            (mkResponse 403 "Not authorized to update order status", orders)
          else
            let o1 := updateStatus now order st (default ""%string note) in
            let o2 := match st with
                      | shipped =>
                          set_estimatedDelivery (addMs now (3 * 24 * 60 * 60 * 1000))
                            (set_shippedAt now o1)
                      | delivered => set_delivered now o1
                      | _ => o1
                      end in
            (mkResponse 200 "Order status updated successfully", order_save now orders o2)
      end
  end.

(** What the stock restoring loop of the cancel handler does to the
    product it found for an item. *)
Definition restore_one (item : OrderItem) (product : Product) : Product :=
  if truthy (oi_color item) && truthy (oi_size item) then
    match findIndex (variant_matches (oi_color item) (oi_size item))
                    (product_variants product) with
    | Some i =>
        set_variants
          (alter (fun v => set_variant_stock (variant_stock v + oi_quantity item) v)
                 i (product_variants product)) product
    | None => product
    end
  else set_stock (product_stock product + oi_quantity item) product.




Definition is_space (c : ascii) : bool :=
  existsb (Ascii.eqb c) [" "; "009"; "010"; "011"; "012"; "013"]%char.

Fixpoint trimStart (s : string) : string :=
  match s with
  | String c r => if is_space c then trimStart r else s
  | EmptyString => EmptyString
  end.

(** [s.trim()] *)
Definition trim (s : string) : string :=
  String.rev (trimStart (String.rev (trimStart s))).

(** [body('reason').trim().notEmpty()]: the sanitised reason, when the
    validation passes. *)
Definition validated_reason (reason : option string) : option string :=
  match reason with
  | Some s => if String.eqb (trim s) "" then None else Some (trim s)
  | None => None
  end.

(** [amount || order.totalPrice] *)
Definition amount_or_total (amount : option Number) (total : Number) : Number :=
  match amount with
  | Some a => if Qeq_bool a 0 then total else a
  | None => total
  end.

(** [order.refundInfo && order.refundInfo.status !== 'pending'] *)
Definition refund_blocked (o : Order) : bool :=
  match order_refundInfo o with
  | Some r => negb (bool_decide (refund_status r = refund_pending))
  | None => false
  end.

(** [POST /api/orders/:id/refund] *)
Definition refund_handler (now : Date) (user : User) (orders : list Order)
    (id : ObjectId) (reason : option string) (amount : option Number)
    : Response * list Order :=
  match validated_reason reason with
  | None => (mkResponse 400 "Refund reason is required", orders)
  | Some reason =>
    match findById orders id with
    | None => (mkResponse 404 "Order not found", orders)
    | Some order =>
        match order_user order with
        | None => (mkResponse 500 "Error requesting refund", orders)
        | Some owner =>
            if negb (String.eqb owner (user_id user)) then
              (mkResponse 403 "Not authorized to request refund for this order", orders)
            else if negb (canBeRefunded order) then
              (mkResponse 400 "Order cannot be refunded at this stage", orders)
            else if refund_blocked order then
              (mkResponse 400 "Refund request already exists", orders)
            else
              let o1 := set_refundInfo
                          (mkRefundInfo (amount_or_total amount (order_totalPrice order))
                                        (Some reason) refund_pending)
                          order in
              (mkResponse 200 "Refund request submitted successfully",
               order_save now orders o1)
        end
    end
  end.

(** ** Cart routes *)

(** [Cart.create({ user })]: schema defaults, then the [pre('save')] hook. *)
Definition Cart_create (now : Date) (user : ObjectId) : Cart :=
  cart_pre_save
    {| cart_user := user; cart_items := []; cart_subtotal := 0; cart_tax := 0;
       cart_shipping := 0; cart_discount := 0; cart_total := 0; cart_coupon := None;
       cart_lastUpdated := now |}.

Record AddItemBody := mkAddItemBody {
  body_productId : option string;
  body_quantity : option Number;
  body_color : option string;
  body_size : option string
}.

(** [!quantity || quantity < 1] *)
Definition accepted_quantity (quantity : option Number) : option Number :=
  match quantity with
  | Some q => if Qeq_bool q 0 || num_lt q 1 then None else Some q
  | None => None
  end.

(** The validators of an element of [items] of a cart: [name] and
    [image] are required, [quantity] has [min: 1]. *)
Definition cart_item_valid (it : CartItem) : bool :=
  required (Some (item_name it)) && Qle_bool 1 (item_quantity it)
  && required (Some (item_image it)).

(** The validation that [cart.save()] runs on a cart whose [items] were
    modified. *)
Definition cart_valid (c : Cart) : bool := forallb cart_item_valid (cart_items c).

(** [POST /api/cart/items]; carts are keyed by their (unique) user.  A
    cart that [Cart.create] made stays in the collection when the request
    fails afterwards. *)
Definition add_item_handler (mp : Mapper) (now : Date) (newId : ObjectId) (user : User)
    (products : gmap ObjectId Product) (carts : gmap ObjectId Cart) (body : AddItemBody)
    : Response * gmap ObjectId Cart :=
  if negb (truthy (body_productId body)) then
    (mkResponse 400 "Product ID is required", carts)
  else
    match accepted_quantity (body_quantity body) with
    | None => (mkResponse 400 "Quantity must be at least 1", carts)
    | Some quantity =>
        match castObjectId mp (default ""%string (body_productId body)) with
        | None => (mkResponse 500 "Error adding item to cart", carts)
        | Some oid =>
            match products !! oid with
            | None => (mkResponse 404 "Product not found", carts)
            | Some product =>
                if negb (product_isActive product) then
                  (mkResponse 400 "Product is not available", carts)
                else
                  let found := carts !! user_id user in
                  let cart := default (Cart_create now (user_id user)) found in
                  let carts1 := match found with
                                | Some _ => carts
                                | None => <[user_id user := cart]> carts
                                end in
                  let cart' := addItem now newId cart product quantity
                                 (body_color body) (body_size body) in
                  if cart_valid cart' then
                    (mkResponse 200 "Item added to cart successfully",
                     <[user_id user := cart_pre_save cart']> carts1)
                  else (mkResponse 500 "Error adding item to cart", carts1)
            end
        end
    end.

(** ** Vocabulary of the specification *)

(** The sum of price times quantity over the items. *)
Fixpoint sum_price_quantity (items : list CartItem) : Number :=
  match items with
  | [] => 0
  | it :: rest => item_price it * item_quantity it + sum_price_quantity rest
  end.

Record Totals := mkTotals {
  t_subtotal : Number;
  t_tax : Number;
  t_shipping : Number;
  t_discount : Number;
  t_total : Number
}.

(** The totals as the pricing rules derive them from the items and the
    coupon alone: without a coupon of positive value there is no discount. *)
Definition derived_totals (items : list CartItem) (coupon : option Coupon) : Totals :=
  let subtotal := sum_price_quantity items in
  let tax := subtotal * 0.085 in
  let shipping := if num_ge subtotal 50 then 0 else 5.99 in
  let discount :=
    match coupon with
    | Some cp =>
        if num_gt (coupon_discount cp) 0
        then Math_min (discountAmount subtotal cp) subtotal
        else 0
    | None => 0
    end in
  mkTotals subtotal tax shipping discount (subtotal + tax + shipping - discount).

(** The computed fields of a cart agree with the derived totals. *)
Definition totals_derived (c : Cart) : Prop :=
  let t := derived_totals (cart_items c) (cart_coupon c) in
  cart_subtotal c == t_subtotal t /\
  cart_tax c == t_tax t /\
  cart_shipping c == t_shipping t /\
  cart_discount c == t_discount t /\
  cart_total c == t_total t.

(** The mutating operations of a cart. *)
Inductive Mutation :=
  | MAddItem (newId : ObjectId) (p : Product) (quantity : Number) (color size : option string)
  | MUpdateItemQuantity (itemId : ObjectId) (quantity : Number)
  | MRemoveItem (itemId : ObjectId)
  | MClearCart
  | MApplyCoupon (couponCode : string) (discount : Number) (type : CouponType)
  | MRemoveCoupon.

Definition mutate (now : Date) (c : Cart) (m : Mutation) : Cart :=
  match m with
  | MAddItem newId p quantity color size => addItem now newId c p quantity color size
  | MUpdateItemQuantity itemId quantity => updateItemQuantity now c itemId quantity
  | MRemoveItem itemId => removeItem now c itemId
  | MClearCart => clearCart now c
  | MApplyCoupon couponCode discount type => applyCoupon now c couponCode discount type
  | MRemoveCoupon => removeCoupon now c
  end.

Definition mutations (now : Date) (c : Cart) (ms : list Mutation) : Cart :=
  fold_left (mutate now) ms c.


(** The variant has the colour and the size that the item names. *)
Definition variant_of_item (it : OrderItem) (v : Variant) : Prop :=
  variant_color v = oi_color it /\ variant_size v = oi_size it.

Global Instance variant_of_item_dec (it : OrderItem) (v : Variant) :
  Decision (variant_of_item it v).
Proof. unfold variant_of_item. apply _. Defined.





(** The colour and size of each variant, in order. *)
Definition variant_keys (vs : list Variant) : list (option string * option string) :=
  (fun v => (variant_color v, variant_size v)) <$> vs.


(** The decimal digit [d] (0 to 9) as a character. *)
Definition digit (d : Z) : ascii := ascii_of_nat (48 + Z.to_nat d).

(** [k] (0 to 99) written with two decimal digits. *)
Definition two_digits (k : Z) : string :=
  String (digit (k / 10)) (String (digit (k mod 10)) EmptyString).

(** The date as YYMMDD followed by [n] zero-padded to 3 digits. *)
Definition spec_orderNumber (year month day n : Z) : string :=
  (two_digits (year mod 100) ++ two_digits month ++ two_digits day
   ++ padStart0 3 (toString n))%string.

(** The number of stored orders created on local day [day]. *)
Definition day_count (orders : list Order) (day : Z) : Z :=
  countDocuments orders (mkDate day 0) (mkDate (day + 1) 0).

(** The line item is of product [pid] in the variant [color], [size]. *)
Definition same_product_variant (pid : ObjectId) (color size : option string)
    (it : CartItem) : Prop :=
  item_product it = pid /\ item_color it = color /\ item_size it = size.

(** The [discount] field is not stale: a coupon of positive value is
    applied (the next computation of the totals overwrites the field), or
    the field is 0. *)
Definition discount_fresh (c : Cart) : Prop :=
  (exists cp, cart_coupon c = Some cp /\ 0 < coupon_discount cp) \/ cart_discount c == 0.

(** The mutations after which the [discount] field is not stale: all but
    the removal of the coupon and the application of a coupon without
    positive value. *)
Definition keeps_discount_fresh (m : Mutation) : Prop :=
  match m with
  | MRemoveCoupon => False
  | MApplyCoupon _ discount _ => 0 < discount
  | _ => True
  end.

(** A mutation followed by [cart.save()], as every cart route does it. *)
Definition mutate_save (now : Date) (c : Cart) (m : Mutation) : Cart :=
  cart_pre_save (mutate now c m).

(** ** Sample data *)

(** 2024-06-15, one second after local midnight. *)
Definition sample_now : Date := mkDate 19889 1000.

(** The ids of the two sample products. *)
Definition runner_id : ObjectId := "64b7f3a2c9e1d4f5a6b70001".
Definition trail_id : ObjectId := "64b7f3a2c9e1d4f5a6b70002".

Definition sample_line (id : ObjectId) (price quantity : Number) : CartItem :=
  mkCartItem id runner_id "Runner" price quantity (Some "red"%string) (Some "42"%string)
    "runner.png" None true 10.

(** Two lines, 20 x 2 and 15 x 1, with the 10% coupon applied. *)
Definition cart_55 : Cart :=
  mkCart "u1" [sample_line "i1" 20 2; sample_line "i2" 15 1] 0 0 0 0 0
    (Some (mkCoupon "SAVE10" 10 percentage)) sample_now.

(** One line, 20 x 3, no coupon, totals computed. *)
Definition cart_60 : Cart :=
  calculateTotals (mkCart "u1" [sample_line "i1" 20 3] 0 0 0 0 0 None sample_now).

(** A mapper for which defaults do not count as modified and whose ids
    are 24 hexadecimal digits. *)
Definition sample_mapper : Mapper := mkMapper false hex24.

(** A product with 5 pairs in stock, all of them red in size 42. *)
Definition sample_product : Product :=
  mkProduct runner_id "Runner" 20 ["runner.png"%string] None 5
    [mkVariant (Some "red"%string) (Some "42"%string) None 5] true.

Definition sample_products : gmap ObjectId Product := {[ runner_id := sample_product ]}.

Definition sample_shipping : ShippingAddress :=
  mkShippingAddress (Some "Ann"%string) (Some "ann@example.com"%string)
    (Some "1 Main St"%string) (Some "Springfield"%string) (Some "IL"%string)
    (Some "62701"%string) None (Some "555-0100"%string).

Definition sample_billing : BillingAddress :=
  mkBillingAddress (Some "Ann"%string) (Some "ann@example.com"%string)
    (Some "1 Main St"%string) (Some "Springfield"%string) (Some "IL"%string)
    (Some "62701"%string) None.

Definition sample_payment : PaymentInfo :=
  mkPaymentInfo (Some "pi_1"%string) (Some "succeeded"%string) (Some "card"%string).

Definition sample_items : list (option ReqItem) :=
  [Some (mkReqItem (Some runner_id) (Some 2) (Some "red"%string) (Some "42"%string))].

(** A checkout of two red pairs in size 42 by user [u1], with the order
    number WEB-7 chosen by the client. *)
Definition sample_request : OrderRequest :=
  mkOrderRequest (Some sample_items) (Some sample_shipping) (Some sample_billing)
    (Some sample_payment) (Some "WEB-7"%string) (Some "u1"%string).


(** An item whose product id is no [ObjectId]. *)
Definition stray_item : option ReqItem :=
  Some (mkReqItem (Some "nope"%string) (Some 1) (Some "red"%string) (Some "42"%string)).

(** The sample checkout followed by the stray item, under the number
    WEB-8. *)
Definition sample_request_stray : OrderRequest :=
  mkOrderRequest (Some (sample_items ++ [stray_item])) (Some sample_shipping)
    (Some sample_billing) (Some sample_payment) (Some "WEB-8"%string) None.

Definition sample_customer : User := mkUser "u1" false.
Definition sample_admin : User := mkUser "admin" true.

(** The order that checkout creates on an empty collection. *)
Definition sample_order : Order :=
  mkOrder "o1" (Some "WEB-7"%string) (Some "u1"%string)
    [mkOrderItem runner_id "Runner" 20 2 (Some "red"%string) (Some "42"%string) "runner.png"]
    (0 + 20 * 2) ((0 + 20 * 2) * 0.085) 5.99 0 ((0 + 20 * 2) + (0 + 20 * 2) * 0.085 + 5.99)
    pending [] None None None None (Some (mkRefundInfo 0 None refund_pending))
    (Some sample_now) false.

Definition sample_orders : list Order := [sample_order].



(** The sample order once delivered, and once cancelled. *)
Definition sample_delivered : Order :=
  clear_modified (updateStatus sample_now sample_order delivered "").

Definition sample_cancelled : Order :=
  clear_modified (updateStatus sample_now sample_order cancelled "Cancelled by customer").

(** A product with 3 pairs left, and a request for 25 of them. *)
Definition scarce_product : Product :=
  mkProduct trail_id "Trail" 35 ["trail.png"%string] None 3 [] true.

Definition scarce_products : gmap ObjectId Product := {[ trail_id := scarce_product ]}.

Definition greedy_body : AddItemBody :=
  mkAddItemBody (Some trail_id) (Some 25) (Some "blue"%string) (Some "44"%string).

(** A cart that holds 8 red pairs in size 42 of the sample product. *)
Definition cart_8 : Cart :=
  calculateTotals (mkCart "u1" [sample_line "i1" 20 8] 0 0 0 0 0 None sample_now).

(** ** Cart: the remaining methods and routes *)

(** [isEmpty()] *)
Definition isEmpty (c : Cart) : bool := Nat.eqb (List.length (cart_items c)) 0.

Record CartSummary := mkCartSummary {
  summary_itemCount : Number;
  summary_subtotal : Number;
  summary_tax : Number;
  summary_shipping : Number;
  summary_discount : Number;
  summary_total : Number
}.

(** [getSummary()] of a cart *)
Definition cart_getSummary (c : Cart) : CartSummary :=
  mkCartSummary
    (fold_left (fun total item => total + item_quantity item) (cart_items c) 0)
    (cart_subtotal c) (cart_tax c) (cart_shipping c) (cart_discount c) (cart_total c).

(** [body('quantity').isInt({ min: 1 })]: the quantity, when it is an
    integer of at least 1. *)
Definition isInt_min1 (quantity : option Number) : option Number :=
  match quantity with
  | Some q => if Qeq_bool q (inject_Z (Qfloor q)) && Qle_bool 1 q then Some q else None
  | None => None
  end.

(** [PUT /api/cart/items/:itemId] *)
Definition update_item_handler (now : Date) (user : User) (carts : gmap ObjectId Cart)
    (itemId : ObjectId) (quantity : option Number) : Response * gmap ObjectId Cart :=
  match isInt_min1 quantity with
  | None => (mkResponse 400 "Quantity must be at least 1", carts)
  | Some q =>
      match carts !! user_id user with
      | None => (mkResponse 404 "Cart not found", carts)
      | Some cart =>
          (mkResponse 200 "Cart item updated successfully",
           <[user_id user := cart_pre_save (updateItemQuantity now cart itemId q)]> carts)
      end
  end.

(** [DELETE /api/cart/items/:itemId] *)
Definition remove_item_handler (now : Date) (user : User) (carts : gmap ObjectId Cart)
    (itemId : ObjectId) : Response * gmap ObjectId Cart :=
  match carts !! user_id user with
  | None => (mkResponse 404 "Cart not found", carts)
  | Some cart =>
      (mkResponse 200 "Item removed from cart successfully",
       <[user_id user := cart_pre_save (removeItem now cart itemId)]> carts)
  end.

(** [DELETE /api/cart] *)
Definition clear_cart_handler (now : Date) (user : User) (carts : gmap ObjectId Cart)
    : Response * gmap ObjectId Cart :=
  match carts !! user_id user with
  | None => (mkResponse 404 "Cart not found", carts)
  | Some cart =>
      (mkResponse 200 "Cart cleared successfully",
       <[user_id user := cart_pre_save (clearCart now cart)]> carts)
  end.

(** ** Product: the remaining methods *)

(** [getSalePrice()], as a function of the fields it reads. *)
Definition getSalePrice (price : Number) (isOnSale : bool) (salePercentage : Number) : Number :=
  if isOnSale && num_gt salePercentage 0
  then price * (1 - salePercentage / 100)
  else price.

(** [calculateAverageRating()], as a function of the ratings of
    [this.reviews]; it yields the new [ratings] and [numOfReviews]. *)
Definition calculateAverageRating (reviews : list Number) : Number * Number :=
  match reviews with
  | [] => (0, 0)
  | _ =>
      let totalRating := fold_left (fun acc rating => acc + rating) reviews 0 in
      (totalRating / inject_Z (Z.of_nat (List.length reviews)),
       inject_Z (Z.of_nat (List.length reviews)))
  end.

(** ** Order: the remaining methods and routes *)

(** [calculateTotal()] *)
Definition calculateTotal (o : Order) : Order :=
  let itemsPrice :=
    fold_left (fun total item => total + oi_price item * oi_quantity item) (order_items o) 0 in
  mkOrder (order_id o) (order_orderNumber o) (order_user o) (order_items o) itemsPrice
    (order_taxPrice o) (order_shippingPrice o) (order_discountAmount o)
    (itemsPrice + order_taxPrice o + order_shippingPrice o - order_discountAmount o)
    (order_status o) (order_statusHistory o) (order_shippedAt o) (order_deliveredAt o)
    (order_estimatedDelivery o) (order_actualDeliveryDate o) (order_refundInfo o)
    (order_createdAt o) (order_statusModified o).

Record OrderSummary := mkOrderSummary {
  os_orderNumber : option string;
  os_totalItems : Number;
  os_totalPrice : Number;
  os_status : Status;
  os_createdAt : option Date
}.

(** [getSummary()] of an order *)
Definition order_getSummary (o : Order) : OrderSummary :=
  mkOrderSummary (order_orderNumber o)
    (fold_left (fun total item => total + oi_quantity item) (order_items o) 0)
    (order_totalPrice o) (order_status o) (order_createdAt o).

(** [order.deleteOne()] *)
Definition deleteOne (order : Order) (orders : list Order) : list Order :=
  List.filter (fun x => negb (String.eqb (order_id x) (order_id order))) orders.

(** [DELETE /api/orders/:id] *)
Definition delete_order_handler (user : User) (orders : list Order) (id : ObjectId)
    : Response * list Order :=
  match findById orders id with
  | None => (mkResponse 404 "Order not found", orders)
  | Some order =>
      match order_user order with
      | None => (mkResponse 500 "Error deleting order", orders)
      | Some owner =>
          if negb (String.eqb owner (user_id user)) then
            (mkResponse 403 "Not authorized to delete this order", orders)
          else if negb (canBeCancelled order) then
            (mkResponse 400 "Order cannot be deleted at this stage", orders)
          else (mkResponse 200 "Order deleted successfully", deleteOne order orders)
      end
  end.

(** ** The wishlist model (models/Wishlist.js) and its routes *)

Record WishItem := mkWishItem {
  wish_product : ObjectId;
  wish_name : string;
  wish_price : Number;
  wish_image : string;
  wish_inStock : bool;
  wish_addedAt : Date
}.

Record Wishlist := mkWishlist {
  wishlist_user : ObjectId;
  wishlist_items : list WishItem;
  wishlist_lastUpdated : Date
}.

(** [hasItem(productId)] *)
Definition hasItem (w : Wishlist) (productId : ObjectId) : bool :=
  existsb (fun item => String.eqb (wish_product item) productId) (wishlist_items w).

(** [addItem(product)] of a wishlist; [now] is [new Date()] and the
    default of [addedAt]. *)
Definition wishlist_addItem (now : Date) (w : Wishlist) (p : Product) : Wishlist :=
  match List.find (fun item => String.eqb (wish_product item) (product_id p))
                  (wishlist_items w) with
  | Some _ => w
  | None =>
      mkWishlist (wishlist_user w)
        (wishlist_items w
         ++ [mkWishItem (product_id p) (product_name p) (product_price p) (first_image p)
               (num_gt (product_stock p) 0) now])
        now
  end.

(** [removeItem(productId)] of a wishlist *)
Definition wishlist_removeItem (now : Date) (w : Wishlist) (productId : ObjectId) : Wishlist :=
  mkWishlist (wishlist_user w)
    (List.filter (fun item => negb (String.eqb (wish_product item) productId))
                 (wishlist_items w))
    now.

(** [clearWishlist()] *)
Definition clearWishlist (now : Date) (w : Wishlist) : Wishlist :=
  mkWishlist (wishlist_user w) [] now.

(** [getSummary()] of a wishlist: item count and total value. *)
Definition wishlist_getSummary (w : Wishlist) : nat * Number :=
  (List.length (wishlist_items w),
   fold_left (fun total item => total + wish_price item) (wishlist_items w) 0).

(** The validators of an element of [items] of a wishlist: [name] and
    [image] are required. *)
Definition wish_item_valid (item : WishItem) : bool :=
  required (Some (wish_name item)) && required (Some (wish_image item)).

(** The validation that [wishlist.save()] runs. *)
Definition wishlist_valid (w : Wishlist) : bool := forallb wish_item_valid (wishlist_items w).

(** [POST /api/wishlist/items]; wishlists are keyed by their user.  A
    wishlist that [Wishlist.create] made stays in the collection when the
    request fails afterwards.  [hasItem] is asked with the id as the
    request wrote it. *)
Definition wishlist_add_handler (mp : Mapper) (now : Date) (user : User)
    (products : gmap ObjectId Product) (wishlists : gmap ObjectId Wishlist)
    (productId : option string) : Response * gmap ObjectId Wishlist :=
  if negb (truthy productId) then (mkResponse 400 "Product ID is required", wishlists)
  else
    match castObjectId mp (default ""%string productId) with
    | None => (mkResponse 500 "Error adding item to wishlist", wishlists)
    | Some oid =>
        match products !! oid with
        | None => (mkResponse 404 "Product not found", wishlists)
        | Some product =>
            if negb (product_isActive product) then
              (mkResponse 400 "Product is not available", wishlists)
            else
              let found := wishlists !! user_id user in
              let wishlist := default (mkWishlist (user_id user) [] now) found in
              let wishlists1 := match found with
                                | Some _ => wishlists
                                | None => <[user_id user := wishlist]> wishlists
                                end in
              if hasItem wishlist (default ""%string productId) then
                (mkResponse 400 "Item already in wishlist", wishlists1)
              else
                let wishlist' := wishlist_addItem now wishlist product in
                if wishlist_valid wishlist' then
                  (mkResponse 200 "Item added to wishlist successfully",
                   <[user_id user := wishlist']> wishlists1)
                else (mkResponse 500 "Error adding item to wishlist", wishlists1)
        end
    end.

(** ** The member tier of the user model *)

Inductive MemberTier := Bronze | Silver | Gold | Platinum.

Record UserStats := mkUserStats {
  loyaltyPoints : Number;
  memberTier : MemberTier;
  totalOrders : Number;
  totalSpent : Number
}.

(** [updateMemberTier()] *)
Definition updateMemberTier (u : UserStats) : UserStats :=
  mkUserStats (loyaltyPoints u)
    (if num_ge (totalSpent u) 10000 then Platinum
     else if num_ge (totalSpent u) 5000 then Gold
     else if num_ge (totalSpent u) 1000 then Silver
     else Bronze)
    (totalOrders u) (totalSpent u).

(** [addLoyaltyPoints(points)] *)
Definition addLoyaltyPoints (u : UserStats) (points : Number) : UserStats :=
  updateMemberTier
    (mkUserStats (loyaltyPoints u + points) (memberTier u) (totalOrders u) (totalSpent u)).

(** [updateOrderStats(orderTotal)] *)
Definition updateOrderStats (u : UserStats) (orderTotal : Number) : UserStats :=
  updateMemberTier
    (mkUserStats (loyaltyPoints u) (memberTier u) (totalOrders u + 1)
       (totalSpent u + orderTotal)).

(** The tiers in ascending order. *)
Definition tier_rank (t : MemberTier) : nat :=
  match t with
  | Bronze => 0
  | Silver => 1
  | Gold => 2
  | Platinum => 3
  end.

(** ** Votes and reports of the review model *)

Record Vote := mkVote {
  vote_user : ObjectId;
  vote_createdAt : Date
}.

Record Report := mkReport {
  report_user : ObjectId;
  report_reason : option string;
  report_createdAt : Date
}.

Record ReviewFlags := mkReviewFlags {
  review_helpful : list Vote;
  review_reported : list Report
}.

(** The virtual [helpfulCount] *)
Definition helpfulCount (r : ReviewFlags) : nat := List.length (review_helpful r).

(** [addHelpful(userId)]; [now] is the default of [createdAt]. *)
Definition addHelpful (now : Date) (r : ReviewFlags) (userId : ObjectId) : ReviewFlags :=
  match List.find (fun vote => String.eqb (vote_user vote) userId) (review_helpful r) with
  | Some _ => r
  | None => mkReviewFlags (review_helpful r ++ [mkVote userId now]) (review_reported r)
  end.

(** [removeHelpful(userId)] *)
Definition removeHelpful (r : ReviewFlags) (userId : ObjectId) : ReviewFlags :=
  mkReviewFlags
    (List.filter (fun vote => negb (String.eqb (vote_user vote) userId)) (review_helpful r))
    (review_reported r).

(** [report(userId, reason)] *)
Definition report (now : Date) (r : ReviewFlags) (userId : ObjectId)
    (reason : option string) : ReviewFlags :=
  match List.find (fun rep => String.eqb (report_user rep) userId) (review_reported r) with
  | Some _ => r
  | None => mkReviewFlags (review_helpful r) (review_reported r ++ [mkReport userId reason now])
  end.

(** [hasVotedHelpful(userId)] *)
Definition hasVotedHelpful (r : ReviewFlags) (userId : ObjectId) : bool :=
  existsb (fun vote => String.eqb (vote_user vote) userId) (review_helpful r).

(** [hasReported(userId)] *)
Definition hasReported (r : ReviewFlags) (userId : ObjectId) : bool :=
  existsb (fun rep => String.eqb (report_user rep) userId) (review_reported r).

(** ** Addresses and payment methods of a user *)

Record Address := mkAddress {
  addr_id : ObjectId;
  addr_type : string;
  addr_name : string;
  addr_address : string;
  addr_city : string;
  addr_state : string;
  addr_zipCode : string;
  addr_country : string;
  addr_isDefault : bool
}.

Definition set_addr_default (b : bool) (a : Address) : Address :=
  mkAddress (addr_id a) (addr_type a) (addr_name a) (addr_address a) (addr_city a)
    (addr_state a) (addr_zipCode a) (addr_country a) b.

(** The body of a request to add an address; no validator looks at
    [isDefault]. *)
Record AddressBody := mkAddressBody {
  ab_type : option string;
  ab_name : option string;
  ab_address : option string;
  ab_city : option string;
  ab_state : option string;
  ab_zipCode : option string;
  ab_country : option string;
  ab_isDefault : Value
}.

(** The mapper's cast of a value to a [Boolean] path that is neither
    [null] nor [undefined]: [true], ['true'], [1], ['1'] and ['yes'] are
    true, [false], ['false'], [0], ['0'] and ['no'] are false, every other
    value is a cast error ([None]). *)
Definition castBoolean (v : Value) : option bool :=
  match v with
  | VBool b => Some b
  | VNumber n => if Qeq_bool n 1 then Some true else if Qeq_bool n 0 then Some false else None
  | VString s =>
      if existsb (String.eqb s) ["true"; "1"; "yes"]%string then Some true
      else if existsb (String.eqb s) ["false"; "0"; "no"]%string then Some false
      else None
  | _ => None
  end.

(** What the path [isDefault] of the new address holds after the cast of
    [isDefault || user.addresses.length === 0]. *)
Definition stored_isDefault (isDefault : Value) (first : bool) : option bool :=
  if value_truthy isDefault then castBoolean isDefault else Some first.

(** [body(field).trim().notEmpty()] *)
Definition trimmed_notEmpty (field : option string) : option string :=
  match field with
  | Some s => if String.eqb (trim s) "" then None else Some (trim s)
  | None => None
  end.

(** [body('type').isIn(['home', 'office', 'other'])] *)
Definition valid_type (field : option string) : option string :=
  match field with
  | Some s => if existsb (String.eqb s) ["home"; "office"; "other"]%string
              then Some s else None
  | None => None
  end.

(** [POST /api/users/addresses]; the addresses are those of the user
    document, [None] when there is no such document; [newId] is the id
    that the new subdocument gets.  A value of [isDefault] that the mapper
    cannot cast makes [user.save()] fail. *)
Definition add_address_handler (newId : ObjectId) (addresses : option (list Address))
    (body : AddressBody) : Response * option (list Address) :=
  match valid_type (ab_type body), trimmed_notEmpty (ab_name body),
        trimmed_notEmpty (ab_address body), trimmed_notEmpty (ab_city body),
        trimmed_notEmpty (ab_state body), trimmed_notEmpty (ab_zipCode body),
        trimmed_notEmpty (ab_country body) with
  | Some type, Some name, Some address, Some city, Some state, Some zipCode, Some country =>
      match addresses with
      | None => (mkResponse 500 "Error adding address", addresses)
      | Some addrs =>
          let first := Nat.eqb (List.length addrs) 0 in
          let addrs1 :=
            if first || value_truthy (ab_isDefault body)
            then List.map (set_addr_default false) addrs else addrs in
          match stored_isDefault (ab_isDefault body) first with
          | None => (mkResponse 500 "Error adding address", addresses)
          | Some isDefault =>
              let newAddress :=
                mkAddress newId type name address city state zipCode country isDefault in
              (mkResponse 201 "Address added successfully", Some (addrs1 ++ [newAddress]))
          end
      end
  | _, _, _, _, _, _, _ => (mkResponse 400 "", addresses)
  end.

(** [user.addresses[0].isDefault = true] *)
Definition default_first (addrs : list Address) : list Address :=
  match addrs with
  | [] => []
  | a :: rest => set_addr_default true a :: rest
  end.

(** [DELETE /api/user/addresses/:id] *)
Definition delete_address_handler (addresses : option (list Address)) (id : ObjectId)
    : Response * option (list Address) :=
  match addresses with
  | None => (mkResponse 500 "Error deleting address", addresses)
  | Some addrs =>
      match findIndex (fun addr => String.eqb (addr_id addr) id) addrs with
      | None => (mkResponse 404 "Address not found", addresses)
      | Some addressIndex =>
          let deleted := addr_isDefault <$> addrs !! addressIndex in
          let rest := take addressIndex addrs ++ drop (S addressIndex) addrs in
          let rest' :=
            if bool_decide (deleted = Some true) && negb (Nat.eqb (List.length rest) 0)
            then default_first rest else rest in
          (mkResponse 200 "Address deleted successfully", Some rest')
      end
  end.

Record PaymentMethod := mkPaymentMethod {
  pm_id : ObjectId;
  pm_type : string;
  pm_last4 : string;
  pm_expiryMonth : string;
  pm_expiryYear : string;
  pm_isDefault : bool;
  pm_stripePaymentMethodId : option string
}.

Definition set_pm_default (b : bool) (m : PaymentMethod) : PaymentMethod :=
  mkPaymentMethod (pm_id m) (pm_type m) (pm_last4 m) (pm_expiryMonth m) (pm_expiryYear m)
    b (pm_stripePaymentMethodId m).

(** [PUT /api/payment/methods/:id/default] *)
Definition set_default_method_handler (methods : option (list PaymentMethod)) (id : ObjectId)
    : Response * option (list PaymentMethod) :=
  match methods with
  | None => (mkResponse 500 "Error setting default payment method", methods)
  | Some ms =>
      (mkResponse 200 "Default payment method updated successfully",
       Some (List.map (fun method => set_pm_default (String.eqb (pm_id method) id) method) ms))
  end.

(** ** Vocabulary of the further properties *)

(** The mutation computes the totals of cart [c] itself: every mutation
    but [clearCart] and an [updateItemQuantity] that finds no line. *)
Definition recomputes_totals (c : Cart) (m : Mutation) : Prop :=
  match m with
  | MClearCart => False
  | MUpdateItemQuantity itemId _ =>
      findIndex (fun it => String.eqb (item_id it) itemId) (cart_items c) <> None
  | _ => True
  end.

(** No line has a negative price or quantity. *)
Definition lines_nonneg (items : list CartItem) : Prop :=
  Forall (fun it => 0 <= item_price it /\ 0 <= item_quantity it) items.

(** A cart with the sample line twice (8 pairs), the second time under
    another id, and the 10% coupon. *)
Definition cart_two_lines : Cart :=
  calculateTotals
    (mkCart "u1" [sample_line "i1" 20 8; sample_line "i2" 20 1] 0 0 0 0 0
       (Some (mkCoupon "SAVE10" 10 percentage)) sample_now).

Definition sample_carts : gmap ObjectId Cart := {[ "u1"%string := cart_two_lines ]}.

(** The line that a request for product [p] in [color] and [size] leaves
    in a cart with the lines [items] passes the validation of the cart: a
    line that is appended, there being no line of that product, colour
    and size, needs the name and the first image of the product; the
    first line of that product, colour and size, into which the request
    is merged, needs a [maxQuantity] of at least 1. *)
Definition line_storable (items : list CartItem) (p : Product)
    (color size : option string) : Prop :=
  ((forall it, In it items -> ~ same_product_variant (product_id p) color size it) ->
   product_name p <> ""%string /\ first_image p <> ""%string) /\
  (forall i it0,
     items !! i = Some it0 ->
     same_product_variant (product_id p) color size it0 ->
     (forall j x, (j < i)%nat -> items !! j = Some x ->
                  ~ same_product_variant (product_id p) color size x) ->
     1 <= item_maxQuantity it0).

(** No stock count of the product is negative. *)
Definition stocks_nonneg (p : Product) : Prop :=
  0 <= product_stock p /\ Forall (fun v => 0 <= variant_stock v) (product_variants p).

(** An order line for [quantity] pairs of the sample product without a
    variant. *)
Definition plain_line (quantity : Number) : OrderItem :=
  mkOrderItem runner_id "Runner" 20 quantity None None "runner.png".

(** The requested item is one the checkout loop accepts: an object with
    a product id, a numeric quantity, a colour and a size, whose product
    id is an [ObjectId] under which a product exists. *)
Definition item_acceptable (mp : Mapper) (products : gmap ObjectId Product)
    (item : option ReqItem) : bool :=
  match item with
  | Some (mkReqItem (Some pid) (Some _) color size) =>
      truthy (Some pid) && truthy color && truthy size
      && match castObjectId mp pid with
         | Some oid => bool_decide (is_Some (products !! oid))
         | None => false
         end
  | _ => false
  end.

(** The requested item is complete, but its product id is no [ObjectId]:
    the lookup of the product throws. *)
Definition item_throws (mp : Mapper) (item : option ReqItem) : bool :=
  match item with
  | Some (mkReqItem (Some pid) (Some _) color size) =>
      truthy (Some pid) && truthy color && truthy size
      && bool_decide (castObjectId mp pid = None)
  | _ => false
  end.

(** The order line [oi] is the requested item with the id, name, price
    and first image of its product as stored now. *)
Definition order_item_of (mp : Mapper) (products : gmap ObjectId Product)
    (item : option ReqItem) (oi : OrderItem) : Prop :=
  exists pid oid q color size p,
    item = Some (mkReqItem (Some pid) (Some q) color size) /\
    castObjectId mp pid = Some oid /\
    products !! oid = Some p /\
    oi = mkOrderItem (product_id p) (product_name p) (product_price p) q color size
           (first_image p).

(** The sum of price times quantity over the lines of an order. *)
Fixpoint sum_order_items (items : list OrderItem) : Number :=
  match items with
  | [] => 0
  | it :: rest => oi_price it * oi_quantity it + sum_order_items rest
  end.

(** The document that the status route saves: [updateStatus] and the
    route's own assignments to the shipping and delivery dates. *)
Definition status_route_doc (now : Date) (order : Order) (st : Status)
    (note : option string) : Order :=
  let o1 := updateStatus now order st (default ""%string note) in
  match st with
  | shipped =>
      set_estimatedDelivery (addMs now (3 * 24 * 60 * 60 * 1000)) (set_shippedAt now o1)
  | delivered => set_delivered now o1
  | _ => o1
  end.

(** The sample order once shipped. *)
Definition sample_shipped : Order :=
  clear_modified (updateStatus sample_now sample_order shipped "").

(** The products of the items of a wishlist, in order. *)
Definition wished (w : Wishlist) : list ObjectId := wish_product <$> wishlist_items w.

(** The sum of the prices of the items of a wishlist. *)
Fixpoint sum_wish_prices (items : list WishItem) : Number :=
  match items with
  | [] => 0
  | item :: rest => wish_price item + sum_wish_prices rest
  end.

(** The number of default addresses. *)
Definition default_count (addrs : list Address) : nat :=
  List.length (List.filter addr_isDefault addrs).

(** A user who has addresses has exactly one default address. *)
Definition one_default (addrs : list Address) : Prop :=
  addrs <> [] -> default_count addrs = 1%nat.

(** The value of [isDefault] means to the mapper what it means to the
    handler: it is falsy, or the mapper casts it to [true]. *)
Definition plain_flag (isDefault : Value) : Prop :=
  value_truthy isDefault = true -> castBoolean isDefault = Some true.

Definition sample_wishlist : Wishlist :=
  mkWishlist "u1" [mkWishItem runner_id "Runner" 20 "runner.png" true sample_now] sample_now.

(** A request to add a home address with the given [isDefault]. *)
Definition sample_address_body (isDefault : Value) : AddressBody :=
  mkAddressBody (Some "home"%string) (Some "Ann"%string) (Some "2 Side St"%string)
    (Some "Springfield"%string) (Some "IL"%string) (Some "62701"%string)
    (Some "USA"%string) isDefault.

Definition sample_address (id : ObjectId) (isDefault : bool) : Address :=
  mkAddress id "home" "Ann" "1 Main St" "Springfield" "IL" "62701" "USA" isDefault.

Definition sample_method (id : ObjectId) (isDefault : bool) : PaymentMethod :=
  mkPaymentMethod id "visa" "4242" "12" "2030" isDefault None.

(** * Properties *)

Section Numbers.

Lemma num_ge_spec (a b : Number) : num_ge a b = true <-> b <= a.
Proof. unfold num_ge. apply Qle_bool_iff. Qed.

Lemma num_gt_spec (a b : Number) : num_gt a b = true <-> b < a.
Proof.
  unfold num_gt. rewrite negb_true_iff. split.
  - intros H. apply Qnot_le_lt. intros Hle. apply Qle_bool_iff in Hle. congruence.
  - intros H. destruct (Qle_bool a b) eqn:E; [|reflexivity].
    apply Qle_bool_iff in E. exfalso. exact (Qlt_not_le _ _ H E).
Qed.

Lemma num_lt_spec (a b : Number) : num_lt a b = true <-> a < b.
Proof. apply (num_gt_spec b a). Qed.

Lemma Math_min_le_l (a b : Number) : Math_min a b <= a.
Proof.
  unfold Math_min. destruct (Qle_bool a b) eqn:E; [apply Qle_refl|].
  apply Qlt_le_weak, num_gt_spec. unfold num_gt. now rewrite E.
Qed.

Lemma Math_min_le_r (a b : Number) : Math_min a b <= b.
Proof.
  unfold Math_min. destruct (Qle_bool a b) eqn:E; [|apply Qle_refl].
  now apply Qle_bool_iff.
Qed.

Lemma Math_min_l (a b : Number) : a <= b -> Math_min a b = a.
Proof. intros H. unfold Math_min. apply Qle_bool_iff in H. now rewrite H. Qed.

Lemma Math_min_r (a b : Number) : b < a -> Math_min a b = b.
Proof.
  intros H. unfold Math_min. apply num_gt_spec in H. unfold num_gt in H.
  apply negb_true_iff in H. now rewrite H.
Qed.

Lemma Qle_bool_compat (a a' b b' : Number) :
  a == a' -> b == b' -> Qle_bool a b = Qle_bool a' b'.
Proof.
  intros Ha Hb. apply eq_true_iff_eq. rewrite !Qle_bool_iff, Ha, Hb. reflexivity.
Qed.

Lemma Math_min_compat (a a' b b' : Number) :
  a == a' -> b == b' -> Math_min a b == Math_min a' b'.
Proof.
  intros Ha Hb. unfold Math_min. rewrite (Qle_bool_compat a a' b b' Ha Hb).
  now destruct (Qle_bool a' b').
Qed.

End Numbers.

(** ** Pricing *)

Lemma items_reduce_from (items : list CartItem) (acc : Number) :
  fold_left (fun total item => total + item_price item * item_quantity item) items acc
  == acc + sum_price_quantity items.
Proof.
  revert acc. induction items as [|it rest IH]; intros acc; simpl.
  - ring.
  - rewrite IH. ring.
Qed.

Lemma items_reduce_sum (items : list CartItem) :
  items_reduce items == sum_price_quantity items.
Proof. unfold items_reduce. rewrite items_reduce_from. ring. Qed.

(** C1: with a coupon of positive value applied, [calculateTotals] yields
    subtotal = the sum of price times quantity, tax = subtotal times 8.5%,
    shipping = 0 from a subtotal of 50 on and 5.99 below, discount = the
    percentage of the subtotal or the fixed value, in both cases capped at
    the subtotal, and total = subtotal + tax + shipping - discount, which
    is not floored at 0. *)
Theorem calculateTotals_with_coupon (c : Cart) (cp : Coupon) :
  cart_coupon c = Some cp ->
  0 < coupon_discount cp ->
  let r := calculateTotals c in
  cart_subtotal r == sum_price_quantity (cart_items c) /\
  cart_tax r = cart_subtotal r * 0.085 /\
  (50 <= cart_subtotal r -> cart_shipping r = 0) /\
  (cart_subtotal r < 50 -> cart_shipping r = 5.99) /\
  (coupon_type cp = percentage ->
   cart_discount r = Math_min (cart_subtotal r * (coupon_discount cp / 100)) (cart_subtotal r)) /\
  (coupon_type cp = fixed ->
   cart_discount r = Math_min (coupon_discount cp) (cart_subtotal r)) /\
  cart_discount r <= cart_subtotal r /\
  (discountAmount (cart_subtotal r) cp <= cart_subtotal r ->
   cart_discount r = discountAmount (cart_subtotal r) cp) /\
  cart_total r = cart_subtotal r + cart_tax r + cart_shipping r - cart_discount r.
Proof.
  intros Hcp Hpos r. subst r. unfold calculateTotals. simpl.
  rewrite Hcp. apply num_gt_spec in Hpos. rewrite Hpos.
  split; [apply items_reduce_sum|].
  split; [reflexivity|].
  split.
  { intros H. apply num_ge_spec in H. now rewrite H. }
  split.
  { intros H. apply num_lt_spec in H. unfold num_lt in H. unfold num_ge.
    apply negb_true_iff in H. now rewrite H. }
  split; [intros Ht; unfold discountAmount; now rewrite Ht|].
  split; [intros Ht; unfold discountAmount; now rewrite Ht|].
  split; [apply Math_min_le_r|].
  split; [apply Math_min_l|reflexivity].
Qed.

Lemma calculateTotals_with_coupon_witness :
  cart_coupon cart_55 = Some (mkCoupon "SAVE10" 10 percentage) /\
  0 < 10 /\
  cart_subtotal (calculateTotals cart_55) == sum_price_quantity (cart_items cart_55) /\
  cart_discount (calculateTotals cart_55) <= cart_subtotal (calculateTotals cart_55).
Proof.
  split; [reflexivity|]. split; [reflexivity|].
  destruct (calculateTotals_with_coupon cart_55 (mkCoupon "SAVE10" 10 percentage)
              eq_refl eq_refl) as (H1 & _ & _ & _ & _ & _ & H7 & _).
  split; assumption.
Defined.

(** The scenario of the specification: 20 x 2 and 15 x 1 with the 10%
    coupon give subtotal 55, tax 4.675, free shipping, discount 5.5 and
    total 54.175. *)
Example scenario_save10 :
  cart_subtotal (calculateTotals cart_55) == 55 /\
  cart_tax (calculateTotals cart_55) == 4.675 /\
  cart_shipping (calculateTotals cart_55) == 0 /\
  cart_discount (calculateTotals cart_55) == 5.5 /\
  cart_total (calculateTotals cart_55) == 54.175.
Proof. repeat split. Qed.

(** ** Recomputation after mutations *)

Lemma num_ge_compat (a a' b : Number) : a == a' -> num_ge a b = num_ge a' b.
Proof. intros H. unfold num_ge. now apply Qle_bool_compat. Qed.

Lemma discountAmount_compat (a a' : Number) (cp : Coupon) :
  a == a' -> discountAmount a cp == discountAmount a' cp.
Proof. intros H. unfold discountAmount. destruct (coupon_type cp); [now rewrite H|reflexivity]. Qed.

(** Without a coupon of positive value [calculateTotals] leaves the
    [discount] field as it found it. *)
Lemma calculateTotals_keeps_discount (c : Cart) :
  (forall cp, cart_coupon c = Some cp -> ~ 0 < coupon_discount cp) ->
  cart_discount (calculateTotals c) = cart_discount c.
Proof.
  intros H. unfold calculateTotals. simpl.
  destruct (cart_coupon c) as [cp|]; [|reflexivity].
  destruct (num_gt (coupon_discount cp) 0) eqn:E; [|reflexivity].
  apply num_gt_spec in E. exfalso. exact (H cp eq_refl E).
Qed.

(** [calculateTotals] yields the derived totals when a coupon of positive
    value is applied, or when the [discount] field was 0 beforehand. *)
Lemma calculateTotals_derived (c : Cart) :
  ((exists cp, cart_coupon c = Some cp /\ 0 < coupon_discount cp) \/ cart_discount c == 0) ->
  totals_derived (calculateTotals c).
Proof.
  intros H. unfold totals_derived, derived_totals, calculateTotals. simpl.
  pose proof (items_reduce_sum (cart_items c)) as Hs.
  set (s := items_reduce (cart_items c)) in *.
  set (s' := sum_price_quantity (cart_items c)) in *.
  assert (Hsh : (if num_ge s 50 then 0 else 5.99) == (if num_ge s' 50 then 0 else 5.99)).
  { rewrite (num_ge_compat s s' 50 Hs). reflexivity. }
  assert (Hd : match cart_coupon c with
               | Some cp => if num_gt (coupon_discount cp) 0
                            then Math_min (discountAmount s cp) s else cart_discount c
               | None => cart_discount c
               end ==
               match cart_coupon c with
               | Some cp => if num_gt (coupon_discount cp) 0
                            then Math_min (discountAmount s' cp) s' else 0
               | None => 0
               end).
  { destruct H as [(cp & Hcp & Hpos)|H0].
    - rewrite Hcp. apply num_gt_spec in Hpos. rewrite Hpos.
      apply Math_min_compat; [now apply discountAmount_compat|exact Hs].
    - destruct (cart_coupon c) as [cp|]; [|exact H0].
      destruct (num_gt (coupon_discount cp) 0); [|exact H0].
      apply Math_min_compat; [now apply discountAmount_compat|exact Hs]. }
  split; [exact Hs|].
  split; [now rewrite Hs|].
  split; [exact Hsh|].
  split; [exact Hd|].
  rewrite Hsh, Hd, Hs. reflexivity.
Qed.

Lemma discount_fresh_ext (c c' : Cart) :
  cart_coupon c' = cart_coupon c -> cart_discount c' = cart_discount c ->
  discount_fresh c -> discount_fresh c'.
Proof. unfold discount_fresh. intros -> ->. tauto. Qed.

Lemma calculateTotals_fresh (c : Cart) :
  discount_fresh c -> discount_fresh (calculateTotals c).
Proof.
  intros [(cp & Hcp & Hpos)|H0].
  - left. exists cp. split; [exact Hcp|exact Hpos].
  - destruct (cart_coupon c) as [cp|] eqn:Hcp.
    + destruct (num_gt (coupon_discount cp) 0) eqn:E.
      * left. exists cp. split; [exact Hcp|now apply num_gt_spec].
      * right. unfold calculateTotals. simpl. now rewrite Hcp, E.
    + right. unfold calculateTotals. simpl. now rewrite Hcp.
Qed.

(** Freshness of a cart whose items were replaced and whose totals were
    recomputed and time stamped, from the freshness [Hc] of the cart. *)
Ltac recomputed_fresh Hc :=
  eapply discount_fresh_ext;
  [ | | apply calculateTotals_fresh; eapply discount_fresh_ext; [ | | exact Hc] ];
  reflexivity.

(** Every mutation other than the removal of the coupon (and the
    application of a coupon without positive value), followed by the save
    of the route, leaves the derived totals in the computed fields and
    the [discount] field fresh. *)
Lemma mutate_save_derived (now : Date) (c : Cart) (m : Mutation) :
  discount_fresh c -> keeps_discount_fresh m ->
  totals_derived (mutate_save now c m) /\ discount_fresh (mutate_save now c m).
Proof.
  intros Hc Hm.
  assert (H : discount_fresh (mutate now c m)).
  { destruct m; simpl in *.
    - unfold addItem. recomputed_fresh Hc.
    - unfold updateItemQuantity. destruct (findIndex _ _); [|exact Hc].
      recomputed_fresh Hc.
    - unfold removeItem. recomputed_fresh Hc.
    - right. reflexivity.
    - left. eexists. split; [reflexivity|exact Hm].
    - contradiction. }
  unfold mutate_save, cart_pre_save. split.
  - apply calculateTotals_derived. destruct H as [H|H]; [now left|now right].
  - now apply calculateTotals_fresh.
Qed.

Lemma mutations_save_derived (now : Date) (ms : list Mutation) (c : Cart) :
  totals_derived c -> discount_fresh c -> Forall keeps_discount_fresh ms ->
  totals_derived (fold_left (mutate_save now) ms c).
Proof.
  revert c. induction ms as [|m ms IH]; intros c Hd Hf Hall; simpl; [exact Hd|].
  apply Forall_cons in Hall as [Hm Hall].
  destruct (mutate_save_derived now c m Hf Hm) as [Hd' Hf'].
  now apply IH.
Qed.

(** C2: the computed fields after a mutation are not always the derived
    totals.  Applying the 10% coupon to a cart of 20 x 3 and removing it
    again leaves discount = 6 and total = 59.1 on a cart without coupon,
    where the derived discount is 0 and the derived total 65.1; the save
    that follows in the route does not repair it. *)
Theorem removeCoupon_stale_discount :
  let c := mutations sample_now cart_60 [MApplyCoupon "SAVE10" 10 percentage; MRemoveCoupon] in
  cart_coupon c = None /\
  cart_discount c == 6 /\
  cart_total c == 59.1 /\
  t_discount (derived_totals (cart_items c) (cart_coupon c)) == 0 /\
  t_total (derived_totals (cart_items c) (cart_coupon c)) == 65.1 /\
  ~ totals_derived c /\
  ~ totals_derived (cart_pre_save c).
Proof.
  split; [reflexivity|]. split; [reflexivity|]. split; [reflexivity|].
  split; [reflexivity|]. split; [reflexivity|].
  split; intros (_ & _ & _ & Hd & _); vm_compute in Hd; discriminate Hd.
Qed.

(** [clearCart] writes zeros; the save of the route then computes the
    totals of the empty cart, with the flat shipping fee. *)
Example clearCart_then_save :
  cart_shipping (clearCart sample_now cart_60) == 0 /\
  cart_shipping (mutate_save sample_now cart_60 MClearCart) == 5.99 /\
  cart_total (mutate_save sample_now cart_60 MClearCart) == 5.99.
Proof. repeat split. Qed.

(** ** Inventory *)

Lemma take_floor0_spec (x quantity : Number) :
  (quantity <= x -> take_floor0 x quantity = x - quantity) /\
  (x < quantity -> take_floor0 x quantity = 0).
Proof.
  unfold take_floor0. split; intros H.
  - destruct (num_lt (x - quantity) 0) eqn:E; [|reflexivity].
    apply num_lt_spec in E. exfalso. apply (Qlt_not_le _ _ E).
    rewrite <- (Qplus_opp_r quantity). apply Qplus_le_compat; [exact H|apply Qle_refl].
  - destruct (num_lt (x - quantity) 0) eqn:E; [reflexivity|].
    assert (Hlt : x - quantity < 0).
    { rewrite <- (Qplus_opp_r quantity). apply Qplus_lt_le_compat; [exact H|apply Qle_refl]. }
    apply num_lt_spec in Hlt. congruence.
Qed.

(** [updateStock] on an item without variant takes the quantity from the
    top-level stock, floored at 0. *)
Lemma updateStock_top (p : Product) (quantity : Number) (color size : option string) :
  truthy color && truthy size = false ->
  product_stock (updateStock p quantity color size) = take_floor0 (product_stock p) quantity /\
  product_variants (updateStock p quantity color size) = product_variants p.
Proof. intros H. unfold updateStock. rewrite H. split; reflexivity. Qed.

(** [updateStock] on an item with colour and size takes the quantity from
    the first variant with that colour and size, floored at 0. *)
Lemma updateStock_variant (p : Product) (quantity : Number) (color size : option string)
    (i : nat) (v : Variant) :
  truthy color && truthy size = true ->
  findIndex (variant_matches color size) (product_variants p) = Some i ->
  product_variants p !! i = Some v ->
  product_stock (updateStock p quantity color size) = product_stock p /\
  product_variants (updateStock p quantity color size)
  = <[i := set_variant_stock (take_floor0 (variant_stock v) quantity) v]> (product_variants p).
Proof.
  intros H Hi Hv. unfold updateStock. rewrite H, Hi. split; [reflexivity|]. simpl.
  apply list_eq. intros j. destruct (decide (i = j)) as [->|Hne].
  - rewrite list_lookup_alter_eq, Hv. simpl.
    rewrite list_lookup_insert_eq; [reflexivity|]. eapply lookup_lt_Some, Hv.
  - rewrite list_lookup_alter_ne, list_lookup_insert_ne by done. reflexivity.
Qed.

(** The checkout handler hands the product collection back as it got it. *)
Lemma create_order_handler_products (mp : Mapper) (now : Date) (newId : ObjectId)
    (products : gmap ObjectId Product) (orders : list Order) (req : OrderRequest) :
  snd (fst (create_order_handler mp now newId products orders req)) = products.
Proof.
  unfold create_order_handler.
  destruct (req_items req) as [[|item items]|]; [reflexivity| |reflexivity].
  destruct (process_items mp products (item :: items) 0 []) as [res|[itemsPrice orderItems]];
    [reflexivity|].
  destruct (Order_create _ _ _ _ _) as [[? ?]|]; reflexivity.
Qed.

(** C3: the checkout of two red pairs in size 42 of a product that has 5
    of them creates the order and leaves the stock of the variant (and of
    the product) at 5, where [updateStock] on that product would leave 3. *)
Theorem checkout_keeps_stock :
  let r := create_order_handler sample_mapper sample_now "o1" sample_products [] sample_request in
  res_status (fst (fst r)) = 201%Z /\
  List.length (snd r) = 1%nat /\
  snd (fst r) = sample_products /\
  (variant_stock <$> (snd (fst r) !! runner_id ≫= fun p => product_variants p !! 0%nat))
  = Some 5 /\
  (variant_stock <$>
     (product_variants (updateStock sample_product 2 (Some "red"%string) (Some "42"%string))
      !! 0%nat))
  = Some (5 - 2).
Proof.
  split; [reflexivity|]. split; [reflexivity|].
  split; [apply create_order_handler_products|].
  split; reflexivity.
Qed.

Example checkout_sample :
  create_order_handler sample_mapper sample_now "o1" sample_products [] sample_request
  = (mkResponse 201 "Order created successfully", sample_products, sample_orders).
Proof.
  rewrite (surjective_pairing (create_order_handler _ _ _ _ _ _)).
  rewrite (surjective_pairing (fst (create_order_handler _ _ _ _ _ _))).
  rewrite create_order_handler_products. reflexivity.
Qed.

(** ** Lists and the order collection *)

Lemma findIndex_Some {A} (p : A -> bool) (l : list A) (i : nat) :
  findIndex p l = Some i ->
  exists x, l !! i = Some x /\ p x = true /\
            forall j y, (j < i)%nat -> l !! j = Some y -> p y = false.
Proof.
  revert i. induction l as [|a l IH]; intros i H; simpl in H; [discriminate|].
  destruct (p a) eqn:E.
  - injection H as <-. exists a. split; [reflexivity|]. split; [exact E|]. intros j y Hj. lia.
  - destruct (findIndex p l) as [k|]; [|discriminate]. simpl in H. injection H as <-.
    destruct (IH k eq_refl) as (x & Hx & Hpx & Hbefore).
    exists x. split; [exact Hx|]. split; [exact Hpx|].
    intros [|j] y Hj Hy; simpl in Hy.
    + now injection Hy as <-.
    + apply (Hbefore j y); [lia|exact Hy].
Qed.

Lemma findIndex_None {A} (p : A -> bool) (l : list A) :
  findIndex p l = None <-> forall x, In x l -> p x = false.
Proof.
  induction l as [|a l IH]; simpl.
  - split; [intros _ x []|reflexivity].
  - destruct (p a) eqn:E.
    + split; [discriminate|]. intros H. rewrite (H a) in E by now left. discriminate.
    + destruct (findIndex p l) as [k|]; simpl.
      * split; [discriminate|]. intros H.
        destruct IH as [_ IH]. discriminate IH. intros x Hx. apply H. now right.
      * split; [|reflexivity]. intros _ x [<-|Hx]; [exact E|].
        destruct IH as [IH _]. now apply IH.
Qed.

Lemma findById_id (orders : list Order) (id : ObjectId) (o : Order) :
  findById orders id = Some o -> order_id o = id.
Proof.
  unfold findById. intros H. apply find_some in H as [_ H]. now apply String.eqb_eq.
Qed.

Lemma findById_replace (orders : list Order) (id : ObjectId) (o o' : Order) :
  findById orders id = Some o ->
  order_id o' = id ->
  findById (replace_order o' orders) id = Some o'.
Proof.
  unfold findById, replace_order. intros H Hid. rewrite Hid.
  induction orders as [|x orders IH]; simpl in *; [discriminate|].
  destruct (String.eqb (order_id x) id) eqn:E.
  - simpl. rewrite Hid, String.eqb_refl. reflexivity.
  - simpl. rewrite E. now apply IH.
Qed.

Lemma order_pre_save_keeps (now : Date) (orders : list Order) (o : Order) :
  let o' := order_pre_save now orders o in
  order_id o' = order_id o /\ order_status o' = order_status o /\
  order_items o' = order_items o /\ order_user o' = order_user o /\
  order_refundInfo o' = order_refundInfo o /\ order_totalPrice o' = order_totalPrice o.
Proof.
  unfold order_pre_save.
  destruct (orderNumber_missing o); simpl; destruct (order_statusModified o); simpl; tauto.
Qed.

Lemma updateStatus_fields (now : Date) (o : Order) (st : Status) (note : string) :
  let o' := updateStatus now o st note in
  order_id o' = order_id o /\ order_status o' = st /\ order_items o' = order_items o /\
  order_orderNumber o' = order_orderNumber o /\
  order_statusHistory o' = order_statusHistory o ++ [mkStatusEntry st now (Some note)] /\
  order_statusModified o'
  = order_statusModified o || negb (bool_decide (order_status o = st)).
Proof. unfold updateStatus. destruct st; simpl; tauto. Qed.

(** ** Cancellation *)






Lemma findIndex_variant_keys (color size : option string) (vs vs' : list Variant) :
  variant_keys vs = variant_keys vs' ->
  findIndex (variant_matches color size) vs = findIndex (variant_matches color size) vs'.
Proof.
  revert vs'. induction vs as [|v vs IH]; intros [|v' vs'] H; simpl in *;
    try discriminate; [reflexivity|].
  injection H as Hc Hs Hrest. unfold variant_matches at 1 3. rewrite Hc, Hs.
  now rewrite (IH vs' Hrest).
Qed.

Lemma variant_keys_alter (f : Variant -> Variant) (i : nat) (vs : list Variant) :
  (forall v, variant_color (f v) = variant_color v /\ variant_size (f v) = variant_size v) ->
  variant_keys (alter f i vs) = variant_keys vs.
Proof.
  intros Hf. unfold variant_keys. revert i.
  induction vs as [|v vs IH]; intros [|i]; simpl; try reflexivity.
  - destruct (Hf v) as [-> ->]. reflexivity.
  - f_equal. apply IH.
Qed.






Lemma order_pre_save_history (now : Date) (orders : list Order) (o : Order) :
  order_statusHistory (order_pre_save now orders o)
  = order_statusHistory o
    ++ (if order_statusModified o then [mkStatusEntry (order_status o) now None] else []).
Proof.
  unfold order_pre_save.
  destruct (orderNumber_missing o); simpl; destruct (order_statusModified o); simpl;
    now rewrite ?app_nil_r.
Qed.







(** ** Refund requests *)

(** What the refund route checks: for an order that exists and belongs to
    the caller, and a reason that is not blank, it accepts exactly when
    the status is delivered or shipped and the refund record is absent or
    pending. *)
Lemma refund_handler_accepts (now : Date) (user : User) (orders : list Order)
    (id : ObjectId) (order : Order) (reason : string) (amount : option Number) :
  findById orders id = Some order ->
  order_user order = Some (user_id user) ->
  trim reason <> ""%string ->
  res_status (fst (refund_handler now user orders id (Some reason) amount)) = 200%Z
  <-> canBeRefunded order = true /\ refund_blocked order = false.
Proof.
  intros Hf Hu Hr. unfold refund_handler, validated_reason.
  apply String.eqb_neq in Hr. rewrite Hr, Hf, Hu, String.eqb_refl.
  destruct (canBeRefunded order), (refund_blocked order); cbn [negb fst res_status];
    split; (intros [? ?] || intros ?); try discriminate; auto.
Qed.

(** C5: on a delivered order of the caller, a refund request is accepted,
    and so is a second one while the first is still pending: it answers
    200 again and replaces the amount and the reason of the first. *)
Theorem refund_accepted_twice :
  let r1 := refund_handler sample_now sample_customer [sample_delivered] "o1"
              (Some "too small"%string) None in
  let r2 := refund_handler sample_now sample_customer (snd r1) "o1"
              (Some "changed my mind"%string) (Some 10) in
  res_status (fst r1) = 200%Z /\
  (order_refundInfo <$> findById (snd r1) "o1")
  = Some (Some (mkRefundInfo (order_totalPrice sample_order) (Some "too small"%string)
                  refund_pending)) /\
  res_status (fst r2) = 200%Z /\
  (order_refundInfo <$> findById (snd r2) "o1")
  = Some (Some (mkRefundInfo 10 (Some "changed my mind"%string) refund_pending)).
Proof. repeat split. Qed.

(** ** Status history *)

(** A status update through the admin route that changes the status of a
    loaded order appends two entries: one by [updateStatus], one by the
    [pre('save')] hook. *)
Lemma status_update_appends_two (now : Date) (user : User) (orders : list Order)
    (id : ObjectId) (order : Order) (s : string) (st : Status) (note : option string) :
  findById orders id = Some order ->
  order_statusModified order = false ->
  user_isAdmin user = true ->
  Status_of_string s = Some st ->
  st <> order_status order ->
  exists o', findById (snd (update_status_handler now user orders id s note)) id = Some o' /\
    order_statusHistory o'
    = order_statusHistory order
      ++ [mkStatusEntry st now (Some (default ""%string note)); mkStatusEntry st now None].
Proof.
  intros Hf Hm Ha Hs Hne. unfold update_status_handler. rewrite Hs, Hf, Ha.
  cbn [negb snd].
  pose proof (updateStatus_fields now order st (default ""%string note))
    as (Hid & Hst & _ & _ & Hh & Hmod).
  set (o1 := updateStatus now order st (default ""%string note)) in *.
  set (o2 := match st with
             | shipped => set_estimatedDelivery (addMs now (3 * 24 * 60 * 60 * 1000))
                            (set_shippedAt now o1)
             | delivered => set_delivered now o1
             | _ => o1
             end).
  assert (H2 : order_id o2 = order_id o1 /\ order_status o2 = order_status o1 /\
               order_statusHistory o2 = order_statusHistory o1 /\
               order_statusModified o2 = order_statusModified o1)
    by (subst o2; destruct st; simpl; tauto).
  destruct H2 as (Hid2 & Hst2 & Hh2 & Hm2).
  pose proof (order_pre_save_keeps now orders o2) as (Hid3 & _).
  exists (clear_modified (order_pre_save now orders o2)). split.
  - unfold order_save. apply (findById_replace orders id order); [exact Hf|].
    simpl. rewrite Hid3, Hid2, Hid. now apply findById_id in Hf.
  - simpl. rewrite order_pre_save_history, Hm2, Hmod, Hm, Hh2, Hh, Hst2, Hst.
    rewrite bool_decide_eq_false_2 by congruence. simpl. now rewrite <- app_assoc.
Qed.

(** C7: one status update of the sample order from pending to processing
    through the admin route stores two history entries for that one
    transition. *)
Theorem status_update_logged_twice :
  let r := update_status_handler sample_now sample_admin sample_orders "o1" "processing"
             (Some "packed"%string) in
  res_status (fst r) = 200%Z /\
  order_statusHistory sample_order = [] /\
  (order_statusHistory <$> findById (snd r) "o1")
  = Some [mkStatusEntry processing sample_now (Some "packed"%string);
          mkStatusEntry processing sample_now None].
Proof. repeat split. Qed.

(** ** The status lifecycle *)

Lemma Status_of_string_onto (st : Status) : exists s, Status_of_string s = Some st.
Proof.
  destruct st;
    [exists "pending"%string|exists "processing"%string|exists "shipped"%string
    |exists "delivered"%string|exists "cancelled"%string|exists "refunded"%string];
    reflexivity.
Qed.

(** C8 (as the code has it): for an order that exists, the status route
    lets an admin set any of the six enumerated statuses, whatever the
    current status is, and stores it; a status outside the enumeration is
    answered 400 and a caller who is not an admin 403, both without a
    change.  Each of the six statuses is the value of some request, and
    [updateStatus] itself sets whatever status it is given. *)
Theorem update_status_unrestricted (now : Date) (user : User) (orders : list Order)
    (id : ObjectId) (order : Order) (s : string) (note : option string) :
  findById orders id = Some order ->
  let r := update_status_handler now user orders id s note in
  (forall st, Status_of_string s = Some st -> user_isAdmin user = true ->
     res_status (fst r) = 200%Z /\
     exists o', findById (snd r) id = Some o' /\ order_status o' = st) /\
  (Status_of_string s = None -> res_status (fst r) = 400%Z /\ snd r = orders) /\
  (forall st, Status_of_string s = Some st -> user_isAdmin user = false ->
     res_status (fst r) = 403%Z /\ snd r = orders) /\
  (forall st, exists s', Status_of_string s' = Some st) /\
  (forall o st text, order_status (updateStatus now o st text) = st).
Proof.
  intros Hf r. subst r. unfold update_status_handler.
  split; [|split; [|split; [|split]]].
  - intros st Hs Ha. rewrite Hs, Hf, Ha. cbn [negb fst snd res_status].
    split; [reflexivity|].
    pose proof (updateStatus_fields now order st (default ""%string note))
      as (Hid & Hst & _).
    set (o1 := updateStatus now order st (default ""%string note)) in *.
    set (o2 := match st with
               | shipped => set_estimatedDelivery (addMs now (3 * 24 * 60 * 60 * 1000))
                              (set_shippedAt now o1)
               | delivered => set_delivered now o1
               | _ => o1
               end).
    assert (H2 : order_id o2 = order_id o1 /\ order_status o2 = order_status o1)
      by (subst o2; destruct st; simpl; tauto).
    destruct H2 as (Hid2 & Hst2).
    pose proof (order_pre_save_keeps now orders o2) as (Hid3 & Hst3 & _).
    exists (clear_modified (order_pre_save now orders o2)). split.
    + unfold order_save. apply (findById_replace orders id order); [exact Hf|].
      simpl. rewrite Hid3, Hid2, Hid. now apply findById_id in Hf.
    + simpl. now rewrite Hst3, Hst2.
  - intros Hs. rewrite Hs. split; reflexivity.
  - intros st Hs Ha. rewrite Hs, Hf, Ha. split; reflexivity.
  - apply Status_of_string_onto.
  - intros o st text. now destruct (updateStatus_fields now o st text) as (_ & H & _).
Qed.

Lemma update_status_unrestricted_witness :
  findById [sample_cancelled] "o1" = Some sample_cancelled /\
  Status_of_string "pending" = Some pending /\
  user_isAdmin sample_admin = true /\
  res_status (fst (update_status_handler sample_now sample_admin [sample_cancelled] "o1"
                     "pending" None)) = 200%Z.
Proof.
  split; [reflexivity|]. split; [reflexivity|]. split; [reflexivity|].
  destruct (update_status_unrestricted sample_now sample_admin [sample_cancelled] "o1"
              sample_cancelled "pending" None eq_refl) as [H _].
  exact (proj1 (H pending eq_refl eq_refl)).
Defined.

(** C8 as stated fails: the cancelled sample order is moved back to
    pending by a status update, through the method and through the route. *)
Lemma cancelled_order_reopened :
  order_status sample_cancelled = cancelled /\
  order_status (updateStatus sample_now sample_cancelled pending "") = pending /\
  (order_status <$>
     findById (snd (update_status_handler sample_now sample_admin [sample_cancelled] "o1"
                      "pending" None)) "o1") = Some pending /\
  ~ (forall (o : Order) (st : Status),
       order_status o ∈ [cancelled; refunded] ->
       order_status (updateStatus sample_now o st "") = order_status o).
Proof.
  split; [reflexivity|]. split; [reflexivity|]. split; [reflexivity|].
  intros H. specialize (H sample_cancelled pending).
  assert (Hin : order_status sample_cancelled ∈ [cancelled; refunded])
    by (apply list_elem_of_In; simpl; tauto).
  specialize (H Hin). discriminate H.
Qed.

(** ** Order numbers *)

Lemma civil_range (days : Z) :
  (1 <= snd (fst (civil days)) <= 12 /\ 1 <= snd (civil days) <= 31)%Z.
Proof.
  unfold civil. cbv zeta. cbn [fst snd].
  set (z := (days + 719468)%Z).
  set (era := (z / 146097)%Z).
  set (doe := (z - era * 146097)%Z).
  assert (Hdoe : (0 <= doe <= 146096)%Z)
    by (subst doe era; Z.to_euclidean_division_equations; lia).
  clearbody doe. clear z era.
  set (yoe := ((doe - doe / 1460 + doe / 36524 - doe / 146096) / 365)%Z).
  set (doy := (doe - (365 * yoe + yoe / 4 - yoe / 100))%Z).
  assert (Hdoy : (0 <= doy <= 365)%Z)
    by (subst doy yoe; Z.to_euclidean_division_equations; lia).
  clearbody doy.
  set (mp := ((5 * doy + 2) / 153)%Z).
  assert (Hmp : (0 <= mp <= 11)%Z) by (subst mp; Z.to_euclidean_division_equations; lia).
  set (d := (doy - (153 * mp + 2) / 5 + 1)%Z).
  assert (Hd : (1 <= d <= 31)%Z) by (subst d mp; Z.to_euclidean_division_equations; lia).
  destruct (mp <? 10)%Z eqn:E; [apply Z.ltb_lt in E|apply Z.ltb_ge in E]; lia.
Qed.

Lemma two_digit_checks :
  forallb (fun k => String.eqb (sliceLast2 (toString (Z.of_nat k)))
                               (two_digits (Z.of_nat k mod 100)))
          (seq 10 (Z.to_nat 9990)) = true /\
  forallb (fun k => String.eqb (padStart0 2 (toString (Z.of_nat k)))
                               (two_digits (Z.of_nat k))) (seq 0 100) = true.
Proof. split; vm_compute; reflexivity. Qed.

Lemma sliceLast2_year (y : Z) :
  (10 <= y <= 9999)%Z -> sliceLast2 (toString y) = two_digits (y mod 100).
Proof.
  intros Hy. destruct two_digit_checks as [H _].
  rewrite forallb_forall in H. specialize (H (Z.to_nat y)).
  rewrite Z2Nat.id in H by lia. apply String.eqb_eq, H, in_seq. lia.
Qed.

Lemma padStart0_two (k : Z) :
  (0 <= k <= 99)%Z -> padStart0 2 (toString k) = two_digits k.
Proof.
  intros Hk. destruct two_digit_checks as [_ H].
  rewrite forallb_forall in H. specialize (H (Z.to_nat k)).
  rewrite Z2Nat.id in H by lia. apply String.eqb_eq, H, in_seq. lia.
Qed.

(** The template string of the hook writes the date as YYMMDD and the
    sequence number zero-padded to 3 digits. *)
Lemma generate_orderNumber_format (date : Date) (count : Z) :
  (10 <= getFullYear date <= 9999)%Z ->
  generate_orderNumber date count
  = spec_orderNumber (getFullYear date) (getMonth date + 1) (getDate date) (count + 1).
Proof.
  intros Hy. unfold generate_orderNumber, spec_orderNumber.
  pose proof (civil_range (epochDay date)) as [Hm Hd].
  rewrite (sliceLast2_year _ Hy).
  rewrite (padStart0_two (getMonth date + 1)) by (unfold getMonth; lia).
  rewrite (padStart0_two (getDate date)) by (unfold getDate; lia).
  reflexivity.
Qed.

Lemma order_pre_save_generates (now : Date) (orders : list Order) (o : Order) :
  orderNumber_missing o = true ->
  order_orderNumber (order_pre_save now orders o)
  = Some (generate_orderNumber now (day_count orders (epochDay now))).
Proof.
  intros H. unfold order_pre_save. rewrite H.
  destruct (order_statusModified _); reflexivity.
Qed.


(** The loop over the requested items only fails with the answer 400, or
    with 500 when the lookup of a product throws. *)
Lemma process_items_error (mp : Mapper) (products : gmap ObjectId Product)
    (items : list (option ReqItem)) (acc : Number) (ois : list OrderItem) (res : Response) :
  process_items mp products items acc ois = inl res ->
  res_status res = 400%Z \/ res_status res = 500%Z.
Proof.
  revert acc ois. induction items as [|item items IH]; intros acc ois H; [discriminate|].
  destruct item as [[[pid|] [q|] c sz]|]; simpl in H;
    try (injection H as <-; left; reflexivity).
  destruct pid as [|a pid]; simpl in H; [injection H as <-; left; reflexivity|].
  destruct (negb (truthy c) || negb (truthy sz)); [injection H as <-; left; reflexivity|].
  destruct (castObjectId mp (String a pid)) as [oid|]; [|injection H as <-; right; reflexivity].
  match type of H with
  | match ?found with _ => _ end = _ =>
      destruct found; [eapply IH, H|injection H as <-; left; reflexivity]
  end.
Qed.

(** The loop accepts the request exactly when every item is acceptable. *)
Lemma process_items_acceptable (mp : Mapper) (products : gmap ObjectId Product)
    (items : list (option ReqItem)) (acc : Number) (ois : list OrderItem) :
  (exists r, process_items mp products items acc ois = inr r)
  <-> forallb (item_acceptable mp products) items = true.
Proof.
  revert acc ois. induction items as [|item items IH]; intros acc ois.
  - simpl. split; [reflexivity|]. intros _. now eexists.
  - destruct item as [[[pid|] [q|] c sz]|]; simpl;
      try (split; [intros [r Hr]; discriminate|discriminate]).
    destruct pid as [|a pid]; simpl;
      [split; [intros [r Hr]; discriminate|discriminate]|].
    destruct (truthy c), (truthy sz); simpl;
      try (split; [intros [r Hr]; discriminate|discriminate]).
    destruct (castObjectId mp (String a pid)) as [oid|] eqn:Hc; simpl;
      [|split; [intros [r Hr]; discriminate|discriminate]].
    destruct (products !! oid) as [p|] eqn:Hp.
    + rewrite bool_decide_eq_true_2 by (now exists p). simpl. apply IH.
    + rewrite bool_decide_eq_false_2 by (intros [p Hp']; discriminate). simpl.
      split; [intros [r Hr]; discriminate|discriminate].
Qed.

(** [Order.create] refuses a document without an order number: the
    validation of [required] comes before the hook that would write one. *)
Lemma Order_create_needs_number (mp : Mapper) (now : Date) (newId : ObjectId)
    (orders : list Order) (data : OrderData) :
  truthy (data_orderNumber data) = false ->
  Order_create mp now newId orders data = None.
Proof.
  intros H. unfold Order_create, order_valid, required. rewrite H. reflexivity.
Qed.

(** What the checkout handler does to the order collection: nothing, or
    it appends the saved new document, which passed validation and whose
    number the unique index did not hold yet. *)
Lemma create_order_handler_store (mp : Mapper) (now : Date) (newId : ObjectId)
    (products : gmap ObjectId Product) (orders : list Order) (req : OrderRequest) :
  let r := create_order_handler mp now newId products orders req in
  (res_status (fst (fst r)) <> 201%Z /\ snd r = orders) \/
  (res_status (fst (fst r)) = 201%Z /\
   exists data,
     let saved := clear_modified (order_pre_save now orders (new_order mp now newId data)) in
     snd r = orders ++ [saved] /\
     data_orderNumber data = req_orderNumber req /\
     order_valid data = true /\
     orderNumber_taken orders (order_orderNumber saved) = false).
Proof.
  unfold create_order_handler.
  destruct (req_items req) as [[|item items]|]; [left; split; [discriminate|reflexivity]|
                                                 |left; split; [discriminate|reflexivity]].
  destruct (process_items mp products (item :: items) 0 []) as [res|[itemsPrice orderItems]] eqn:P.
  - left. split; [|reflexivity]. cbn [fst snd].
    destruct (process_items_error mp products _ _ _ _ P) as [-> | ->]; discriminate.
  - unfold Order_create.
    set (data := mkOrderData _ _ _ _ _ _ _ _ _ _).
    destruct (order_valid data) eqn:V; cbn [negb];
      [|left; split; [discriminate|reflexivity]].
    destruct (orderNumber_taken orders _) eqn:T; [left; split; [discriminate|reflexivity]|].
    right. split; [reflexivity|]. exists data.
    split; [reflexivity|]. split; [reflexivity|]. split; [exact V|exact T].
Qed.





(** ** Adding to the cart *)

Lemma same_line_spec (pid : ObjectId) (color size : option string) (it : CartItem) :
  same_line pid color size it = true <-> same_product_variant pid color size it.
Proof.
  unfold same_line, same_product_variant, str_eq.
  rewrite !andb_true_iff, String.eqb_eq, !bool_decide_eq_true. tauto.
Qed.

Lemma alter_as_insert {A} (f : A -> A) (l : list A) (i : nat) (x : A) :
  l !! i = Some x -> alter f i l = <[i := f x]> l.
Proof.
  intros Hx. apply list_eq. intros j. destruct (decide (i = j)) as [->|Hne].
  - rewrite list_lookup_alter_eq, Hx. simpl.
    rewrite list_lookup_insert_eq; [reflexivity|]. eapply lookup_lt_Some, Hx.
  - now rewrite list_lookup_alter_ne, list_lookup_insert_ne by done.
Qed.

Lemma merge_quantity_min (quantity : Number) (it : CartItem) :
  merge_quantity quantity it
  = set_quantity (Math_min (item_quantity it + quantity) (item_maxQuantity it)) it.
Proof.
  unfold merge_quantity, num_gt, Math_min.
  now destruct (Qle_bool (item_quantity it + quantity) (item_maxQuantity it)).
Qed.

Lemma addItem_merge (now : Date) (newId : ObjectId) (c : Cart) (p : Product)
    (quantity : Number) (color size : option string) (i : nat) (it0 : CartItem) :
  findIndex (same_line (product_id p) color size) (cart_items c) = Some i ->
  cart_items c !! i = Some it0 ->
  cart_items (addItem now newId c p quantity color size)
  = <[i := set_quantity (Math_min (item_quantity it0 + quantity) (item_maxQuantity it0)) it0]>
      (cart_items c).
Proof.
  intros Hi Hit. unfold addItem. simpl. rewrite Hi.
  now rewrite (alter_as_insert _ _ _ _ Hit), merge_quantity_min.
Qed.

Lemma addItem_append (now : Date) (newId : ObjectId) (c : Cart) (p : Product)
    (quantity : Number) (color size : option string) :
  (forall it, In it (cart_items c) -> same_line (product_id p) color size it = false) ->
  cart_items (addItem now newId c p quantity color size)
  = cart_items c ++ [new_line newId p quantity color size].
Proof.
  intros H. apply findIndex_None in H. unfold addItem. simpl. now rewrite H.
Qed.



Lemma required_nonempty (s : string) : required (Some s) = true <-> s <> ""%string.
Proof. unfold required. destruct s; simpl; split; congruence. Qed.

Lemma accepted_quantity_spec (quantity : option Number) (q : Number) :
  accepted_quantity quantity = Some q <-> quantity = Some q /\ 1 <= q.
Proof.
  unfold accepted_quantity. destruct quantity as [q0|]; [|split; [discriminate|intros [[=] _]]].
  destruct (Qeq_bool q0 0) eqn:Z; cbn [orb].
  - split; [discriminate|]. intros [[= ->] Hq]. apply Qeq_bool_eq in Z.
    rewrite Z in Hq. exfalso. revert Hq. apply Qlt_not_le. reflexivity.
  - destruct (num_lt q0 1) eqn:L.
    + split; [discriminate|]. intros [[= ->] Hq]. apply num_lt_spec in L.
      exfalso. exact (Qlt_not_le _ _ L Hq).
    + split; [intros [= ->]|intros [[= ->] _]; reflexivity]. split; [reflexivity|].
      apply Qnot_lt_le. intros Hlt. apply num_lt_spec in Hlt. congruence.
Qed.

(** The line that [addItem] appends passes the validators exactly when the
    product has a name and a first image and the quantity is at least 1. *)
Lemma new_line_valid (newId : ObjectId) (p : Product) (q : Number) (color size : option string) :
  cart_item_valid (new_line newId p q color size) = true
  <-> product_name p <> ""%string /\ 1 <= q /\ first_image p <> ""%string.
Proof.
  unfold cart_item_valid. cbn [new_line item_name item_quantity item_image].
  rewrite !andb_true_iff, !required_nonempty, Qle_bool_iff. tauto.
Qed.

(** C10: a request to add [q >= 1] of an active product that has a name
    and an image to a cart without a line of that product, colour and size
    is answered 200 and stores a new last line with quantity [q], whatever
    the stock is: the line's [maxQuantity] is the smaller of the stock and
    10, and [q] is not compared with it.  [addItem] itself appends the
    line with the quantity it is given for every product and every
    quantity. *)
Theorem new_line_quantity_unclamped (mp : Mapper) (now : Date) (newId : ObjectId) (user : User)
    (products : gmap ObjectId Product) (carts : gmap ObjectId Cart)
    (pid : string) (oid : ObjectId) (product : Product) (q : Number)
    (color size : option string) :
  pid <> ""%string ->
  castObjectId mp pid = Some oid ->
  products !! oid = Some product ->
  product_isActive product = true ->
  product_name product <> ""%string ->
  first_image product <> ""%string ->
  1 <= q ->
  (forall cart, carts !! user_id user = Some cart -> cart_valid cart = true) ->
  (forall cart it, carts !! user_id user = Some cart -> In it (cart_items cart) ->
                   ~ same_product_variant (product_id product) color size it) ->
  let r := add_item_handler mp now newId user products carts
             (mkAddItemBody (Some pid) (Some q) color size) in
  res_status (fst r) = 200%Z /\
  exists cart' line,
    snd r !! user_id user = Some cart' /\
    cart_items cart'
    = match carts !! user_id user with
      | Some cart => cart_items cart
      | None => []
      end ++ [line] /\
    item_product line = product_id product /\
    item_quantity line = q /\
    item_maxQuantity line = Math_min (product_stock product) 10 /\
    forall c p0 q0,
      (forall it, In it (cart_items c) ->
                  ~ same_product_variant (product_id p0) color size it) ->
      exists line0,
        cart_items (addItem now newId c p0 q0 color size) = cart_items c ++ [line0] /\
        item_quantity line0 = q0 /\
        item_maxQuantity line0 = Math_min (product_stock p0) 10.
Proof.
  intros Hpid Hcast Hp Hact Hname Himg Hq Hvalid Hnone r. subst r. unfold add_item_handler.
  assert (Ht : truthy (Some pid) = true) by (destruct pid; [contradiction|reflexivity]).
  cbn [body_productId body_quantity body_color body_size]. rewrite Ht. cbn [negb].
  rewrite (proj2 (accepted_quantity_spec (Some q) q) (conj eq_refl Hq)).
  change (default ""%string (Some pid)) with pid.
  rewrite Hcast, Hp, Hact. cbn [negb].
  set (cart := default (Cart_create now (user_id user)) (carts !! user_id user)).
  assert (Hitems : cart_items (addItem now newId cart product q color size)
                   = match carts !! user_id user with
                     | Some cart => cart_items cart
                     | None => []
                     end ++ [new_line newId product q color size]).
  { subst cart. destruct (carts !! user_id user) as [c|] eqn:L; cbn [default].
    - apply addItem_append. intros it Hin.
      destruct (same_line (product_id product) color size it) eqn:E; [|reflexivity].
      apply same_line_spec in E. exfalso. exact (Hnone c it eq_refl Hin E).
    - apply addItem_append. intros it []. }
  assert (Hv : cart_valid (addItem now newId cart product q color size) = true).
  { unfold cart_valid. rewrite Hitems, forallb_app. apply andb_true_iff. split.
    - destruct (carts !! user_id user) as [c|] eqn:L; [|reflexivity].
      exact (Hvalid c eq_refl).
    - cbn [forallb]. rewrite andb_true_r. now apply new_line_valid. }
  rewrite Hv. cbn [fst snd res_status].
  split; [reflexivity|].
  rewrite lookup_insert_eq. eexists. exists (new_line newId product q color size).
  split; [reflexivity|]. split; [unfold cart_pre_save; cbn [calculateTotals cart_items];
                                 exact Hitems|].
  repeat (split; [reflexivity|]).
  intros c p0 q0 Hnone0. exists (new_line newId p0 q0 color size).
  split; [|split; reflexivity].
  apply addItem_append. intros it Hin.
  destruct (same_line (product_id p0) color size it) eqn:E; [|reflexivity].
  apply same_line_spec in E. exfalso. exact (Hnone0 it Hin E).
Qed.

Lemma new_line_quantity_unclamped_witness :
  trail_id <> ""%string /\
  castObjectId sample_mapper trail_id = Some trail_id /\
  scarce_products !! trail_id = Some scarce_product /\
  product_isActive scarce_product = true /\
  product_name scarce_product <> ""%string /\
  first_image scarce_product <> ""%string /\
  1 <= 25 /\
  Math_min (product_stock scarce_product) 10 < 25 /\
  res_status (fst (add_item_handler sample_mapper sample_now "i1" sample_customer
                     scarce_products ∅ greedy_body)) = 200%Z /\
  (item_quantity <$>
     default [] (cart_items <$>
       snd (add_item_handler sample_mapper sample_now "i1" sample_customer scarce_products ∅
              greedy_body) !! "u1"%string))
  = [25].
Proof.
  split; [discriminate|]. split; [reflexivity|]. split; [reflexivity|].
  split; [reflexivity|]. split; [discriminate|]. split; [discriminate|].
  split; [discriminate|]. split; [reflexivity|].
  destruct (new_line_quantity_unclamped sample_mapper sample_now "i1" sample_customer
              scarce_products ∅ trail_id trail_id scarce_product 25
              (Some "blue"%string) (Some "44"%string))
    as (H200 & cart' & line & Hc & Hitems & _ & Hq & _).
  - discriminate.
  - reflexivity.
  - reflexivity.
  - reflexivity.
  - discriminate.
  - discriminate.
  - discriminate.
  - intros cart Hc. rewrite lookup_empty in Hc. discriminate.
  - intros cart it Hc. rewrite lookup_empty in Hc. discriminate.
  - split; [exact H200|]. change (user_id sample_customer) with "u1"%string in Hc.
    unfold greedy_body. rewrite Hc. simpl. rewrite Hitems, lookup_empty. simpl.
    now rewrite Hq.
Defined.

(** * Further properties *)

(** ** Cart totals *)

(** X1: computing the totals twice gives what computing them once gives,
    so the save that follows a mutation which computed the totals itself
    changes nothing in the cart. *)
Theorem save_after_mutation_changes_nothing (now : Date) (c : Cart) (m : Mutation) :
  recomputes_totals c m ->
  calculateTotals (calculateTotals c) = calculateTotals c /\
  mutate_save now c m = mutate now c m.
Proof.
  assert (Hidem : forall c0, calculateTotals (calculateTotals c0) = calculateTotals c0).
  { intros c0. unfold calculateTotals. simpl.
    destruct (cart_coupon c0) as [cp|]; [|reflexivity].
    now destruct (num_gt (coupon_discount cp) 0). }
  assert (Hstamp : forall c0, calculateTotals (set_lastUpdated now (calculateTotals c0))
                              = set_lastUpdated now (calculateTotals c0)).
  { intros c0. rewrite <- (Hidem c0) at 2. reflexivity. }
  intros Hm. split; [apply Hidem|].
  unfold mutate_save, cart_pre_save.
  destruct m; simpl in *; try contradiction.
  - apply Hstamp.
  - unfold updateItemQuantity.
    destruct (findIndex _ _); [apply Hstamp|contradiction].
  - apply Hstamp.
  - apply Hstamp.
  - apply Hstamp.
Qed.

Lemma save_after_mutation_changes_nothing_witness :
  recomputes_totals cart_60 (MRemoveItem "i1") /\
  mutate_save sample_now cart_60 (MRemoveItem "i1") = mutate sample_now cart_60 (MRemoveItem "i1").
Proof.
  split; [exact I|].
  exact (proj2 (save_after_mutation_changes_nothing sample_now cart_60 (MRemoveItem "i1") I)).
Defined.

Lemma sum_price_quantity_nonneg (items : list CartItem) :
  lines_nonneg items -> 0 <= sum_price_quantity items.
Proof.
  induction 1 as [|it items [Hp Hq] _ IH]; simpl; [apply Qle_refl|].
  rewrite <- (Qplus_0_r 0). apply Qplus_le_compat; [|exact IH].
  now apply Qmult_le_0_compat.
Qed.

(** X2: when no line has a negative price or quantity and the discount
    field is not stale, the computed discount lies between 0 and the
    subtotal, and the total is at least tax plus shipping, hence never
    negative. *)
Theorem totals_never_negative (c : Cart) :
  lines_nonneg (cart_items c) ->
  discount_fresh c ->
  let r := calculateTotals c in
  0 <= cart_subtotal r /\
  0 <= cart_discount r <= cart_subtotal r /\
  cart_tax r + cart_shipping r <= cart_total r /\
  0 <= cart_total r.
Proof.
  intros Hl Hf r.
  assert (Hs : 0 <= cart_subtotal r).
  { subst r. simpl. rewrite items_reduce_sum. now apply sum_price_quantity_nonneg. }
  assert (Hd : 0 <= cart_discount r <= cart_subtotal r).
  { subst r. unfold calculateTotals in *. simpl in *.
    set (sub := items_reduce (cart_items c)) in *.
    assert (Hmin : forall cp, 0 < coupon_discount cp ->
                     0 <= Math_min (discountAmount sub cp) sub <= sub).
    { intros cp Hpos. split; [|apply Math_min_le_r].
      unfold Math_min. destruct (Qle_bool _ _); [|exact Hs].
      unfold discountAmount. destruct (coupon_type cp); [|now apply Qlt_le_weak].
      apply Qmult_le_0_compat; [exact Hs|].
      apply Qle_shift_div_l; [reflexivity|]. rewrite Qmult_0_l. now apply Qlt_le_weak. }
    destruct Hf as [(cp & Hcp & Hpos)|H0].
    - rewrite Hcp. pose proof Hpos as Hgt. apply num_gt_spec in Hgt. rewrite Hgt.
      now apply Hmin.
    - destruct (cart_coupon c) as [cp|].
      + destruct (num_gt (coupon_discount cp) 0) eqn:E.
        * apply Hmin. now apply num_gt_spec.
        * rewrite H0. split; [apply Qle_refl|exact Hs].
      + rewrite H0. split; [apply Qle_refl|exact Hs]. }
  assert (Ht : cart_total r
               == cart_tax r + cart_shipping r + (cart_subtotal r - cart_discount r)).
  { subst r. simpl. ring. }
  assert (Hrest : 0 <= cart_subtotal r - cart_discount r).
  { unfold Qminus. rewrite <- (Qplus_opp_r (cart_discount r)).
    apply Qplus_le_compat; [apply Hd|apply Qle_refl]. }
  assert (Htax : 0 <= cart_tax r).
  { subst r. simpl. apply Qmult_le_0_compat; [exact Hs|discriminate]. }
  assert (Hship : 0 <= cart_shipping r).
  { subst r. simpl. destruct (num_ge _ _); discriminate. }
  split; [exact Hs|]. split; [exact Hd|].
  assert (Hlow : cart_tax r + cart_shipping r <= cart_total r).
  { rewrite Ht. rewrite <- (Qplus_0_r (cart_tax r + cart_shipping r)) at 1.
    apply Qplus_le_compat; [apply Qle_refl|exact Hrest]. }
  split; [exact Hlow|].
  apply (Qle_trans _ (cart_tax r + cart_shipping r)); [|exact Hlow].
  rewrite <- (Qplus_0_r 0). now apply Qplus_le_compat.
Qed.

Lemma totals_never_negative_witness :
  lines_nonneg (cart_items cart_55) /\ discount_fresh cart_55 /\
  0 <= cart_total (calculateTotals cart_55).
Proof.
  assert (Hl : lines_nonneg (cart_items cart_55))
    by (repeat constructor; discriminate).
  assert (Hf : discount_fresh cart_55)
    by (left; eexists; split; reflexivity).
  split; [exact Hl|]. split; [exact Hf|].
  exact (proj2 (proj2 (proj2 (totals_never_negative cart_55 Hl Hf)))).
Defined.

(** ** Cart lines *)

Lemma Math_max_ge_l (a b : Number) : a <= Math_max a b.
Proof.
  unfold Math_max. destruct (Qle_bool a b) eqn:E; [now apply Qle_bool_iff|apply Qle_refl].
Qed.

Lemma findIndex_absent {A} (p : A -> bool) (l : list A) :
  (forall x, In x l -> p x = false) -> findIndex p l = None.
Proof. apply findIndex_None. Qed.

Lemma updateItemQuantity_absent (now : Date) (c : Cart) (itemId : ObjectId) (q : Number) :
  (forall it, In it (cart_items c) -> item_id it <> itemId) ->
  updateItemQuantity now c itemId q = c.
Proof.
  intros Hnone. unfold updateItemQuantity. rewrite findIndex_absent; [reflexivity|].
  intros x Hx. apply String.eqb_neq. now apply Hnone.
Qed.

Lemma removeItem_absent (now : Date) (c : Cart) (itemId : ObjectId) :
  (forall it, In it (cart_items c) -> item_id it <> itemId) ->
  cart_items (removeItem now c itemId) = cart_items c.
Proof.
  unfold removeItem. simpl. intros Hnone.
  induction (cart_items c) as [|it items IH]; simpl; [reflexivity|].
  assert (Hne : item_id it <> itemId) by (apply Hnone; now left).
  apply String.eqb_neq in Hne. rewrite Hne. simpl. f_equal.
  apply IH. intros x Hx. apply Hnone. now right.
Qed.

(** X3: [updateItemQuantity] changes the first line with the given id
    only: its quantity becomes the requested one raised to at least 1 and
    then capped at the line's [maxQuantity], so it never exceeds
    [maxQuantity], is at least 1 when [maxQuantity] is, and equals
    [maxQuantity] when that is below 1.  Without such a line the cart,
    its time stamp included, stays as it is. *)
Theorem updateItemQuantity_clamps (now : Date) (c : Cart) (itemId : ObjectId) (q : Number) :
  let c' := updateItemQuantity now c itemId q in
  ((forall it, In it (cart_items c) -> item_id it <> itemId) -> c' = c) /\
  (forall it, In it (cart_items c) -> item_id it = itemId ->
     exists i it0 q',
       cart_items c !! i = Some it0 /\ item_id it0 = itemId /\
       (forall j x, (j < i)%nat -> cart_items c !! j = Some x -> item_id x <> itemId) /\
       cart_items c' = <[i := set_quantity q' it0]> (cart_items c) /\
       q' = Math_min (Math_max 1 q) (item_maxQuantity it0) /\
       q' <= item_maxQuantity it0 /\
       (1 <= item_maxQuantity it0 -> 1 <= q') /\
       (item_maxQuantity it0 < 1 -> q' = item_maxQuantity it0)).
Proof.
  intros c'. subst c'. split; [apply updateItemQuantity_absent|].
  unfold updateItemQuantity. intros it Hin Hid.
  { 
    destruct (findIndex (fun it => String.eqb (item_id it) itemId) (cart_items c))
      as [i|] eqn:F.
    + destruct (findIndex_Some _ _ _ F) as (it0 & Hit0 & Hp0 & Hbefore).
      exists i, it0, (Math_min (Math_max 1 q) (item_maxQuantity it0)).
      split; [exact Hit0|]. split; [now apply String.eqb_eq|].
      split; [intros j x Hj Hx; apply String.eqb_neq; now apply (Hbefore j x)|].
      split.
      { simpl.
        exact (alter_as_insert
                 (fun it => set_quantity (Math_min (Math_max 1 q) (item_maxQuantity it)) it)
                 _ _ _ Hit0). }
      split; [reflexivity|]. split; [apply Math_min_le_r|].
      split.
      * intros Hmax. unfold Math_min.
        destruct (Qle_bool _ _); [apply Math_max_ge_l|exact Hmax].
      * intros Hmax. apply Math_min_r.
        apply (Qlt_le_trans _ 1); [exact Hmax|apply Math_max_ge_l].
    + rewrite findIndex_None in F. specialize (F it Hin). simpl in F.
      apply String.eqb_neq in F. contradiction. }
Qed.

Lemma updateItemQuantity_clamps_witness :
  In (sample_line "i1" 20 8) (cart_items cart_8) /\
  (item_quantity <$> cart_items (updateItemQuantity sample_now cart_8 "i1" 50)) = [10].
Proof.
  assert (Hin : In (sample_line "i1" 20 8) (cart_items cart_8)) by (left; reflexivity).
  split; [exact Hin|].
  destruct (updateItemQuantity_clamps sample_now cart_8 "i1" 50) as [_ H].
  destruct (H _ Hin eq_refl) as (i & it0 & q' & Hit0 & _ & _ & Heq & Hq' & _).
  rewrite Heq, Hq'. destruct i as [|[|i]]; simpl in Hit0; try discriminate.
  injection Hit0 as <-. reflexivity.
Defined.

Lemma sum_price_quantity_filter (p : CartItem -> bool) (items : list CartItem) :
  sum_price_quantity (List.filter (fun it => negb (p it)) items)
  + sum_price_quantity (List.filter p items)
  == sum_price_quantity items.
Proof.
  induction items as [|it items IH]; simpl; [reflexivity|].
  destruct (p it); simpl; rewrite <- IH; ring.
Qed.

(** X4: [removeItem] keeps exactly the lines whose id differs from the
    given one, in their order; the new subtotal plus the value of the
    removed lines is the value of all lines; and an id that no line has
    leaves the lines as they are. *)
Theorem removeItem_lines (now : Date) (c : Cart) (itemId : ObjectId) :
  let c' := removeItem now c itemId in
  (forall it, In it (cart_items c') <-> In it (cart_items c) /\ item_id it <> itemId) /\
  cart_subtotal c'
  + sum_price_quantity (List.filter (fun it => String.eqb (item_id it) itemId) (cart_items c))
  == sum_price_quantity (cart_items c) /\
  ((forall it, In it (cart_items c) -> item_id it <> itemId) ->
   cart_items c' = cart_items c).
Proof.
  intros c'. subst c'. unfold removeItem. simpl. split; [|split].
  - intros it. rewrite filter_In, negb_true_iff, String.eqb_neq. reflexivity.
  - rewrite items_reduce_sum. apply sum_price_quantity_filter.
  - apply (removeItem_absent now c itemId).
Qed.

Lemma removeItem_lines_witness :
  (forall it, In it (cart_items cart_8) -> item_id it <> "i7"%string) /\
  cart_items (removeItem sample_now cart_8 "i7") = cart_items cart_8.
Proof.
  assert (H : forall it, In it (cart_items cart_8) -> item_id it <> "i7"%string).
  { intros it [<-|[]]. discriminate. }
  split; [exact H|].
  exact (proj2 (proj2 (removeItem_lines sample_now cart_8 "i7")) H).
Defined.

(** ** Cart routes *)

(** X5: clearing a cart through its route stores a cart without lines
    and without coupon whose subtotal, tax and discount are 0, and whose
    shipping and total are the flat fee 5.99: the save computes the totals
    of the empty cart. *)
Theorem clear_cart_route_charges_shipping (now : Date) (user : User)
    (carts : gmap ObjectId Cart) (cart : Cart) :
  carts !! user_id user = Some cart ->
  let r := clear_cart_handler now user carts in
  res_status (fst r) = 200%Z /\
  exists cart', snd r !! user_id user = Some cart' /\
    cart_items cart' = [] /\ cart_coupon cart' = None /\
    cart_subtotal cart' == 0 /\ cart_tax cart' == 0 /\ cart_discount cart' == 0 /\
    cart_shipping cart' == 5.99 /\ cart_total cart' == 5.99.
Proof.
  intros Hc r. subst r. unfold clear_cart_handler. rewrite Hc. simpl.
  split; [reflexivity|]. rewrite lookup_insert_eq. eexists. split; [reflexivity|].
  simpl. repeat split.
Qed.

Lemma clear_cart_route_charges_shipping_witness :
  sample_carts !! user_id sample_customer = Some cart_two_lines /\
  res_status (fst (clear_cart_handler sample_now sample_customer sample_carts)) = 200%Z.
Proof.
  split; [reflexivity|].
  exact (proj1 (clear_cart_route_charges_shipping sample_now sample_customer sample_carts
                  cart_two_lines eq_refl)).
Defined.

(** X6: the routes that update or remove a line answer 200 also when the
    cart has no line with the given id, and store the cart with the lines
    it had; without a cart they answer 404, and so does the clear route,
    and none of them creates a cart. *)
Theorem line_routes_unknown_id (now : Date) (user : User) (carts : gmap ObjectId Cart)
    (itemId : ObjectId) (q : Number) :
  isInt_min1 (Some q) = Some q ->
  (forall cart, carts !! user_id user = Some cart ->
     (forall it, In it (cart_items cart) -> item_id it <> itemId) ->
     let ru := update_item_handler now user carts itemId (Some q) in
     let rr := remove_item_handler now user carts itemId in
     res_status (fst ru) = 200%Z /\ res_status (fst rr) = 200%Z /\
     (cart_items <$> snd ru !! user_id user) = Some (cart_items cart) /\
     (cart_items <$> snd rr !! user_id user) = Some (cart_items cart)) /\
  (carts !! user_id user = None ->
     update_item_handler now user carts itemId (Some q)
     = (mkResponse 404 "Cart not found", carts) /\
     remove_item_handler now user carts itemId = (mkResponse 404 "Cart not found", carts) /\
     clear_cart_handler now user carts = (mkResponse 404 "Cart not found", carts)).
Proof.
  intros Hq. split.
  - intros cart Hc Hnone ru rr. subst ru rr.
    unfold update_item_handler, remove_item_handler. rewrite Hq, Hc. simpl.
    rewrite !lookup_insert_eq. simpl.
    rewrite (updateItemQuantity_absent now cart itemId q Hnone).
    pose proof (removeItem_absent now cart itemId Hnone) as Hkeep.
    unfold removeItem in Hkeep. simpl in Hkeep. rewrite Hkeep. repeat split.
  - intros Hc. unfold update_item_handler, remove_item_handler, clear_cart_handler.
    rewrite Hq, Hc. repeat split.
Qed.

Lemma line_routes_unknown_id_witness :
  isInt_min1 (Some 3) = Some 3 /\
  res_status (fst (update_item_handler sample_now sample_customer sample_carts "i7" (Some 3)))
  = 200%Z.
Proof.
  split; [reflexivity|].
  destruct (line_routes_unknown_id sample_now sample_customer sample_carts "i7" 3 eq_refl)
    as [H _].
  refine (proj1 (H cart_two_lines eq_refl _)).
  intros it [<-|[<-|[]]]; discriminate.
Defined.

Lemma forallb_insert {A} (f : A -> bool) (l : list A) (i : nat) (x0 x : A) :
  forallb f l = true -> l !! i = Some x0 ->
  forallb f (<[i := x]> l) = true <-> f x = true.
Proof.
  intros Hall Hi. rewrite forallb_forall. split.
  - intros H. apply H, list_elem_of_In, list_elem_of_lookup. exists i.
    apply list_lookup_insert_eq. eapply lookup_lt_Some, Hi.
  - intros Hx y Hy. apply list_elem_of_In, list_elem_of_lookup in Hy as [j Hj].
    destruct (decide (i = j)) as [->|Hne].
    + rewrite list_lookup_insert_eq in Hj by (eapply lookup_lt_Some, Hi). now injection Hj as <-.
    + rewrite list_lookup_insert_ne in Hj by done.
      rewrite forallb_forall in Hall. apply Hall, list_elem_of_In, list_elem_of_lookup.
      now exists j.
Qed.

(** With a valid cart and a quantity of at least 1, the cart that
    [addItem] leaves passes the validation exactly when the line it
    touched can be stored. *)
Lemma addItem_valid (now : Date) (newId : ObjectId) (c : Cart) (p : Product) (q : Number)
    (color size : option string) :
  cart_valid c = true -> 1 <= q ->
  cart_valid (addItem now newId c p q color size) = true
  <-> line_storable (cart_items c) p color size.
Proof.
  intros Hv Hq. unfold cart_valid in *. unfold line_storable.
  destruct (findIndex (same_line (product_id p) color size) (cart_items c)) as [i|] eqn:F.
  - destruct (findIndex_Some _ _ _ F) as (it0 & Hit0 & Hp0 & Hbefore).
    rewrite (addItem_merge now newId c p q color size i it0 F Hit0).
    rewrite (forallb_insert _ _ _ it0 _ Hv Hit0).
    assert (Hv0 : cart_item_valid it0 = true).
    { rewrite forallb_forall in Hv. apply Hv, list_elem_of_In, list_elem_of_lookup.
      now exists i. }
    unfold cart_item_valid in *. cbn [set_quantity item_name item_quantity item_image].
    apply andb_true_iff in Hv0 as [Hv0 Himg]. apply andb_true_iff in Hv0 as [Hname Hold].
    rewrite Hname, Himg, andb_true_r. cbn [andb].
    apply Qle_bool_iff in Hold. rewrite Qle_bool_iff.
    assert (Hmin : 1 <= Math_min (item_quantity it0 + q) (item_maxQuantity it0)
                   <-> 1 <= item_maxQuantity it0).
    { unfold Math_min.
      destruct (Qle_bool (item_quantity it0 + q) (item_maxQuantity it0)) eqn:E; [|tauto].
      apply Qle_bool_iff in E.
      assert (H2 : 1 <= item_quantity it0 + q).
      { apply Qle_trans with (item_quantity it0); [exact Hold|].
        rewrite <- (Qplus_0_r (item_quantity it0)) at 1.
        apply Qplus_le_compat; [apply Qle_refl|].
        apply Qle_trans with 1; [discriminate|exact Hq]. }
      split; [intros _; now apply Qle_trans with (item_quantity it0 + q)|intros _; exact H2]. }
    rewrite Hmin. split.
    + intros H1. split.
      * intros Hnone. exfalso. apply (Hnone it0).
        -- apply list_elem_of_In, list_elem_of_lookup. now exists i.
        -- now apply same_line_spec.
      * intros i' it0' Hi' Hs' Hb'.
        destruct (Nat.lt_trichotomy i' i) as [Hlt|[->|Hgt]].
        -- apply same_line_spec in Hs'. rewrite (Hbefore i' it0' Hlt Hi') in Hs'. discriminate.
        -- rewrite Hit0 in Hi'. now injection Hi' as <-.
        -- exfalso. apply (Hb' i it0 Hgt Hit0). now apply same_line_spec.
    + intros [_ H]. apply (H i it0 Hit0); [now apply same_line_spec|].
      intros j x Hj Hx Hs. apply same_line_spec in Hs. rewrite (Hbefore j x Hj Hx) in Hs.
      discriminate.
  - pose proof (proj1 (findIndex_None _ _) F) as Hnone.
    rewrite (addItem_append now newId c p q color size Hnone).
    rewrite forallb_app, Hv. cbn [forallb andb]. rewrite andb_true_r, new_line_valid.
    split.
    + intros (Hname & _ & Himg). split; [intros _; now split|].
      intros i it0 Hi Hs _. apply same_line_spec in Hs.
      rewrite (Hnone it0) in Hs; [discriminate|].
      apply list_elem_of_In, list_elem_of_lookup. now exists i.
    + intros [H _]. destruct H as [Hname Himg].
      * intros it Hin Hs. apply same_line_spec in Hs. rewrite (Hnone it Hin) in Hs.
        discriminate.
      * now repeat split.
Qed.

(** X7: with valid carts in the store, the route that adds to the cart
    answers 200 exactly when the request names a product by an id that
    casts to the id of an active product, asks for a quantity of at least
    1, and the line it leaves can be stored; the stock of the product
    plays no part.  The answers 400 and 404 leave the carts as they are;
    after any other failure the carts are as they were, or hold in
    addition the empty cart that the route created for the user. *)
Theorem add_item_route_accepts (mp : Mapper) (now : Date) (newId : ObjectId) (user : User)
    (products : gmap ObjectId Product) (carts : gmap ObjectId Cart) (body : AddItemBody) :
  (forall cart, carts !! user_id user = Some cart -> cart_valid cart = true) ->
  let r := add_item_handler mp now newId user products carts body in
  let items := default [] (cart_items <$> carts !! user_id user) in
  (res_status (fst r) = 200%Z <->
   exists pid q oid p,
     body_productId body = Some pid /\ pid <> ""%string /\
     body_quantity body = Some q /\ 1 <= q /\
     castObjectId mp pid = Some oid /\ products !! oid = Some p /\
     product_isActive p = true /\
     line_storable items p (body_color body) (body_size body)) /\
  (res_status (fst r) = 400%Z \/ res_status (fst r) = 404%Z -> snd r = carts) /\
  (res_status (fst r) <> 200%Z ->
   snd r = carts \/
   (carts !! user_id user = None /\
    snd r = <[user_id user := Cart_create now (user_id user)]> carts)).
Proof.
  intros Hvalid r items. subst r items. unfold add_item_handler.
  destruct (body_productId body) as [pid|] eqn:Bp.
  2:{ cbn [truthy negb]. split; [|split; [reflexivity|left; reflexivity]].
      split; [discriminate|]. intros (? & ? & ? & ? & [=] & _). }
  destruct (truthy (Some pid)) eqn:Tp; cbn [negb].
  2:{ split; [|split; [reflexivity|left; reflexivity]].
      split; [discriminate|]. intros (? & ? & ? & ? & [= <-] & Hne & _).
      destruct pid; [contradiction|discriminate]. }
  assert (Hpid : pid <> ""%string) by (intros ->; discriminate).
  destruct (accepted_quantity (body_quantity body)) as [q|] eqn:Aq.
  2:{ split; [|split; [reflexivity|left; reflexivity]].
      split; [discriminate|]. intros (? & q & ? & ? & _ & _ & Hq & Hq1 & _).
      rewrite (proj2 (accepted_quantity_spec _ q) (conj Hq Hq1)) in Aq. discriminate. }
  apply accepted_quantity_spec in Aq as [Bq Hq].
  change (default ""%string (Some pid)) with pid.
  destruct (castObjectId mp pid) as [oid|] eqn:Hcast.
  2:{ split; [|split; [reflexivity|left; reflexivity]].
      split; [discriminate|]. intros (? & ? & ? & ? & [= <-] & _ & _ & _ & Hc & _).
      congruence. }
  destruct (products !! oid) as [p|] eqn:Hp.
  2:{ split; [|split; [reflexivity|left; reflexivity]].
      split; [discriminate|].
      intros (? & ? & ? & ? & [= <-] & _ & _ & _ & Hc & Hp' & _). congruence. }
  destruct (product_isActive p) eqn:Hact; cbn [negb].
  2:{ split; [|split; [reflexivity|left; reflexivity]].
      split; [discriminate|].
      intros (? & ? & ? & ? & [= <-] & _ & _ & _ & Hc & Hp' & Ha & _). congruence. }
  set (cart := default (Cart_create now (user_id user)) (carts !! user_id user)).
  assert (Hcv : cart_valid cart = true).
  { subst cart. destruct (carts !! user_id user) as [c|] eqn:L; [exact (Hvalid c eq_refl)|].
    reflexivity. }
  assert (Hci : cart_items cart = default [] (cart_items <$> carts !! user_id user)).
  { subst cart. now destruct (carts !! user_id user). }
  pose proof (addItem_valid now newId cart p q (body_color body) (body_size body) Hcv Hq)
    as Hiff. rewrite Hci in Hiff.
  destruct (cart_valid (addItem now newId cart p q (body_color body) (body_size body))) eqn:V;
    cbn [fst snd res_status].
  - split; [|split; [intros [H|H]; discriminate H|intros H; now contradiction H]].
    split; [intros _|reflexivity].
    exists pid, q, oid, p. repeat (split; [assumption || reflexivity|]). now apply Hiff.
  - split; [|split; [intros [H|H]; discriminate H|]].
    + split; [discriminate|].
      intros (? & q' & oid' & p' & [= <-] & _ & Bq' & _ & Hc & Hp' & _ & Hs).
      rewrite Bq in Bq'. injection Bq' as <-. rewrite Hcast in Hc. injection Hc as <-.
      rewrite Hp in Hp'. injection Hp' as <-. apply Hiff in Hs. discriminate.
    + intros _. subst cart. destruct (carts !! user_id user) as [c|] eqn:L;
        [left; reflexivity|right; split; reflexivity].
Qed.

Lemma add_item_route_accepts_witness :
  (forall cart, (∅ : gmap ObjectId Cart) !! user_id sample_customer = Some cart ->
                cart_valid cart = true) /\
  Math_min (product_stock scarce_product) 10 < 25 /\
  res_status (fst (add_item_handler sample_mapper sample_now "i1" sample_customer
                     scarce_products ∅ greedy_body)) = 200%Z.
Proof.
  assert (Hv : forall cart, (∅ : gmap ObjectId Cart) !! user_id sample_customer = Some cart ->
                            cart_valid cart = true)
    by (intros cart Hc; rewrite lookup_empty in Hc; discriminate).
  split; [exact Hv|]. split; [reflexivity|].
  apply (proj1 (add_item_route_accepts sample_mapper sample_now "i1" sample_customer
                  scarce_products ∅ greedy_body Hv)).
  exists trail_id, 25, trail_id, scarce_product.
  split; [reflexivity|]. split; [discriminate|]. split; [reflexivity|].
  split; [discriminate|]. split; [reflexivity|]. split; [reflexivity|].
  split; [reflexivity|]. split.
  - intros _. split; discriminate.
  - intros i it0 Hi. rewrite lookup_empty in Hi. discriminate.
Defined.

(** ** Stock *)

Lemma take_floor0_nonneg (x quantity : Number) : 0 <= take_floor0 x quantity.
Proof.
  unfold take_floor0. destruct (num_lt (x - quantity) 0) eqn:E; [apply Qle_refl|].
  apply Qnot_lt_le. intros H. apply num_lt_spec in H. congruence.
Qed.

Lemma take_floor0_sold_out (x quantity : Number) :
  x <= quantity -> num_gt (take_floor0 x quantity) 0 = false.
Proof.
  intros H. destruct (num_gt (take_floor0 x quantity) 0) eqn:E; [|reflexivity].
  apply num_gt_spec in E. unfold take_floor0 in E.
  destruct (num_lt (x - quantity) 0); [discriminate E|].
  exfalso. apply (Qlt_not_le _ _ E).
  unfold Qminus. rewrite <- (Qplus_opp_r quantity).
  apply Qplus_le_compat; [exact H|apply Qle_refl].
Qed.

(** X8: [updateStock] never leaves a negative stock count: a product
    without a negative count has none afterwards, whatever quantity is
    taken, also one larger than the stock. *)
Theorem updateStock_keeps_nonneg (p : Product) (quantity : Number)
    (color size : option string) :
  stocks_nonneg p -> stocks_nonneg (updateStock p quantity color size).
Proof.
  intros [Hs Hv]. unfold updateStock, stocks_nonneg.
  destruct (truthy color && truthy size).
  - destruct (findIndex _ _) as [i|]; [|now split]. simpl. split; [exact Hs|].
    apply Forall_forall. intros v' Hin.
    apply (proj1 (list_elem_of_lookup _ _)) in Hin. destruct Hin as [j Hj]. destruct (decide (i = j)) as [->|Hne].
    + rewrite list_lookup_alter_eq in Hj. destruct (product_variants p !! j); [|discriminate].
      simpl in Hj. injection Hj as <-. simpl. apply take_floor0_nonneg.
    + rewrite list_lookup_alter_ne in Hj by done.
      rewrite Forall_forall in Hv. apply Hv.
      apply list_elem_of_lookup. now exists j.
  - simpl. split; [apply take_floor0_nonneg|exact Hv].
Qed.

Lemma updateStock_keeps_nonneg_witness :
  stocks_nonneg sample_product /\
  stocks_nonneg (updateStock sample_product 9 (Some "red"%string) (Some "42"%string)).
Proof.
  assert (H : stocks_nonneg sample_product)
    by (split; [discriminate|repeat constructor; discriminate]).
  split; [exact H|]. now apply updateStock_keeps_nonneg.
Defined.

(** X9: once [updateStock] has taken at least what was there, [isInStock]
    answers false for what was sold: for the product when the line names
    no variant, for the variant when it does. *)
Theorem sold_out_after_updateStock (p : Product) (quantity : Number)
    (color size : option string) :
  (truthy color && truthy size = false ->
   product_stock p <= quantity ->
   isInStock (updateStock p quantity color size) color size = false) /\
  (forall i v,
     truthy color && truthy size = true ->
     findIndex (variant_matches color size) (product_variants p) = Some i ->
     product_variants p !! i = Some v ->
     variant_stock v <= quantity ->
     isInStock (updateStock p quantity color size) color size = false).
Proof.
  split.
  - intros Ht Hq. unfold isInStock, updateStock. rewrite Ht. simpl.
    now apply take_floor0_sold_out.
  - intros i v Ht Hi Hv Hq. unfold isInStock, updateStock. rewrite Ht, Hi. simpl.
    rewrite (findIndex_variant_keys color size _ (product_variants p)), Hi.
    + rewrite list_lookup_alter_eq, Hv. simpl. now apply take_floor0_sold_out.
    + now apply variant_keys_alter.
Qed.

Lemma sold_out_after_updateStock_witness :
  truthy None && truthy None = false /\
  product_stock sample_product <= 7 /\
  isInStock (updateStock sample_product 7 None None) None None = false.
Proof.
  split; [reflexivity|]. split; [discriminate|].
  apply (proj1 (sold_out_after_updateStock sample_product 7 None None)); [reflexivity|].
  discriminate.
Defined.

(** X10: taking an order line from the stock with [updateStock] and
    giving it back as the cancel route does restores the stock count when
    the stock covered the quantity; when it did not, the count ends at the
    quantity of the line, above what it was.  This holds for the
    top-level stock of a line without variant and for the stock of the
    variant that a line selects. *)
Theorem reserve_then_release (p : Product) (it : OrderItem) :
  let p' := restore_one it (updateStock p (oi_quantity it) (oi_color it) (oi_size it)) in
  (truthy (oi_color it) && truthy (oi_size it) = false ->
   product_variants p' = product_variants p /\
   (oi_quantity it <= product_stock p -> product_stock p' == product_stock p) /\
   (product_stock p < oi_quantity it -> product_stock p' == oi_quantity it)) /\
  (forall i v,
     truthy (oi_color it) && truthy (oi_size it) = true ->
     findIndex (variant_matches (oi_color it) (oi_size it)) (product_variants p) = Some i ->
     product_variants p !! i = Some v ->
     product_stock p' = product_stock p /\
     exists v', product_variants p' !! i = Some v' /\
       (oi_quantity it <= variant_stock v -> variant_stock v' == variant_stock v) /\
       (variant_stock v < oi_quantity it -> variant_stock v' == oi_quantity it)).
Proof.
  intros p'. subst p'.
  assert (Hback : forall x q, (q <= x -> take_floor0 x q + q == x) /\
                              (x < q -> take_floor0 x q + q == q)).
  { intros x q. destruct (take_floor0_spec x q) as [H1 H2].
    split; intros H; [rewrite (H1 H)|rewrite (H2 H)]; ring. }
  split.
  - intros Ht. unfold restore_one, updateStock. rewrite Ht. simpl.
    split; [reflexivity|]. apply Hback.
  - intros i v Ht Hi Hv. unfold restore_one, updateStock. rewrite Ht, Hi. simpl.
    rewrite (findIndex_variant_keys _ _ _ (product_variants p)), Hi
      by now apply variant_keys_alter.
    simpl. split; [reflexivity|].
    rewrite !list_lookup_alter_eq, Hv. simpl. eexists. split; [reflexivity|].
    simpl. apply Hback.
Qed.

Lemma reserve_then_release_witness :
  truthy (oi_color (plain_line 7)) && truthy (oi_size (plain_line 7)) = false /\
  product_stock sample_product < oi_quantity (plain_line 7) /\
  product_stock (restore_one (plain_line 7) (updateStock sample_product 7 None None)) == 7.
Proof.
  split; [reflexivity|]. split; [reflexivity|].
  destruct (reserve_then_release sample_product (plain_line 7)) as [H _].
  destruct (H eq_refl) as (_ & _ & Hover). now apply Hover.
Defined.

(** ** Sale price and ratings *)

(** X11: for a price that is not negative and a sale percentage between 0
    and 100, the sale price lies between 0 and the price; it is the price
    itself unless the product is on sale with a positive percentage, and
    then it is the price less that percentage of it. *)
Theorem getSalePrice_bounds (price : Number) (isOnSale : bool) (salePercentage : Number) :
  0 <= price ->
  0 <= salePercentage <= 100 ->
  0 <= getSalePrice price isOnSale salePercentage <= price /\
  (isOnSale = false \/ salePercentage <= 0 ->
   getSalePrice price isOnSale salePercentage = price) /\
  (isOnSale = true -> 0 < salePercentage ->
   getSalePrice price isOnSale salePercentage == price - price * salePercentage / 100).
Proof.
  intros Hp [H0 H1]. unfold getSalePrice.
  assert (Hx : 0 <= salePercentage / 100 <= 1).
  { split; [apply Qle_shift_div_l; [reflexivity|lra]
           |apply Qle_shift_div_r; [reflexivity|lra]]. }
  split; [|split].
  - destruct (isOnSale && num_gt salePercentage 0); [|lra].
    generalize dependent (salePercentage / 100). intros x Hx. split; nra.
  - intros [->|Hle]; [reflexivity|].
    destruct (num_gt salePercentage 0) eqn:E; [|now rewrite andb_false_r].
    apply num_gt_spec in E. lra.
  - intros -> Hpos. apply num_gt_spec in Hpos. rewrite Hpos. simpl. field.
Qed.

Lemma getSalePrice_bounds_witness :
  0 <= 80 /\ 0 <= 25 <= 100 /\ getSalePrice 80 true 25 == 60.
Proof.
  split; [discriminate|]. split; [split; discriminate|].
  destruct (getSalePrice_bounds 80 true 25) as (_ & _ & H);
    [discriminate|split; discriminate|].
  rewrite (H eq_refl eq_refl). reflexivity.
Defined.

Lemma fold_ratings_from (reviews : list Number) (acc : Number) :
  fold_left (fun acc rating => acc + rating) reviews acc
  == acc + fold_right Qplus 0 reviews.
Proof.
  revert acc. induction reviews as [|r reviews IH]; intros acc; simpl; [ring|].
  rewrite IH. ring.
Qed.

Lemma ratings_sum_between (lo hi : Number) (reviews : list Number) :
  Forall (fun r => lo <= r <= hi) reviews ->
  lo * inject_Z (Z.of_nat (List.length reviews)) <= fold_right Qplus 0 reviews /\
  fold_right Qplus 0 reviews <= hi * inject_Z (Z.of_nat (List.length reviews)).
Proof.
  induction 1 as [|r reviews [Hlo Hhi] _ [IHlo IHhi]].
  - simpl. change (inject_Z 0) with 0. rewrite !Qmult_0_r. split; apply Qle_refl.
  - cbn [List.length fold_right]. rewrite Nat2Z.inj_succ. unfold Z.succ.
    rewrite inject_Z_plus. change (inject_Z 1) with 1.
    set (n := inject_Z (Z.of_nat (List.length reviews))) in *.
    set (t := fold_right Qplus 0 reviews) in *.
    clearbody n t. split; nra.
Qed.

(** X12: for a product with at least one review, the average that
    [calculateAverageRating] stores lies within every range that holds
    all the ratings, the count it stores is the number of reviews, and
    average times count is the sum of the ratings; without reviews both
    are 0. *)
Theorem average_rating_within (lo hi : Number) (reviews : list Number) :
  Forall (fun r => lo <= r <= hi) reviews ->
  reviews <> [] ->
  lo <= fst (calculateAverageRating reviews) <= hi /\
  snd (calculateAverageRating reviews) = inject_Z (Z.of_nat (List.length reviews)) /\
  fst (calculateAverageRating reviews) * snd (calculateAverageRating reviews)
  == fold_right Qplus 0 reviews /\
  calculateAverageRating [] = (0, 0).
Proof.
  intros Hall Hne. destruct reviews as [|r reviews]; [contradiction|].
  destruct (ratings_sum_between lo hi _ Hall) as [Hlo Hhi].
  unfold calculateAverageRating. cbn [fst snd].
  set (l := r :: reviews) in *.
  assert (Hn : 0 < inject_Z (Z.of_nat (List.length l))).
  { rewrite <- (Zlt_Qlt 0). subst l. simpl. lia. }
  pose proof (fold_ratings_from l 0) as Hsum. rewrite Qplus_0_l in Hsum.
  split; [|split; [reflexivity|split; [|reflexivity]]].
  - rewrite Hsum. split.
    + now apply Qle_shift_div_l.
    + now apply Qle_shift_div_r.
  - rewrite Hsum. field. intros H0. rewrite H0 in Hn. discriminate.
Qed.

Lemma average_rating_within_witness :
  Forall (fun r => 1 <= r <= 5) [5; 4; 3] /\
  [5; 4; 3] <> @nil Number /\
  1 <= fst (calculateAverageRating [5; 4; 3]) <= 5.
Proof.
  assert (H : Forall (fun r => 1 <= r <= 5) [5; 4; 3])
    by (repeat constructor; discriminate).
  split; [exact H|]. split; [discriminate|].
  exact (proj1 (average_rating_within 1 5 [5; 4; 3] H ltac:(discriminate))).
Defined.

(** ** Checkout *)

Lemma process_items_ok (mp : Mapper) (products : gmap ObjectId Product)
    (items : list (option ReqItem)) (acc : Number) (ois : list OrderItem) (price : Number)
    (ois' : list OrderItem) :
  process_items mp products items acc ois = inr (price, ois') ->
  exists new, ois' = ois ++ new /\
    Forall2 (order_item_of mp products) items new /\
    price == acc + sum_order_items new.
Proof.
  revert acc ois. induction items as [|item items IH]; intros acc ois H.
  - injection H as <- <-. exists []. rewrite app_nil_r. split; [reflexivity|].
    split; [constructor|simpl; ring].
  - destruct item as [[[pid|] [q|] c sz]|]; simpl in H; try discriminate.
    destruct pid as [|a pid]; simpl in H; [discriminate|].
    destruct (negb (truthy c) || negb (truthy sz)); [discriminate|].
    destruct (castObjectId mp (String a pid)) as [oid|] eqn:Hc; [|discriminate].
    destruct (products !! oid) as [p|] eqn:Hp; [|discriminate].
    destruct (IH _ _ H) as (new & -> & Hall & Hprice).
    eexists (_ :: new). split; [now rewrite <- app_assoc|].
    split.
    + constructor; [|exact Hall]. now exists (String a pid), oid, q, c, sz, p.
    + rewrite Hprice. simpl. ring.
Qed.

(** The loop stops at the first item that is not acceptable: with 500
    when the lookup of its product throws, with 400 otherwise. *)
Lemma process_items_first_bad (mp : Mapper) (products : gmap ObjectId Product)
    (good : list (option ReqItem)) (item : option ReqItem) (rest : list (option ReqItem))
    (acc : Number) (ois : list OrderItem) :
  forallb (item_acceptable mp products) good = true ->
  item_acceptable mp products item = false ->
  exists res, process_items mp products (good ++ item :: rest) acc ois = inl res /\
    res_status res = if item_throws mp item then 500%Z else 400%Z.
Proof.
  revert acc ois. induction good as [|g good IH]; intros acc ois Hgood Hbad.
  - clear Hgood. cbn [app].
    destruct item as [[[pid|] [q|] c sz]|]; cbn [process_items item_throws];
      try (eexists; split; reflexivity).
    cbn [item_acceptable] in Hbad.
    destruct (truthy (Some pid)); cbn [negb andb]; [|eexists; split; reflexivity].
    destruct (truthy c); cbn [negb andb orb]; [|eexists; split; reflexivity].
    destruct (truthy sz); cbn [negb andb orb]; [|eexists; split; reflexivity].
    cbn [andb] in Hbad.
    destruct (castObjectId mp pid) as [oid|] eqn:Hc.
    + rewrite bool_decide_eq_false_2 by discriminate.
      destruct (products !! oid) as [p|] eqn:Hp.
      * rewrite bool_decide_eq_true_2 in Hbad by (now exists p). discriminate.
      * eexists. split; reflexivity.
    + rewrite bool_decide_eq_true_2 by reflexivity. eexists. split; reflexivity.
  - cbn [forallb] in Hgood. apply andb_true_iff in Hgood as [Hg Hgood].
    cbn [app].
    destruct g as [[[pid|] [q|] c sz]|]; cbn [item_acceptable] in Hg; try discriminate.
    cbn [process_items].
    destruct (truthy (Some pid)); cbn [negb andb] in *; [|discriminate].
    destruct (truthy c); cbn [negb andb orb] in *; [|discriminate].
    destruct (truthy sz); cbn [negb andb orb] in *; [|discriminate].
    destruct (castObjectId mp pid) as [oid|]; [|discriminate].
    destruct (products !! oid) as [p|] eqn:Hp.
    + apply IH; assumption.
    + rewrite bool_decide_eq_false_2 in Hg by (intros [p Hp']; discriminate). discriminate.
Qed.

Lemma forallb_first_false {A} (p : A -> bool) (l : list A) :
  forallb p l = false ->
  exists good x rest, l = good ++ x :: rest /\ forallb p good = true /\ p x = false.
Proof.
  induction l as [|a l IH]; simpl; [discriminate|].
  destruct (p a) eqn:E; simpl.
  - intros H. destruct (IH H) as (good & x & rest & -> & Hg & Hx).
    exists (a :: good), x, rest. split; [reflexivity|]. split; [|exact Hx].
    simpl. now rewrite E.
  - intros _. exists [], a, l. now repeat split.
Qed.

Lemma order_pre_save_prices (now : Date) (orders : list Order) (o : Order) :
  let o' := order_pre_save now orders o in
  order_itemsPrice o' = order_itemsPrice o /\ order_taxPrice o' = order_taxPrice o /\
  order_shippingPrice o' = order_shippingPrice o /\
  order_discountAmount o' = order_discountAmount o.
Proof.
  unfold order_pre_save.
  destruct (orderNumber_missing o); simpl; destruct (order_statusModified o); simpl; tauto.
Qed.

Lemma fold_order_items_from (items : list OrderItem) (acc : Number) :
  fold_left (fun total item => total + oi_price item * oi_quantity item) items acc
  == acc + sum_order_items items.
Proof.
  revert acc. induction items as [|it items IH]; intros acc; simpl; [ring|].
  rewrite IH. ring.
Qed.

(** X13: an order that checkout creates holds one line per requested
    item with the name and price of the product as stored at that moment;
    its items price is the sum of price times quantity over these lines,
    tax is 8.5% of it, shipping is 0 from 50 on and 5.99 below, no
    discount is applied, and the total is items price plus tax plus
    shipping, which [calculateTotal] confirms.  The order starts as
    pending and belongs to the caller, if there is one. *)
Theorem checkout_order_contents (mp : Mapper) (now : Date) (newId : ObjectId)
    (products : gmap ObjectId Product) (orders : list Order) (req : OrderRequest) :
  let r := create_order_handler mp now newId products orders req in
  res_status (fst (fst r)) = 201%Z ->
  exists o items,
    req_items req = Some items /\ snd r = orders ++ [o] /\
    Forall2 (order_item_of mp products) items (order_items o) /\
    order_itemsPrice o == sum_order_items (order_items o) /\
    order_taxPrice o = order_itemsPrice o * 0.085 /\
    order_shippingPrice o = (if num_ge (order_itemsPrice o) 50 then 0 else 5.99) /\
    order_discountAmount o = 0 /\
    order_totalPrice o = order_itemsPrice o + order_taxPrice o + order_shippingPrice o /\
    order_totalPrice (calculateTotal o) == order_totalPrice o /\
    order_status o = pending /\ order_user o = req_user req /\ order_id o = newId.
Proof.
  intros r. subst r. unfold create_order_handler.
  destruct (req_items req) as [[|item items]|] eqn:Hitems; try discriminate.
  destruct (process_items mp products (item :: items) 0 [])
    as [res|[itemsPrice orderItems]] eqn:P.
  { intros H. cbn [fst] in H.
    destruct (process_items_error _ _ _ _ _ _ P) as [E|E]; rewrite E in H; discriminate. }
  destruct (process_items_ok _ _ _ _ _ _ _ P) as (new & Hnew & Hall & Hprice).
  simpl in Hnew. subst orderItems. rewrite Qplus_0_l in Hprice.
  unfold Order_create.
  set (data := mkOrderData _ _ _ _ _ _ _ _ _ _).
  destruct (order_valid data); cbn [negb]; [|discriminate].
  destruct (orderNumber_taken orders _); [discriminate|]. intros _.
  cbn [fst snd]. unfold insert_new.
  pose proof (order_pre_save_keeps now orders (new_order mp now newId data))
    as (Hid & Hst & Hit & Hu & _ & Htot).
  pose proof (order_pre_save_prices now orders (new_order mp now newId data))
    as (Hip & Htax & Hship & Hdisc).
  set (o := order_pre_save now orders (new_order mp now newId data)) in *.
  exists (clear_modified o), (item :: items).
  split; [reflexivity|]. split; [reflexivity|]. cbn [clear_modified order_items order_itemsPrice
    order_taxPrice order_shippingPrice order_discountAmount order_totalPrice order_status
    order_user order_id].
  rewrite Hit, Hip, Htax, Hship, Hdisc, Htot, Hst, Hu, Hid. simpl.
  split; [exact Hall|]. split; [exact Hprice|].
  repeat (split; [reflexivity|]).
  split; [|repeat split].
  rewrite Hit, Htax, Hship, Hdisc. simpl.
  rewrite fold_order_items_from, <- Hprice. ring.
Qed.

Lemma checkout_order_contents_witness :
  res_status (fst (fst (create_order_handler sample_mapper sample_now "o1" sample_products []
                          sample_request))) = 201%Z /\
  exists o, snd (create_order_handler sample_mapper sample_now "o1" sample_products []
                   sample_request) = [o] /\ order_discountAmount o = 0.
Proof.
  split; [reflexivity|].
  destruct (checkout_order_contents sample_mapper sample_now "o1" sample_products []
              sample_request eq_refl)
    as (o & items & _ & Hs & _ & _ & _ & _ & Hd & _).
  exists o. split; [exact Hs|exact Hd].
Defined.

(** X14: checkout answers 400 exactly when the request has no items or
    the first of its items that is not acceptable is refused for what it
    says (it is not an object, lacks a product id, a numeric quantity, a
    colour or a size, or names a product that does not exist), however
    many acceptable items come with it.  When the first item that is not
    acceptable carries a product id that is no [ObjectId], the lookup
    throws and the answer is 500.  Whenever no order is created the
    orders stay as they are, and the product collection is never
    written. *)
Theorem checkout_rejects_bad_items (mp : Mapper) (now : Date) (newId : ObjectId)
    (products : gmap ObjectId Product) (orders : list Order) (req : OrderRequest) :
  let r := create_order_handler mp now newId products orders req in
  (res_status (fst (fst r)) = 400%Z <->
   match req_items req with
   | None | Some [] => True
   | Some items =>
       exists good item rest,
         items = good ++ item :: rest /\
         forallb (item_acceptable mp products) good = true /\
         item_acceptable mp products item = false /\ item_throws mp item = false
   end) /\
  (forall good item rest,
     req_items req = Some (good ++ item :: rest) ->
     forallb (item_acceptable mp products) good = true ->
     item_throws mp item = true ->
     res_status (fst (fst r)) = 500%Z) /\
  (res_status (fst (fst r)) <> 201%Z -> snd r = orders) /\
  snd (fst r) = products.
Proof.
  intros r. subst r. split; [|split; [|split; [|apply create_order_handler_products]]].
  - unfold create_order_handler.
    destruct (req_items req) as [[|item items]|]; [tauto| |tauto].
    destruct (forallb (item_acceptable mp products) (item :: items)) eqn:F.
    + destruct (proj2 (process_items_acceptable mp products (item :: items) 0 []) F)
        as [[itemsPrice orderItems] ->].
      split.
      * intros H. destruct (Order_create _ _ _ _ _) as [[? ?]|]; discriminate.
      * intros (good & bad & rest & Heq & _ & Hbad & _). exfalso.
        rewrite Heq, forallb_app in F. cbn [forallb] in F. rewrite Hbad in F.
        now rewrite andb_false_r in F.
    + destruct (forallb_first_false _ _ F) as (good & bad & rest & Heq & Hgood & Hbad).
      rewrite Heq.
      destruct (process_items_first_bad mp products good bad rest 0 [] Hgood Hbad)
        as (res & -> & Hres).
      cbn [fst]. rewrite Hres. split.
      * intros H. exists good, bad, rest. repeat (split; [assumption || reflexivity|]).
        destruct (item_throws mp bad); [discriminate|reflexivity].
      * intros (good' & bad' & rest' & Heq' & Hgood' & Hbad' & Hthrow').
        destruct (process_items_first_bad mp products good' bad' rest' 0 [] Hgood' Hbad')
          as (res' & Hres' & Hstatus').
        destruct (process_items_first_bad mp products good bad rest 0 [] Hgood Hbad)
          as (res0 & Hres0 & Hstatus0).
        rewrite <- Heq' in Hres'. rewrite Hres0 in Hres'. injection Hres' as <-.
        rewrite Hthrow' in Hstatus'. rewrite Hstatus0 in Hstatus'.
        now rewrite Hstatus'.
  - intros good bad rest Hitems Hgood Hthrow. unfold create_order_handler. rewrite Hitems.
    assert (Hbad : item_acceptable mp products bad = false).
    { destruct bad as [[[pid|] [q|] c sz]|]; try reflexivity. cbn in Hthrow |- *.
      destruct (castObjectId mp pid); [|now rewrite andb_false_r].
      rewrite bool_decide_eq_false_2 in Hthrow by discriminate.
      now rewrite andb_false_r in Hthrow. }
    destruct (process_items_first_bad mp products good bad rest 0 [] Hgood Hbad)
      as (res & Hres & Hstatus).
    rewrite Hthrow in Hstatus.
    destruct (good ++ bad :: rest) as [|x l] eqn:E; [now destruct good|].
    rewrite Hres. exact Hstatus.
  - destruct (create_order_handler_store mp now newId products orders req)
      as [[_ H]|[H _]]; [intros _; exact H|].
    intros Hne. contradiction.
Qed.

Lemma checkout_rejects_bad_items_witness :
  forallb (item_acceptable sample_mapper sample_products) sample_items = true /\
  item_throws sample_mapper stray_item = true /\
  res_status (fst (fst (create_order_handler sample_mapper sample_now "o2" sample_products
                          sample_orders sample_request_stray))) = 500%Z.
Proof.
  split; [reflexivity|]. split; [reflexivity|].
  exact (proj1 (proj2 (checkout_rejects_bad_items sample_mapper sample_now "o2" sample_products
                         sample_orders sample_request_stray))
           sample_items stray_item [] eq_refl eq_refl eq_refl).
Defined.

(** ** Status updates *)

Lemma status_route_stored (now : Date) (user : User) (orders : list Order) (id : ObjectId)
    (order : Order) (s : string) (st : Status) (note : option string) :
  findById orders id = Some order ->
  user_isAdmin user = true ->
  Status_of_string s = Some st ->
  update_status_handler now user orders id s note
  = (mkResponse 200 "Order status updated successfully",
     order_save now orders (status_route_doc now order st note)) /\
  findById (order_save now orders (status_route_doc now order st note)) id
  = Some (clear_modified (order_pre_save now orders (status_route_doc now order st note))).
Proof.
  intros Hf Ha Hs. split.
  - unfold update_status_handler. rewrite Hs, Hf, Ha. reflexivity.
  - unfold order_save. apply (findById_replace orders id order); [exact Hf|].
    simpl. destruct (order_pre_save_keeps now orders (status_route_doc now order st note))
      as [-> _].
    apply findById_id in Hf. unfold status_route_doc.
    destruct (updateStatus_fields now order st (default ""%string note)) as [Hid _].
    destruct st; simpl; exact Hf.
Qed.

Lemma status_route_doc_fields (now : Date) (order : Order) (st : Status)
    (note : option string) :
  let o2 := status_route_doc now order st note in
  order_status o2 = st /\
  order_statusHistory o2
  = order_statusHistory order ++ [mkStatusEntry st now (Some (default ""%string note))] /\
  order_statusModified o2
  = order_statusModified order || negb (bool_decide (order_status order = st)).
Proof. unfold status_route_doc, updateStatus. destruct st; simpl; tauto. Qed.

(** X15: a status update through the admin route that names the status
    the loaded order already has logs exactly one history entry, the one
    with the note, and leaves the status as it is. *)
Theorem status_update_same_status (now : Date) (user : User) (orders : list Order)
    (id : ObjectId) (order : Order) (s : string) (note : option string) :
  findById orders id = Some order ->
  order_statusModified order = false ->
  user_isAdmin user = true ->
  Status_of_string s = Some (order_status order) ->
  let r := update_status_handler now user orders id s note in
  res_status (fst r) = 200%Z /\
  exists o', findById (snd r) id = Some o' /\
    order_status o' = order_status order /\
    order_statusHistory o'
    = order_statusHistory order
      ++ [mkStatusEntry (order_status order) now (Some (default ""%string note))].
Proof.
  intros Hf Hm Ha Hs r. subst r.
  destruct (status_route_stored now user orders id order s _ note Hf Ha Hs) as [-> Hfind].
  split; [reflexivity|]. eexists. split; [exact Hfind|].
  destruct (status_route_doc_fields now order (order_status order) note)
    as (Hst & Hh & Hmod).
  destruct (order_pre_save_keeps now orders
              (status_route_doc now order (order_status order) note)) as (_ & Hst' & _).
  split; [simpl; now rewrite Hst', Hst|].
  simpl. rewrite order_pre_save_history, Hmod, Hm, Hh.
  rewrite bool_decide_eq_true_2 by reflexivity. simpl. now rewrite app_nil_r.
Qed.

Lemma status_update_same_status_witness :
  findById sample_orders "o1" = Some sample_order /\
  order_statusModified sample_order = false /\
  user_isAdmin sample_admin = true /\
  Status_of_string "pending" = Some (order_status sample_order) /\
  res_status (fst (update_status_handler sample_now sample_admin sample_orders "o1"
                     "pending" None)) = 200%Z.
Proof.
  repeat (split; [reflexivity|]).
  exact (proj1 (status_update_same_status sample_now sample_admin sample_orders "o1"
                  sample_order "pending" None eq_refl eq_refl eq_refl eq_refl)).
Defined.

Lemma order_pre_save_dates (now : Date) (orders : list Order) (o : Order) :
  let o' := order_pre_save now orders o in
  order_shippedAt o' = order_shippedAt o /\ order_deliveredAt o' = order_deliveredAt o /\
  order_estimatedDelivery o' = order_estimatedDelivery o /\
  order_actualDeliveryDate o' = order_actualDeliveryDate o.
Proof.
  unfold order_pre_save.
  destruct (orderNumber_missing o); simpl; destruct (order_statusModified o); simpl; tauto.
Qed.

Lemma three_days_later (now : Date) :
  (0 <= msOfDay now < msPerDay)%Z ->
  addMs now (3 * 24 * 60 * 60 * 1000) = addDays now 3.
Proof.
  intros H. unfold addMs, addDays, msPerDay in *. f_equal.
  - f_equal. Z.to_euclidean_division_equations. lia.
  - Z.to_euclidean_division_equations. lia.
Qed.

(** X16: the status route stamps an order it moves to shipped with the
    time of the update as shipping time and the same time of day three
    days later as estimated delivery; one it moves to delivered with the
    time of the update as delivery time and actual delivery date; for any
    other status it leaves these four dates as they were. *)
Theorem status_update_dates (now : Date) (user : User) (orders : list Order)
    (id : ObjectId) (order : Order) (s : string) (st : Status) (note : option string) :
  findById orders id = Some order ->
  user_isAdmin user = true ->
  Status_of_string s = Some st ->
  (0 <= msOfDay now < msPerDay)%Z ->
  exists o', findById (snd (update_status_handler now user orders id s note)) id = Some o' /\
    (st = shipped ->
     order_shippedAt o' = Some now /\
     order_estimatedDelivery o' = Some (mkDate (epochDay now + 3) (msOfDay now)) /\
     order_deliveredAt o' = order_deliveredAt order /\
     order_actualDeliveryDate o' = order_actualDeliveryDate order) /\
    (st = delivered ->
     order_deliveredAt o' = Some now /\ order_actualDeliveryDate o' = Some now /\
     order_shippedAt o' = order_shippedAt order /\
     order_estimatedDelivery o' = order_estimatedDelivery order) /\
    (st <> shipped -> st <> delivered ->
     order_shippedAt o' = order_shippedAt order /\
     order_deliveredAt o' = order_deliveredAt order /\
     order_estimatedDelivery o' = order_estimatedDelivery order /\
     order_actualDeliveryDate o' = order_actualDeliveryDate order).
Proof.
  intros Hf Ha Hs Hms.
  destruct (status_route_stored now user orders id order s st note Hf Ha Hs) as [-> Hfind].
  eexists. split; [exact Hfind|]. simpl.
  destruct (order_pre_save_dates now orders (status_route_doc now order st note))
    as (-> & -> & -> & ->).
  unfold status_route_doc. split; [|split].
  - intros ->. simpl. rewrite (three_days_later now Hms). repeat split.
  - intros ->. simpl. repeat split.
  - intros H1 H2. destruct st; try contradiction; simpl; repeat split.
Qed.

Lemma status_update_dates_witness :
  findById sample_orders "o1" = Some sample_order /\
  user_isAdmin sample_admin = true /\
  Status_of_string "shipped" = Some shipped /\
  (0 <= msOfDay sample_now < msPerDay)%Z /\
  (order_estimatedDelivery <$>
     findById (snd (update_status_handler sample_now sample_admin sample_orders "o1"
                      "shipped" None)) "o1")
  = Some (Some (mkDate 19892 1000)).
Proof.
  repeat (split; [reflexivity|]).
  split; [split; [discriminate|reflexivity]|].
  destruct (status_update_dates sample_now sample_admin sample_orders "o1" sample_order
              "shipped" shipped None eq_refl eq_refl eq_refl)
    as (o' & Hfind & Hship & _); [split; [discriminate|reflexivity]|].
  rewrite Hfind. simpl. destruct (Hship eq_refl) as (_ & -> & _). reflexivity.
Defined.

(** ** Cancelling and deleting orders *)





Lemma findById_deleteOne (orders : list Order) (victim : Order) (id : ObjectId) :
  findById (deleteOne victim orders) id
  = if String.eqb (order_id victim) id then None else findById orders id.
Proof.
  unfold findById, deleteOne. induction orders as [|x orders IH]; simpl.
  - now destruct (String.eqb (order_id victim) id).
  - destruct (String.eqb (order_id x) (order_id victim)) eqn:E; simpl.
    + apply String.eqb_eq in E. rewrite IH, E.
      now destruct (String.eqb (order_id victim) id).
    + destruct (String.eqb (order_id x) id) eqn:E'; [|exact IH].
      apply String.eqb_eq in E'. rewrite <- E'. rewrite String.eqb_sym, E. reflexivity.
Qed.

(** X18: the route that deletes an order succeeds exactly for the owner
    of an order that is pending, processing or shipped.  It then removes
    that order, which can no longer be found, and keeps every order with
    another id; any other outcome leaves the orders as they are. *)
Theorem delete_order_route (user : User) (orders : list Order) (id : ObjectId)
    (order : Order) :
  findById orders id = Some order ->
  let r := delete_order_handler user orders id in
  (res_status (fst r) = 200%Z <->
   order_user order = Some (user_id user) /\
   order_status order ∈ [pending; processing; shipped]) /\
  (res_status (fst r) = 200%Z ->
   findById (snd r) id = None /\
   forall id', id' <> id -> findById (snd r) id' = findById orders id') /\
  (res_status (fst r) <> 200%Z -> snd r = orders).
Proof.
  intros Hf r. subst r. unfold delete_order_handler. rewrite Hf.
  pose proof (findById_id _ _ _ Hf) as Hid.
  destruct (order_user order) as [owner|].
  2:{ split; [|split; [discriminate|reflexivity]]. split; [discriminate|].
      intros [H _]. discriminate. }
  destruct (String.eqb owner (user_id user)) eqn:E; cbn [negb].
  2:{ split; [|split; [discriminate|reflexivity]]. split; [discriminate|].
      intros [[= H] _]. subst owner. rewrite String.eqb_refl in E. discriminate. }
  apply String.eqb_eq in E. subst owner.
  unfold canBeCancelled.
  destruct (bool_decide (order_status order ∈ [pending; processing; shipped])) eqn:B;
    cbn [negb fst snd res_status].
  - apply bool_decide_eq_true in B. split; [tauto|].
    split; [|intros H; now contradiction H]. intros _. split.
    + rewrite findById_deleteOne, Hid, String.eqb_refl. reflexivity.
    + intros id' Hne. rewrite findById_deleteOne, Hid.
      apply not_eq_sym, String.eqb_neq in Hne. now rewrite Hne.
  - apply bool_decide_eq_false in B. split; [|split; [discriminate|reflexivity]].
    split; [discriminate|]. intros [_ H]. contradiction.
Qed.

Lemma delete_order_route_witness :
  findById [sample_delivered] "o1" = Some sample_delivered /\
  res_status (fst (delete_order_handler sample_customer [sample_delivered] "o1")) <> 200%Z /\
  snd (delete_order_handler sample_customer [sample_delivered] "o1") = [sample_delivered].
Proof.
  assert (H : res_status (fst (delete_order_handler sample_customer [sample_delivered] "o1"))
              <> 200%Z) by discriminate.
  split; [reflexivity|]. split; [exact H|].
  exact (proj2 (proj2 (delete_order_route sample_customer [sample_delivered] "o1"
                         sample_delivered eq_refl)) H).
Defined.

(** ** Refund requests, continued *)

(** X19: an accepted refund request records the amount that was asked
    for, whatever it is in relation to the order total, and the order
    total when no amount or the amount 0 was given; it records the
    trimmed reason, and it changes neither the status nor the history of
    the order. *)
Theorem refund_request_records (now : Date) (user : User) (orders : list Order)
    (id : ObjectId) (order : Order) (reason : string) (amount : option Number) :
  findById orders id = Some order ->
  order_statusModified order = false ->
  let r := refund_handler now user orders id (Some reason) amount in
  res_status (fst r) = 200%Z ->
  exists o' info,
    findById (snd r) id = Some o' /\ order_refundInfo o' = Some info /\
    refund_status info = refund_pending /\ refund_reason info = Some (trim reason) /\
    (forall a, amount = Some a -> ~ a == 0 -> refund_amount info = a) /\
    (amount = None \/ (exists a, amount = Some a /\ a == 0) ->
     refund_amount info = order_totalPrice order) /\
    order_status o' = order_status order /\
    order_statusHistory o' = order_statusHistory order.
Proof.
  intros Hf Hm r. subst r. unfold refund_handler, validated_reason.
  destruct (String.eqb (trim reason) "") eqn:Hr; [discriminate|].
  rewrite Hf. destruct (order_user order) as [owner|]; [|discriminate].
  destruct (negb (String.eqb owner (user_id user))); [discriminate|].
  destruct (negb (canBeRefunded order)); [discriminate|].
  destruct (refund_blocked order); [discriminate|]. intros _. cbn [snd].
  set (info := mkRefundInfo (amount_or_total amount (order_totalPrice order))
                 (Some (trim reason)) refund_pending).
  pose proof (order_pre_save_keeps now orders (set_refundInfo info order))
    as (Hid & Hst & _ & _ & Hri & _).
  exists (clear_modified (order_pre_save now orders (set_refundInfo info order))), info.
  split.
  { unfold order_save. apply (findById_replace orders id order); [exact Hf|].
    simpl. rewrite Hid. simpl. now apply findById_id in Hf. }
  simpl. rewrite Hri, Hst, order_pre_save_history. simpl. rewrite Hm, app_nil_r.
  repeat split.
  - intros a -> Ha. unfold amount_or_total.
    destruct (Qeq_bool a 0) eqn:E; [|reflexivity].
    apply Qeq_bool_eq in E. contradiction.
  - intros [->|(a & -> & Ha)]; [reflexivity|].
    unfold amount_or_total. apply Qeq_eq_bool in Ha. now rewrite Ha.
Qed.

Lemma refund_request_records_witness :
  findById [sample_delivered] "o1" = Some sample_delivered /\
  order_statusModified sample_delivered = false /\
  res_status (fst (refund_handler sample_now sample_customer [sample_delivered] "o1"
                     (Some "too small"%string) (Some 1000))) = 200%Z /\
  (order_refundInfo <$>
     findById (snd (refund_handler sample_now sample_customer [sample_delivered] "o1"
                      (Some "too small"%string) (Some 1000))) "o1")
  = Some (Some (mkRefundInfo 1000 (Some "too small"%string) refund_pending)).
Proof.
  split; [reflexivity|]. split; [reflexivity|]. split; [reflexivity|].
  destruct (refund_request_records sample_now sample_customer [sample_delivered] "o1"
              sample_delivered "too small" (Some 1000) eq_refl eq_refl eq_refl)
    as (o' & info & Hf & Hi & Hs & Hr & Ha & _).
  rewrite Hf. simpl. rewrite Hi. destruct info as [a rs st]. simpl in *.
  rewrite Hs, Hr, (Ha 1000 eq_refl) by discriminate. reflexivity.
Defined.

(** ** Wishlist *)

Lemma find_none_existsb {A} (p : A -> bool) (l : list A) :
  List.find p l = None <-> existsb p l = false.
Proof.
  induction l as [|a l IH]; simpl; [tauto|].
  destruct (p a); simpl; [split; discriminate|exact IH].
Qed.

Lemma hasItem_wished (w : Wishlist) (productId : ObjectId) :
  hasItem w productId = true <-> productId ∈ wished w.
Proof.
  unfold hasItem, wished. rewrite existsb_exists, list_elem_of_fmap. split.
  - intros (item & Hin & He). apply String.eqb_eq in He.
    exists item. split; [now symmetry|now apply list_elem_of_In].
  - intros (item & -> & Hin). exists item.
    split; [now apply list_elem_of_In|apply String.eqb_refl].
Qed.

Lemma wished_removeItem (now : Date) (w : Wishlist) (productId id' : ObjectId) :
  id' ∈ wished (wishlist_removeItem now w productId) <-> id' ∈ wished w /\ id' <> productId.
Proof.
  unfold wished, wishlist_removeItem. simpl. rewrite !list_elem_of_fmap. split.
  - intros (item & -> & Hin). apply list_elem_of_In, filter_In in Hin as [Hin Hne].
    apply negb_true_iff, String.eqb_neq in Hne.
    split; [|exact Hne]. exists item. split; [reflexivity|now apply list_elem_of_In].
  - intros [(item & -> & Hin) Hne]. exists item. split; [reflexivity|].
    apply list_elem_of_In, filter_In. split; [now apply list_elem_of_In|].
    now apply negb_true_iff, String.eqb_neq.
Qed.

Lemma NoDup_wished_filter (p : WishItem -> bool) (items : list WishItem) :
  NoDup (wish_product <$> items) -> NoDup (wish_product <$> List.filter p items).
Proof.
  induction items as [|a items IH]; simpl; [trivial|].
  rewrite NoDup_cons. intros [Hnotin Hnd]. destruct (p a); [|now apply IH].
  simpl. apply NoDup_cons. split; [|now apply IH].
  intros Hin. apply Hnotin. apply list_elem_of_fmap in Hin as (item & -> & Hin).
  apply list_elem_of_fmap. exists item. split; [reflexivity|].
  apply list_elem_of_In. apply list_elem_of_In, filter_In in Hin. tauto.
Qed.

(** X20: a wishlist never holds a product twice: if its products are
    pairwise distinct, they still are after [addItem], [removeItem] and
    [clearWishlist]; and adding a product that is already there changes
    nothing, not even the time stamp. *)
Theorem wishlist_products_distinct (now : Date) (w : Wishlist) (p : Product)
    (productId : ObjectId) :
  NoDup (wished w) ->
  NoDup (wished (wishlist_addItem now w p)) /\
  NoDup (wished (wishlist_removeItem now w productId)) /\
  NoDup (wished (clearWishlist now w)) /\
  (hasItem w (product_id p) = true -> wishlist_addItem now w p = w).
Proof.
  intros Hnd. split; [|split; [|split]].
  - unfold wishlist_addItem.
    destruct (List.find _ _) eqn:F; [exact Hnd|].
    apply find_none_existsb in F. unfold wished. simpl. rewrite fmap_app.
    apply NoDup_app. split; [exact Hnd|]. split; [|apply NoDup_singleton].
    intros id Hin Hid. apply list_elem_of_singleton in Hid. subst id.
    apply hasItem_wished in Hin. unfold hasItem in Hin. simpl in Hin.
    rewrite F in Hin. discriminate Hin.
  - now apply NoDup_wished_filter.
  - apply NoDup_nil_2.
  - intros Hhas. unfold wishlist_addItem. unfold hasItem in Hhas.
    destruct (List.find _ _) eqn:F; [reflexivity|].
    apply find_none_existsb in F. congruence.
Qed.

Lemma wishlist_products_distinct_witness :
  NoDup (wished sample_wishlist) /\
  hasItem sample_wishlist (product_id sample_product) = true /\
  wishlist_addItem sample_now sample_wishlist sample_product = sample_wishlist.
Proof.
  assert (H : NoDup (wished sample_wishlist)) by apply NoDup_singleton.
  split; [exact H|]. split; [reflexivity|].
  exact (proj2 (proj2 (proj2 (wishlist_products_distinct sample_now sample_wishlist
                                sample_product runner_id H))) eq_refl).
Defined.

Lemma hasItem_addItem (now : Date) (w : Wishlist) (p : Product) :
  hasItem (wishlist_addItem now w p) (product_id p) = true.
Proof.
  unfold wishlist_addItem. destruct (List.find _ _) eqn:F.
  - destruct (existsb (fun item => String.eqb (wish_product item) (product_id p))
                (wishlist_items w)) eqn:E; [exact E|].
    apply find_none_existsb in E. congruence.
  - unfold hasItem. simpl. rewrite existsb_app. simpl.
    now rewrite String.eqb_refl, orb_true_r.
Qed.

(** X21: [hasItem] answers true for a product right after [addItem] put
    it there or found it there, and false right after [removeItem] or
    [clearWishlist]; for every other product neither [addItem] nor
    [removeItem] changes the answer. *)
Theorem wishlist_add_remove_lookup (now : Date) (w : Wishlist) (p : Product)
    (productId other : ObjectId) :
  hasItem (wishlist_addItem now w p) (product_id p) = true /\
  hasItem (wishlist_removeItem now w productId) productId = false /\
  hasItem (clearWishlist now w) productId = false /\
  (other <> product_id p -> hasItem (wishlist_addItem now w p) other = hasItem w other) /\
  (other <> productId ->
   hasItem (wishlist_removeItem now w productId) other = hasItem w other).
Proof.
  split; [|split; [|split; [|split]]].
  - apply hasItem_addItem.
  - destruct (hasItem (wishlist_removeItem now w productId) productId) eqn:E; [|reflexivity].
    apply hasItem_wished, wished_removeItem in E. now destruct E.
  - reflexivity.
  - intros Hne. unfold wishlist_addItem. destruct (List.find _ _); [reflexivity|].
    unfold hasItem. simpl. rewrite existsb_app. simpl.
    apply not_eq_sym, String.eqb_neq in Hne. now rewrite Hne, !orb_false_r.
  - intros Hne. apply eq_true_iff_eq.
    rewrite !hasItem_wished, wished_removeItem. tauto.
Qed.

Lemma wishlist_add_remove_lookup_witness :
  trail_id <> runner_id /\
  hasItem (wishlist_removeItem sample_now sample_wishlist runner_id) trail_id
  = hasItem sample_wishlist trail_id.
Proof.
  split; [discriminate|].
  apply (wishlist_add_remove_lookup sample_now sample_wishlist sample_product runner_id trail_id).
  discriminate.
Defined.

Lemma fold_wish_prices_from (items : list WishItem) (acc : Number) :
  fold_left (fun total item => total + wish_price item) items acc
  == acc + sum_wish_prices items.
Proof.
  revert acc. induction items as [|it items IH]; intros acc; simpl; [ring|].
  rewrite IH. ring.
Qed.

Lemma sum_wish_prices_app (l1 l2 : list WishItem) :
  sum_wish_prices (l1 ++ l2) == sum_wish_prices l1 + sum_wish_prices l2.
Proof. induction l1 as [|a l1 IH]; simpl; [ring|]. rewrite IH. ring. Qed.

(** X22: the summary of a wishlist counts its items and adds up their
    prices.  Adding a product that is not there yet raises the count by
    one and the total value by the price of the product; adding one that
    is there leaves both; clearing brings both to 0. *)
Theorem wishlist_summary_after_add (now : Date) (w : Wishlist) (p : Product) :
  snd (wishlist_getSummary w) == sum_wish_prices (wishlist_items w) /\
  (hasItem w (product_id p) = false ->
   fst (wishlist_getSummary (wishlist_addItem now w p)) = S (fst (wishlist_getSummary w)) /\
   snd (wishlist_getSummary (wishlist_addItem now w p))
   == snd (wishlist_getSummary w) + product_price p) /\
  (hasItem w (product_id p) = true ->
   wishlist_getSummary (wishlist_addItem now w p) = wishlist_getSummary w) /\
  wishlist_getSummary (clearWishlist now w) = (0%nat, 0).
Proof.
  unfold wishlist_getSummary. cbn [fst snd].
  split; [rewrite fold_wish_prices_from; ring|].
  split; [|split; [|reflexivity]].
  - intros Hno. unfold wishlist_addItem.
    apply find_none_existsb in Hno. rewrite Hno. simpl.
    split; [rewrite List.length_app; simpl; lia|].
    rewrite !fold_wish_prices_from, sum_wish_prices_app. simpl. ring.
  - intros Hhas. unfold wishlist_addItem.
    destruct (List.find _ _) eqn:F; [reflexivity|].
    apply find_none_existsb in F. unfold hasItem in Hhas. congruence.
Qed.

Lemma wishlist_summary_after_add_witness :
  hasItem sample_wishlist (product_id scarce_product) = false /\
  fst (wishlist_getSummary (wishlist_addItem sample_now sample_wishlist scarce_product))
  = 2%nat.
Proof.
  split; [reflexivity|].
  destruct (wishlist_summary_after_add sample_now sample_wishlist scarce_product)
    as (_ & H & _).
  now rewrite (proj1 (H eq_refl)).
Defined.

(** [addItem] of a product that has a name and a first image keeps a
    valid wishlist valid. *)
Lemma wishlist_addItem_valid (now : Date) (w : Wishlist) (p : Product) :
  wishlist_valid w = true ->
  product_name p <> ""%string -> first_image p <> ""%string ->
  wishlist_valid (wishlist_addItem now w p) = true.
Proof.
  intros Hv Hname Himg. unfold wishlist_addItem.
  destruct (List.find _ (wishlist_items w)); [exact Hv|].
  unfold wishlist_valid in *. cbn [wishlist_items]. rewrite forallb_app, Hv.
  cbn [forallb andb]. rewrite andb_true_r. unfold wish_item_valid.
  cbn [wish_name wish_image]. apply andb_true_iff. split; now apply required_nonempty.
Qed.

(** X23: for an active product that has a name and an image and is stored
    under its own id, which the request writes as the store has it, the
    route that adds to the wishlist succeeds when the user's wishlist does
    not hold the product yet, and then stores a wishlist that holds it,
    creating the wishlist if the user had none and leaving the wishlists
    of other users alone; a second request for the same product is
    answered 400 and changes nothing. *)
Theorem wishlist_add_route (mp : Mapper) (now now' : Date) (user : User)
    (products : gmap ObjectId Product) (wishlists : gmap ObjectId Wishlist)
    (pid : ObjectId) (product : Product) :
  pid <> ""%string ->
  castObjectId mp pid = Some pid ->
  products !! pid = Some product ->
  product_id product = pid ->
  product_isActive product = true ->
  product_name product <> ""%string ->
  first_image product <> ""%string ->
  (forall w, wishlists !! user_id user = Some w ->
             hasItem w pid = false /\ wishlist_valid w = true) ->
  let r1 := wishlist_add_handler mp now user products wishlists (Some pid) in
  let r2 := wishlist_add_handler mp now' user products (snd r1) (Some pid) in
  res_status (fst r1) = 200%Z /\
  (exists w', snd r1 !! user_id user = Some w' /\ hasItem w' pid = true) /\
  (forall other, other <> user_id user -> snd r1 !! other = wishlists !! other) /\
  res_status (fst r2) = 400%Z /\ snd r2 = snd r1.
Proof.
  intros Hpid Hcast Hp Hkey Hact Hname Himg Hnew r1 r2. subst r1 r2.
  assert (Ht : truthy (Some pid) = true) by (destruct pid; [contradiction|reflexivity]).
  set (w := default (mkWishlist (user_id user) [] now) (wishlists !! user_id user)).
  set (ws1 := match wishlists !! user_id user with
              | Some _ => wishlists
              | None => <[user_id user := w]> wishlists
              end).
  assert (Hw : hasItem w pid = false /\ wishlist_valid w = true).
  { subst w. destruct (wishlists !! user_id user) as [w0|] eqn:L; simpl;
      [now apply Hnew|split; reflexivity]. }
  destruct Hw as [Hw Hwv].
  assert (H1 : wishlist_add_handler mp now user products wishlists (Some pid)
               = (mkResponse 200 "Item added to wishlist successfully",
                  <[user_id user := wishlist_addItem now w product]> ws1)).
  { unfold wishlist_add_handler. rewrite Ht.
    change (default ""%string (Some pid)) with pid. rewrite Hcast, Hp, Hact. cbn [negb].
    fold w. rewrite Hw. now rewrite (wishlist_addItem_valid now w product Hwv Hname Himg). }
  rewrite H1. cbn [fst snd res_status].
  assert (Hadded : hasItem (wishlist_addItem now w product) pid = true).
  { rewrite <- Hkey. apply (hasItem_addItem now w product). }
  split; [reflexivity|]. split.
  { eexists. split; [apply lookup_insert_eq|exact Hadded]. }
  split.
  { intros other Hne. rewrite lookup_insert_ne by done. subst ws1.
    destruct (wishlists !! user_id user); [reflexivity|]. now rewrite lookup_insert_ne. }
  unfold wishlist_add_handler. rewrite Ht.
  change (default ""%string (Some pid)) with pid. rewrite Hcast, Hp, Hact. cbn [negb].
  rewrite lookup_insert_eq. simpl default. rewrite Hadded. split; reflexivity.
Qed.

Lemma wishlist_add_route_witness :
  trail_id <> ""%string /\
  castObjectId sample_mapper trail_id = Some trail_id /\
  scarce_products !! trail_id = Some scarce_product /\
  product_id scarce_product = trail_id /\
  product_isActive scarce_product = true /\
  product_name scarce_product <> ""%string /\
  first_image scarce_product <> ""%string /\
  res_status (fst (wishlist_add_handler sample_mapper sample_now sample_customer
                     scarce_products ∅ (Some trail_id))) = 200%Z.
Proof.
  split; [discriminate|]. repeat (split; [reflexivity|]).
  split; [discriminate|]. split; [discriminate|].
  refine (proj1 (wishlist_add_route sample_mapper sample_now sample_now sample_customer
                   scarce_products ∅ trail_id scarce_product _ eq_refl eq_refl eq_refl eq_refl
                   _ _ _)).
  - discriminate.
  - discriminate.
  - discriminate.
  - intros w Hw. rewrite lookup_empty in Hw. discriminate.
Defined.

(** ** Member tier *)

Lemma num_ge_false (a b : Number) : num_ge a b = false <-> a < b.
Proof.
  split.
  - intros H. apply Qnot_le_lt. intros Hle. apply num_ge_spec in Hle. congruence.
  - intros H. destruct (num_ge a b) eqn:E; [|reflexivity].
    apply num_ge_spec in E. exfalso. exact (Qlt_not_le _ _ H E).
Qed.

(** Case analysis on every threshold test in the goal, each case with
    the inequality it stands for. *)
Ltac tier_cases :=
  repeat match goal with
         | |- context [num_ge ?a ?b] =>
             let E := fresh "E" in
             destruct (num_ge a b) eqn:E;
             [apply num_ge_spec in E|apply num_ge_false in E]
         end.

Lemma tier_rank_monotone (u1 u2 : UserStats) :
  totalSpent u1 <= totalSpent u2 ->
  (tier_rank (memberTier (updateMemberTier u1))
   <= tier_rank (memberTier (updateMemberTier u2)))%nat.
Proof.
  intros H. unfold updateMemberTier. simpl.
  tier_cases; simpl; try lia; exfalso; lra.
Qed.

(** X24: the tier that [updateMemberTier] assigns depends on the total
    spent only and never falls when the total spent rises; it is Bronze
    below 1000, Silver from 1000, Gold from 5000 and Platinum from 10000. *)
Theorem memberTier_thresholds (u1 u2 : UserStats) :
  (totalSpent u1 <= totalSpent u2 ->
   (tier_rank (memberTier (updateMemberTier u1))
    <= tier_rank (memberTier (updateMemberTier u2)))%nat) /\
  (memberTier (updateMemberTier u1) = Bronze <-> totalSpent u1 < 1000) /\
  (memberTier (updateMemberTier u1) = Silver <-> 1000 <= totalSpent u1 < 5000) /\
  (memberTier (updateMemberTier u1) = Gold <-> 5000 <= totalSpent u1 < 10000) /\
  (memberTier (updateMemberTier u1) = Platinum <-> 10000 <= totalSpent u1).
Proof.
  split; [apply tier_rank_monotone|].
  unfold updateMemberTier. simpl.
  tier_cases; repeat split; intros; try discriminate; try reflexivity; try lra;
    exfalso; lra.
Qed.

Lemma memberTier_thresholds_witness :
  totalSpent (mkUserStats 0 Bronze 3 4999) <= totalSpent (mkUserStats 0 Bronze 4 5000) /\
  memberTier (updateMemberTier (mkUserStats 0 Bronze 3 4999)) = Silver /\
  memberTier (updateMemberTier (mkUserStats 0 Bronze 4 5000)) = Gold.
Proof.
  split; [discriminate|].
  destruct (memberTier_thresholds (mkUserStats 0 Bronze 3 4999) (mkUserStats 0 Bronze 4 5000))
    as (_ & _ & Hs & _).
  destruct (memberTier_thresholds (mkUserStats 0 Bronze 4 5000) (mkUserStats 0 Bronze 4 5000))
    as (_ & _ & _ & Hg & _).
  split; [apply Hs|apply Hg]; split; (discriminate || reflexivity).
Defined.

(** X25: for a user whose tier is up to date, recording an order with a
    total that is not negative counts one more order, adds the total to
    the total spent and never lowers the tier; adding loyalty points
    leaves the tier as it is, however many points are added. *)
Theorem order_stats_never_demote (u : UserStats) (orderTotal points : Number) :
  memberTier (updateMemberTier u) = memberTier u ->
  0 <= orderTotal ->
  let u' := updateOrderStats u orderTotal in
  totalOrders u' = totalOrders u + 1 /\
  totalSpent u' = totalSpent u + orderTotal /\
  loyaltyPoints u' = loyaltyPoints u /\
  (tier_rank (memberTier u) <= tier_rank (memberTier u'))%nat /\
  memberTier (addLoyaltyPoints u points) = memberTier u /\
  loyaltyPoints (addLoyaltyPoints u points) = loyaltyPoints u + points.
Proof.
  intros Hup Ht u'. subst u'. repeat split.
  - rewrite <- Hup. unfold updateOrderStats. apply tier_rank_monotone. simpl. lra.
  - rewrite <- Hup. reflexivity.
Qed.

Lemma order_stats_never_demote_witness :
  memberTier (updateMemberTier (mkUserStats 10 Silver 3 4990))
  = memberTier (mkUserStats 10 Silver 3 4990) /\
  0 <= 25 /\
  memberTier (updateOrderStats (mkUserStats 10 Silver 3 4990) 25) = Gold /\
  (tier_rank Silver <= tier_rank Gold)%nat.
Proof.
  split; [reflexivity|]. split; [discriminate|]. split; [reflexivity|].
  destruct (order_stats_never_demote (mkUserStats 10 Silver 3 4990) 25 0 eq_refl)
    as (_ & _ & _ & H & _); [discriminate|exact H].
Defined.

(** ** Votes and reports *)

Lemma filter_other_snoc {A} (key : A -> ObjectId) (l : list A) (x : A) :
  existsb (fun y => String.eqb (key y) (key x)) l = false ->
  List.filter (fun y => negb (String.eqb (key y) (key x))) (l ++ [x]) = l.
Proof.
  intros H. rewrite List.filter_app. simpl. rewrite String.eqb_refl. simpl.
  rewrite app_nil_r. induction l as [|a l IH]; simpl in *; [reflexivity|].
  apply orb_false_iff in H as [Ha Hl]. rewrite Ha. simpl. f_equal. now apply IH.
Qed.

(** X26: a user has at most one helpful vote on a review: [addHelpful]
    adds a vote only for a user who has none, so the count grows by one
    then and stays otherwise, and voters that were pairwise distinct
    remain so; after [addHelpful] the user has voted, after
    [removeHelpful] not; and removing the vote that [addHelpful] has just
    added gives back the review as it was. *)
Theorem helpful_votes (now : Date) (r : ReviewFlags) (userId : ObjectId) :
  helpfulCount (addHelpful now r userId)
  = (helpfulCount r + if hasVotedHelpful r userId then 0 else 1)%nat /\
  hasVotedHelpful (addHelpful now r userId) userId = true /\
  hasVotedHelpful (removeHelpful r userId) userId = false /\
  (NoDup (vote_user <$> review_helpful r) ->
   NoDup (vote_user <$> review_helpful (addHelpful now r userId))) /\
  (hasVotedHelpful r userId = false ->
   removeHelpful (addHelpful now r userId) userId = r).
Proof.
  unfold helpfulCount, hasVotedHelpful, addHelpful.
  destruct (List.find _ _) eqn:F.
  - assert (E : existsb (fun vote => String.eqb (vote_user vote) userId) (review_helpful r)
                = true).
    { destruct (existsb _ _) eqn:E; [reflexivity|].
      apply find_none_existsb in E. congruence. }
    rewrite E. split; [lia|]. split; [reflexivity|]. split; [|split; [trivial|discriminate]].
    unfold removeHelpful. simpl. apply not_true_is_false. intros H.
    apply existsb_exists in H as (v0 & Hin & Hv). apply filter_In in Hin as [_ Hne].
    rewrite Hv in Hne. discriminate.
  - apply find_none_existsb in F. rewrite F. simpl.
    split; [now rewrite List.length_app|].
    split; [rewrite existsb_app; simpl; now rewrite String.eqb_refl, orb_true_r|].
    split.
    { unfold removeHelpful. simpl. apply not_true_is_false. intros H.
      apply existsb_exists in H as (v & Hin & Hv). apply filter_In in Hin as [_ Hne].
      rewrite Hv in Hne. discriminate. }
    split.
    + intros Hnd. rewrite fmap_app. apply NoDup_app. split; [exact Hnd|].
      split; [|apply NoDup_singleton].
      intros id Hin Hid. apply list_elem_of_singleton in Hid. simpl in Hid. subst id.
      apply list_elem_of_fmap in Hin as (v & Hv & Hin).
      assert (E : existsb (fun vote => String.eqb (vote_user vote) userId) (review_helpful r)
                  = true).
      { apply existsb_exists. exists v. split; [now apply list_elem_of_In|].
        rewrite <- Hv. apply String.eqb_refl. }
      congruence.
    + intros _. unfold removeHelpful. simpl.
      pose proof (filter_other_snoc vote_user (review_helpful r) (mkVote userId now) F)
        as Hs.
      simpl in Hs. rewrite Hs. now destruct r.
Qed.

Lemma helpful_votes_witness :
  hasVotedHelpful (mkReviewFlags [mkVote "u2" sample_now] []) "u1" = false /\
  removeHelpful (addHelpful sample_now (mkReviewFlags [mkVote "u2" sample_now] []) "u1") "u1"
  = mkReviewFlags [mkVote "u2" sample_now] [].
Proof.
  split; [reflexivity|].
  exact (proj2 (proj2 (proj2 (proj2
           (helpful_votes sample_now (mkReviewFlags [mkVote "u2" sample_now] []) "u1"))))
           eq_refl).
Defined.

(** X27: a user reports a review at most once: after [report] the user
    has reported, and a further report by a user who has reported already
    changes nothing, so the reason given first stands.  Reports never
    touch the helpful votes. *)
Theorem report_once (now : Date) (r : ReviewFlags) (userId : ObjectId)
    (reason : option string) :
  hasReported (report now r userId reason) userId = true /\
  review_helpful (report now r userId reason) = review_helpful r /\
  (hasReported r userId = true -> report now r userId reason = r) /\
  (hasReported r userId = false ->
   review_reported (report now r userId reason)
   = review_reported r ++ [mkReport userId reason now]).
Proof.
  unfold hasReported, report. destruct (List.find _ _) eqn:F.
  - assert (E : existsb (fun rep => String.eqb (report_user rep) userId) (review_reported r)
                = true).
    { destruct (existsb _ _) eqn:E; [reflexivity|].
      apply find_none_existsb in E. congruence. }
    rewrite E. repeat split. discriminate.
  - apply find_none_existsb in F. rewrite F. simpl.
    split; [rewrite existsb_app; simpl; now rewrite String.eqb_refl, orb_true_r|].
    repeat split. discriminate.
Qed.

Lemma report_once_witness :
  hasReported (mkReviewFlags [] [mkReport "u1" (Some "spam"%string) sample_now]) "u1" = true /\
  report sample_now (mkReviewFlags [] [mkReport "u1" (Some "spam"%string) sample_now]) "u1"
    (Some "fake"%string)
  = mkReviewFlags [] [mkReport "u1" (Some "spam"%string) sample_now].
Proof.
  split; [reflexivity|].
  exact (proj1 (proj2 (proj2
           (report_once sample_now
              (mkReviewFlags [] [mkReport "u1" (Some "spam"%string) sample_now]) "u1"
              (Some "fake"%string)))) eq_refl).
Defined.

(** ** Default address and default payment method *)

Lemma default_count_app (l1 l2 : list Address) :
  default_count (l1 ++ l2) = (default_count l1 + default_count l2)%nat.
Proof. unfold default_count. now rewrite List.filter_app, List.length_app. Qed.

Lemma default_count_cleared (l : list Address) :
  default_count (List.map (set_addr_default false) l) = 0%nat.
Proof. unfold default_count. induction l as [|a l IH]; simpl; [reflexivity|exact IH]. Qed.

Lemma default_count_first (l : list Address) :
  default_count l = 0%nat -> l <> [] -> default_count (default_first l) = 1%nat.
Proof.
  destruct l as [|a l]; [contradiction|]. unfold default_count. simpl.
  destruct (addr_isDefault a); simpl; [discriminate|]. intros -> _. reflexivity.
Qed.

Lemma length_zero_nil {A} (l : list A) : Nat.eqb (List.length l) 0 = true <-> l = [].
Proof. destruct l; simpl; split; (reflexivity || discriminate). Qed.

(** X28: adding and deleting addresses keep the rule that a user with
    addresses has exactly one default address, as long as the [isDefault]
    of an add request means to the mapper what it means to the handler
    (it is absent, a boolean, or cast to true): whatever the add route
    and the delete route then store for a user for whom the rule holds,
    the rule holds for it.  The first address becomes the default whether
    asked or not; a new default replaces the old one; and when the default
    is deleted the first remaining address takes over.  A truthy
    [isDefault] that the mapper casts to false (the strings 'false', '0'
    and 'no') breaks the rule: the old default is cleared and the new
    address is stored as no default, so that the user is left without
    one. *)
Theorem address_default_kept (newId id : ObjectId) (addrs : list Address)
    (body : AddressBody) :
  one_default addrs ->
  (plain_flag (ab_isDefault body) ->
   forall addrs', snd (add_address_handler newId (Some addrs) body) = Some addrs' ->
     one_default addrs') /\
  (forall addrs', snd (delete_address_handler (Some addrs) id) = Some addrs' ->
     one_default addrs') /\
  (res_status (fst (add_address_handler newId (Some addrs) body)) = 201%Z ->
   exists addrs' new, snd (add_address_handler newId (Some addrs) body) = Some addrs' /\
     last addrs' = Some new /\ addr_id new = newId /\
     List.length addrs' = S (List.length addrs) /\
     (plain_flag (ab_isDefault body) ->
      addrs = [] \/ value_truthy (ab_isDefault body) = true -> addr_isDefault new = true) /\
     (value_truthy (ab_isDefault body) = true ->
      castBoolean (ab_isDefault body) = Some false ->
      default_count addrs' = 0%nat)).
Proof.
  intros Hone. split; [|split].
  - intros Hplain addrs'. unfold add_address_handler.
    destruct (valid_type _), (trimmed_notEmpty (ab_name body)),
      (trimmed_notEmpty (ab_address body)), (trimmed_notEmpty (ab_city body)),
      (trimmed_notEmpty (ab_state body)), (trimmed_notEmpty (ab_zipCode body)),
      (trimmed_notEmpty (ab_country body)); cbn [snd];
      try (intros [= <-]; exact Hone).
    unfold stored_isDefault.
    destruct (value_truthy (ab_isDefault body)) eqn:T.
    + rewrite (Hplain T). cbn [snd]. rewrite orb_true_r. intros [= <-] _.
      now rewrite default_count_app, default_count_cleared.
    + cbn [snd]. rewrite orb_false_r. intros [= <-] _. rewrite default_count_app.
      destruct (Nat.eqb (List.length addrs) 0) eqn:E.
      * apply length_zero_nil in E. subst addrs. reflexivity.
      * unfold default_count at 2. simpl. rewrite Hone; [reflexivity|].
        intros ->. discriminate.
  - intros addrs'. unfold delete_address_handler.
    destruct (findIndex _ addrs) as [i|] eqn:F; cbn [snd]; [|intros [= <-]; exact Hone].
    destruct (findIndex_Some _ _ _ F) as (a & Ha & _).
    rewrite Ha. simpl.
    assert (Hne : addrs <> []) by (intros ->; discriminate).
    pose proof (Hone Hne) as Hcount.
    rewrite <- (take_drop_middle addrs i a Ha) in Hcount.
    rewrite default_count_app in Hcount.
    change (a :: drop (S i) addrs) with ([a] ++ drop (S i) addrs) in Hcount.
    rewrite default_count_app in Hcount. unfold default_count at 2 in Hcount.
    simpl in Hcount.
    set (rest := take i addrs ++ drop (S i) addrs) in *.
    assert (Hrest : default_count rest
                    = (default_count (take i addrs) + default_count (drop (S i) addrs))%nat)
      by apply default_count_app.
    destruct (addr_isDefault a); simpl in *.
    + destruct (Nat.eqb (List.length rest) 0) eqn:E; simpl.
      * intros [= <-] Hn. apply length_zero_nil in E. contradiction.
      * intros [= <-] _. apply default_count_first; [lia|].
        intros Hnil. rewrite Hnil in E. discriminate.
    + intros [= <-] _. lia.
  - unfold add_address_handler.
    destruct (valid_type _), (trimmed_notEmpty (ab_name body)),
      (trimmed_notEmpty (ab_address body)), (trimmed_notEmpty (ab_city body)),
      (trimmed_notEmpty (ab_state body)), (trimmed_notEmpty (ab_zipCode body)),
      (trimmed_notEmpty (ab_country body)); cbn [fst snd res_status]; try discriminate.
    unfold stored_isDefault.
    destruct (value_truthy (ab_isDefault body)) eqn:T.
    + destruct (castBoolean (ab_isDefault body)) as [b|] eqn:C;
        cbn [fst snd res_status]; [|discriminate].
      intros _. eexists. eexists. split; [reflexivity|].
      split; [apply last_snoc|]. split; [reflexivity|]. split.
      { rewrite List.length_app, orb_true_r, List.length_map. simpl. lia. }
      split.
      * intros Hplain _. specialize (Hplain T). rewrite C in Hplain. now injection Hplain.
      * intros _ [= ->]. rewrite orb_true_r.
        now rewrite default_count_app, default_count_cleared.
    + cbn [fst snd res_status]. intros _. eexists. eexists. split; [reflexivity|].
      split; [apply last_snoc|]. split; [reflexivity|]. split.
      { rewrite List.length_app. simpl.
        destruct (_ || _); [rewrite List.length_map|]; lia. }
      split.
      * intros _ [->|H]; [reflexivity|discriminate].
      * discriminate.
Qed.

Lemma address_default_kept_witness :
  one_default [sample_address "a1" true; sample_address "a2" false] /\
  snd (delete_address_handler (Some [sample_address "a1" true; sample_address "a2" false]) "a1")
  = Some [sample_address "a2" true] /\
  one_default [sample_address "a2" true] /\
  plain_flag (VBool true) /\
  (forall addrs',
     snd (add_address_handler "a3" (Some [sample_address "a1" true])
            (sample_address_body (VBool true)))
     = Some addrs' -> one_default addrs') /\
  value_truthy (VString "false") = true /\
  castBoolean (VString "false") = Some false /\
  (default_count <$>
     snd (add_address_handler "a3" (Some [sample_address "a1" true])
            (sample_address_body (VString "false")))) = Some 0%nat.
Proof.
  assert (H : one_default [sample_address "a1" true; sample_address "a2" false])
    by (intros _; reflexivity).
  assert (H1 : one_default [sample_address "a1" true]) by (intros _; reflexivity).
  assert (Hp : plain_flag (VBool true)) by (intros _; reflexivity).
  split; [exact H|]. split; [reflexivity|].
  split.
  { exact (proj1 (proj2 (address_default_kept "a3" "a1" _
                           (sample_address_body (VBool false)) H)) _ eq_refl). }
  split; [exact Hp|]. split.
  { exact (proj1 (address_default_kept "a3" "a1" _ (sample_address_body (VBool true)) H1) Hp). }
  split; [reflexivity|]. split; [reflexivity|].
  destruct (proj2 (proj2 (address_default_kept "a3" "a1" _
                            (sample_address_body (VString "false")) H1)) eq_refl)
    as (addrs' & new & Hs & _ & _ & _ & _ & Hbreak).
  rewrite Hs. simpl. f_equal. exact (Hbreak eq_refl eq_refl).
Defined.

(** X29: the route that sets the default payment method marks as default
    exactly the methods with the given id and keeps everything else of
    every method.  An id that no method has is answered 200 all the same
    and leaves the user without any default method. *)
Theorem set_default_method_marks (ms : list PaymentMethod) (id : ObjectId) :
  let r := set_default_method_handler (Some ms) id in
  res_status (fst r) = 200%Z /\
  exists ms', snd r = Some ms' /\
    Forall2 (fun m m' => set_pm_default (pm_isDefault m) m' = m /\
                         (pm_isDefault m' = true <-> pm_id m = id)) ms ms' /\
    ((forall m, In m ms -> pm_id m <> id) ->
     Forall (fun m' => pm_isDefault m' = false) ms').
Proof.
  intros r. subst r. simpl. split; [reflexivity|]. eexists. split; [reflexivity|]. split.
  - induction ms as [|m ms IH]; simpl; constructor; [|exact IH].
    split; [now destruct m|]. simpl. apply String.eqb_eq.
  - intros Hnone. apply Forall_forall. intros m' Hin.
    apply list_elem_of_In, in_map_iff in Hin as (m & <- & Hin). simpl.
    apply String.eqb_neq. now apply Hnone.
Qed.

Lemma set_default_method_marks_witness :
  (forall m, In m [sample_method "m1" true] -> pm_id m <> "m9"%string) /\
  snd (set_default_method_handler (Some [sample_method "m1" true]) "m9")
  = Some [sample_method "m1" false].
Proof.
  assert (H : forall m, In m [sample_method "m1" true] -> pm_id m <> "m9"%string).
  { intros m [<-|[]]. discriminate. }
  split; [exact H|].
  destruct (set_default_method_marks [sample_method "m1" true] "m9")
    as (_ & ms' & Hs & _ & _).
  reflexivity.
Defined.

(** ** Validation at checkout *)

Lemma order_item_valid_spec (it : OrderItem) :
  order_item_valid it = true
  <-> oi_name it <> ""%string /\ 1 <= oi_quantity it /\ oi_image it <> ""%string.
Proof.
  unfold order_item_valid.
  rewrite !andb_true_iff, !required_nonempty, Qle_bool_iff. tauto.
Qed.

(** X30: an order is only created from a request that carries an order
    number, a complete shipping address, billing address and payment
    record, and every line of a created order has a quantity of at least
    1 and the name and the first image of a product that has both.  A
    request with a line of a product without image, or with a quantity
    below 1, therefore creates no order and leaves the orders as they
    are. *)
Theorem checkout_stores_valid_orders (mp : Mapper) (now : Date) (newId : ObjectId)
    (products : gmap ObjectId Product) (orders : list Order) (req : OrderRequest) :
  let r := create_order_handler mp now newId products orders req in
  (res_status (fst (fst r)) = 201%Z ->
   truthy (req_orderNumber req) = true /\
   shippingAddress_valid (req_shippingAddress req) = true /\
   billingAddress_valid (req_billingAddress req) = true /\
   paymentInfo_valid (req_paymentInfo req) = true /\
   exists o, snd r = orders ++ [o] /\
     Forall (fun it => oi_name it <> ""%string /\ 1 <= oi_quantity it /\
                       oi_image it <> ""%string) (order_items o)) /\
  (forall items item oi,
     req_items req = Some items -> In item items ->
     order_item_of mp products item oi ->
     oi_quantity oi < 1 \/ oi_image oi = ""%string ->
     res_status (fst (fst r)) <> 201%Z /\ snd r = orders).
Proof.
  intros r.
  assert (H201 : res_status (fst (fst r)) = 201%Z ->
            exists data o, order_valid data = true /\ snd r = orders ++ [o] /\
              order_items o = data_items data /\
              data_orderNumber data = req_orderNumber req /\
              data_shippingAddress data = req_shippingAddress req /\
              data_billingAddress data = req_billingAddress req /\
              data_paymentInfo data = req_paymentInfo req /\
              exists items, req_items req = Some items /\
                Forall2 (order_item_of mp products) items (data_items data)).
  { subst r. unfold create_order_handler.
    destruct (req_items req) as [[|item items]|] eqn:Hitems; try discriminate.
    destruct (process_items mp products (item :: items) 0 [])
      as [res|[itemsPrice orderItems]] eqn:P.
    { intros H. cbn [fst] in H.
      destruct (process_items_error _ _ _ _ _ _ P) as [E|E]; rewrite E in H; discriminate. }
    destruct (process_items_ok _ _ _ _ _ _ _ P) as (new & Hnew & Hall & _).
    simpl in Hnew. subst orderItems.
    unfold Order_create.
    set (data := mkOrderData _ _ _ _ _ _ _ _ _ _).
    destruct (order_valid data) eqn:V; cbn [negb]; [|discriminate].
    destruct (orderNumber_taken orders _); [discriminate|]. intros _.
    exists data. eexists. split; [exact V|]. split; [reflexivity|].
    split.
    { cbn [clear_modified order_items].
      now destruct (order_pre_save_keeps now orders (new_order mp now newId data))
        as (_ & _ & -> & _). }
    repeat (split; [reflexivity|]). exists (item :: items). split; [reflexivity|exact Hall]. }
  split.
  - intros H. destruct (H201 H) as (data & o & V & Hs & Hit & Hn & Hsa & Hba & Hpi & _).
    unfold order_valid, required in V. rewrite Hn, Hsa, Hba, Hpi in V.
    apply andb_true_iff in V as [V Vpay]. apply andb_true_iff in V as [V Vbill].
    apply andb_true_iff in V as [V Vship]. apply andb_true_iff in V as [Vnum Vitems].
    repeat (split; [assumption|]). exists o. split; [exact Hs|].
    rewrite Hit. apply Forall_forall. intros it Hin.
    apply order_item_valid_spec. rewrite forallb_forall in Vitems.
    now apply Vitems, list_elem_of_In.
  - intros items item oi Hitems Hin Hoi Hbad.
    destruct (create_order_handler_store mp now newId products orders req)
      as [[Hne Hs]|[H _]]; [split; assumption|]. exfalso.
    destruct (H201 H) as (data & o & V & _ & _ & _ & _ & _ & _ & items' & Hitems' & Hall).
    rewrite Hitems in Hitems'. injection Hitems' as <-.
    apply list_elem_of_In in Hin.
    destruct (proj1 (list_elem_of_lookup _ _) Hin) as [k Hk].
    destruct (Forall2_lookup_l _ _ _ _ _ Hall Hk) as (oi' & Hk' & Hoi').
    assert (oi' = oi).
    { destruct Hoi as (pid & oid & q & c & sz & p & -> & Hc & Hp & ->).
      destruct Hoi' as (pid' & oid' & q' & c' & sz' & p' & [= <- <- <- <-] & Hc' & Hp' & ->).
      rewrite Hc in Hc'. injection Hc' as <-. rewrite Hp in Hp'. now injection Hp' as <-. }
    subst oi'.
    unfold order_valid in V.
    apply andb_true_iff in V as [V _]. apply andb_true_iff in V as [V _].
    apply andb_true_iff in V as [V _]. apply andb_true_iff in V as [_ Vitems].
    rewrite forallb_forall in Vitems.
    assert (Hv : order_item_valid oi = true).
    { apply Vitems, list_elem_of_In, list_elem_of_lookup. now exists k. }
    apply order_item_valid_spec in Hv as (_ & Hq & Himg).
    destruct Hbad as [Hlt|Hempty]; [exact (Qlt_not_le _ _ Hlt Hq)|contradiction].
Qed.

Lemma checkout_stores_valid_orders_witness :
  res_status (fst (fst (create_order_handler sample_mapper sample_now "o1" sample_products []
                          sample_request))) = 201%Z /\
  shippingAddress_valid (req_shippingAddress sample_request) = true /\
  exists o, snd (create_order_handler sample_mapper sample_now "o1" sample_products []
                   sample_request) = [o] /\
    Forall (fun it => oi_name it <> ""%string /\ 1 <= oi_quantity it /\
                      oi_image it <> ""%string) (order_items o).
Proof.
  split; [reflexivity|].
  destruct (proj1 (checkout_stores_valid_orders sample_mapper sample_now "o1" sample_products
                     [] sample_request) eq_refl) as (_ & Hsa & _ & _ & o & Hs & Hall).
  split; [exact Hsa|]. exists o. split; [exact Hs|exact Hall].
Defined.
